(** * Invoice synthesis engine: timesheet aggregation and template pruning

    A shallow embedding of [src/services/invoices.py] (with the constant
    [NON_PROJECT_NAMES] of [src/core/config.py]) and the properties of
    its reader, filters, validators, aggregator, section pruner, formula
    rebuilder and sheet naming.

    Conventions of the embedding.
    - Hours are Python floats in the code; here they are exact rationals
      ([Q]), compared with [==].  Sums are therefore insensitive to the
      order of accumulation, which the code's floats are only up to
      rounding.
    - Python text is a [string] whose characters are read as code points
      below 256.  [str.lower], [str.strip] and friends are written out
      for that range; [str.upper], [float] on text, [strptime] and the
      printing of non-text values belong to the Python runtime and are
      fields of the class [PyRuntime].
    - An exception is a value of [exn]; code that may raise returns a
      [result].
    - Dictionaries are finite maps ([gmap]) where only lookups and sums
      over all items are taken, and association lists where the code
      walks them in insertion order. *)

From Stdlib Require Import QArith ZArith String Ascii List Permutation Sorted
  Lia Lqa.
From stdpp Require Import base option list gmap sets strings pretty.

Local Open Scope string_scope.
Local Open Scope list_scope.

(** ** Exceptions and results *)

Inductive exn :=
  | ValueError (msg : string)
  | FileNotFoundError (msg : string)
  | TypeError
  | AttributeError
  | KeyError
  | IndexError.

Inductive result (A : Type) :=
  | Ok (a : A)
  | Raise (e : exn).
Arguments Ok {A} a.
Arguments Raise {A} e.

Global Instance result_ret : MRet result := fun A a => Ok a.
Global Instance result_bind : MBind result := fun A B k r =>
  match r with
  | Ok a => k a
  | Raise e => Raise e
  end.

Definition is_ok {A} (r : result A) : bool :=
  match r with Ok _ => true | Raise _ => false end.

(** Monadic map over a list, left to right, stopping at the first raise. *)
Fixpoint mapR {A B} (f : A -> result B) (l : list A) : result (list B) :=
  match l with
  | [] => Ok []
  | x :: l' => y ← f x; ys ← mapR f l'; Ok (y :: ys)
  end.

(** ** Rational helpers *)

Definition Qlt_bool (a b : Q) : bool := negb (Qle_bool b a).

Definition Qsum (l : list Q) : Q := foldl Qplus 0%Q l.

(** ** Text *)

Definition code (c : ascii) : N := N_of_ascii c.

(** [str.isspace] on one character below 256. *)
Definition isspace (c : ascii) : bool :=
  let n := code c in
  ((9 <=? n) && (n <=? 13) || (28 <=? n) && (n <=? 32)
   || (n =? 133) || (n =? 160))%N.

(** [str.lower] on one character below 256. *)
Definition lower_char (c : ascii) : ascii :=
  let n := code c in
  if ((65 <=? n) && (n <=? 90)
      || (192 <=? n) && (n <=? 222) && negb (n =? 215))%N
  then ascii_of_N (n + 32) else c.

Fixpoint lower (s : string) : string :=
  match s with
  | EmptyString => EmptyString
  | String c s' => String (lower_char c) (lower s')
  end.

Fixpoint lstrip (s : string) : string :=
  match s with
  | EmptyString => EmptyString
  | String c s' => if isspace c then lstrip s' else s
  end.

(** [rstrip] keeps a character when it is not a space or when something
    is kept after it. *)
Fixpoint rstrip (s : string) : string :=
  match s with
  | EmptyString => EmptyString
  | String c s' =>
      match rstrip s' with
      | EmptyString => if isspace c then EmptyString else String c EmptyString
      | r => String c r
      end
  end.

Definition strip (s : string) : string := rstrip (lstrip s).

(** [c in s] for a one-character needle. *)
Fixpoint contains_char (c : ascii) (s : string) : bool :=
  match s with
  | EmptyString => false
  | String d s' => if Ascii.eqb c d then true else contains_char c s'
  end.

(** [s.replace(c, by)] for a one-character needle. *)
Fixpoint replace_char (c : ascii) (by_ : string) (s : string) : string :=
  match s with
  | EmptyString => EmptyString
  | String d s' =>
      if Ascii.eqb c d then by_ +:+ replace_char c by_ s'
      else String d (replace_char c by_ s')
  end.

(** [s.startswith(p)]. *)
Fixpoint startswith (s p : string) : bool :=
  match p, s with
  | EmptyString, _ => true
  | String _ _, EmptyString => false
  | String a p', String b s' => Ascii.eqb a b && startswith s' p'
  end.

(** [s.replace(needle, by)] for a needle of at least one character:
    [skip] counts the characters of a match still to be passed over. *)
Fixpoint replace_from (needle by_ : string) (skip : nat) (s : string)
    : string :=
  match s with
  | EmptyString => EmptyString
  | String c s' =>
      match skip with
      | S k => replace_from needle by_ k s'
      | O =>
          if startswith s needle
          then by_ +:+ replace_from needle by_ (String.length needle - 1) s'
          else String c (replace_from needle by_ O s')
      end
  end.

Definition replace (needle by_ s : string) : string :=
  replace_from needle by_ O s.

(** [needle in s] for text. *)
Fixpoint contains (needle s : string) : bool :=
  startswith s needle ||
  match s with
  | EmptyString => false
  | String _ s' => contains needle s'
  end.

(** [sep.join(l)]. *)
Definition join (sep : string) (l : list string) : string :=
  String.concat sep l.

Fixpoint take_str (n : nat) (s : string) : string :=
  match n, s with
  | O, _ => EmptyString
  | S _, EmptyString => EmptyString
  | S n', String c s' => String c (take_str n' s')
  end.

(** [s[:k]] with Python's reading of a negative bound. *)
Definition slice_to (s : string) (k : Z) : string :=
  if (0 <=? k)%Z then take_str (Z.to_nat k) s
  else take_str (Z.to_nat (Z.of_nat (String.length s) + k)) s.

(** ** Dates *)

Record pydate := mk_date { year : Z; month : Z; day : Z }.

Definition date_min : pydate := mk_date 1 1 1.

Definition date_ltb (a b : pydate) : bool :=
  ((year a <? year b)
   || (year a =? year b) && ((month a <? month b)
        || (month a =? month b) && (day a <? day b)))%Z.

(** ** Cell values

    What a table or worksheet cell holds: nothing, text, a number, a
    boolean or a date-time (its date and the microseconds since
    midnight).  Durations and error cells are not modelled. *)

Inductive pyval :=
  | PNone
  | PStr (s : string)
  | PNum (q : Q)
  | PBool (b : bool)
  | PDateTime (d : pydate) (us : N).

(** Python truthiness. *)
Definition truthy (v : pyval) : bool :=
  match v with
  | PNone => false
  | PStr s => negb (String.eqb s "")
  | PNum q => negb (Qeq_bool q 0%Q)
  | PBool b => b
  | PDateTime _ _ => true
  end.

(** ** The Python runtime

    Library functions the code calls whose full behaviour is outside the
    repository. *)

Class PyRuntime := {
  (** [float(s)] on text: the number, or the [ValueError] it raises. *)
  float_of_text : string -> result Q;
  (** [datetime.strptime(s, "%m/%d/%Y").date()]; [None] when it raises
      [ValueError]. *)
  strptime_mdY : string -> option pydate;
  (** [str(x)] for a number and for a date-time. *)
  str_of_num : Q -> string;
  str_of_datetime : pydate -> N -> string;
  (** [str.upper]. *)
  upper : string -> string;
  (** [d.strftime(fmt)]. *)
  strftime : pydate -> string -> string;
  (** [datetime.now(ZoneInfo("America/New_York")).date()]. *)
  today_new_york : pydate
}.

(** ** Time entries *)

(** The [date] key of an entry: the reader turns date-times and text into
    dates (or [None]) and leaves any other value as it is. *)
Inductive date_field :=
  | DateNone
  | DateVal (d : pydate)
  | DateNum (q : Q)
  | DateBool (b : bool).

Record entry := mk_entry {
  project_id : string;
  date : date_field;
  employee : string;
  hours : Q;
  task : string;
  phase : string;
  wid : string
}.

Definition nonempty (s : string) : bool := negb (String.eqb s "").

(** ** Input reading *)

(** [str(x)]. *)
Definition py_str `{PyRuntime} (v : pyval) : string :=
  match v with
  | PNone => "None"
  | PStr s => s
  | PNum q => str_of_num q
  | PBool true => "True"
  | PBool false => "False"
  | PDateTime d us => str_of_datetime d us
  end.

(** [float(x)]. *)
Definition py_float `{PyRuntime} (v : pyval) : result Q :=
  match v with
  | PNone => Raise TypeError
  | PStr s => float_of_text s
  | PNum q => Ok q
  | PBool b => Ok (if b then 1%Q else 0%Q)
  | PDateTime _ _ => Raise TypeError
  end.

(** [str(c).strip() if c else ""]. *)
Definition text_cell `{PyRuntime} (c : pyval) : string :=
  if truthy c then strip (py_str c) else "".

(** [str(c).strip().upper() if c else ""]. *)
Definition code_cell `{PyRuntime} (c : pyval) : string :=
  if truthy c then upper (strip (py_str c)) else "".

(** [float(c) if c else 0.0]. *)
Definition hours_cell `{PyRuntime} (c : pyval) : result Q :=
  if truthy c then py_float c else Ok 0%Q.

(** The conversion of the date cell: a date-time gives its date, text is
    parsed as month/day/year and gives no date when that fails, anything
    else is kept. *)
Definition date_cell `{PyRuntime} (c : pyval) : date_field :=
  match c with
  | PDateTime d _ => DateVal d
  | PStr s =>
      match strptime_mdY s with
      | Some d => DateVal d
      | None => DateNone
      end
  | PNone => DateNone
  | PNum q => DateNum q
  | PBool b => DateBool b
  end.

(** One pass of the row loop: [None] for a row of fewer than 9 cells. *)
Definition read_row `{PyRuntime} (row : list pyval) : result (option entry) :=
  match row with
  | c0 :: c1 :: c2 :: _ :: _ :: c5 :: c6 :: c7 :: c8 :: _ =>
      let project_id := text_cell c0 in
      let employee := text_cell c2 in
      total_adjusted_hours ← hours_cell c5;
      let task := code_cell c6 in
      let phase := code_cell c7 in
      let wid := text_cell c8 in
      Ok (Some (mk_entry project_id (date_cell c1) employee
                  total_adjusted_hours task phase wid))
  | _ => Ok None
  end.

Fixpoint read_rows `{PyRuntime} (rows : list (list pyval))
    : result (list entry) :=
  match rows with
  | [] => Ok []
  | row :: rest =>
      oe ← read_row row;
      es ← read_rows rest;
      Ok (match oe with Some e => e :: es | None => es end)
  end.

(** What the input path leads to: no file, a document without the
    expected sheet and table, or the table's rows. *)
Inductive source :=
  | SourceAbsent
  | SourceNoTable
  | SourceTable (rows : list (list pyval)).

Definition InputMissing : exn :=
  ValueError "Input file contains no data rows".

Definition read_timesheet_data `{PyRuntime} (input_file : string)
    (src : source) : result (list entry) :=
  match src with
  | SourceAbsent =>
      Raise (FileNotFoundError ("Input file not found: " +:+ input_file))
  | SourceNoTable =>
      Raise (ValueError
        "Expected sheet '3 Timesheet Detail (Edit)' with table 'Table 1' not found in input file")
  | SourceTable rows =>
      if (length rows <? 2)%nat then Raise InputMissing
      else read_rows (tail rows)
  end.

(** [parse_project_id]: name and number around the first colon. *)
Fixpoint split_colon (s : string) : string * string :=
  match s with
  | EmptyString => (EmptyString, EmptyString)
  | String c s' =>
      if Ascii.eqb c ":" then (EmptyString, s')
      else let '(a, b) := split_colon s' in (String c a, b)
  end.

Definition parse_project_id (project_id : string)
    : result (string * string) :=
  if negb (contains_char ":" project_id) then
    Raise (ValueError
      ("Project ID missing colon separator: '" +:+ project_id +:+ "'"))
  else
    let '(a, b) := split_colon project_id in Ok (strip a, strip b).

(** ** Filtering and validation *)

Definition NON_PROJECT_NAMES : gset string :=
  list_to_set ["office"; "vacation"; "holiday"; "sick"; "personal time"].
Global Arguments NON_PROJECT_NAMES : simpl never.

Definition is_non_project (e : entry) : bool :=
  let project_id := lower (project_id e) in
  existsb (fun non_project =>
             startswith project_id (non_project +:+ ":")
             || String.eqb project_id non_project)
          (elements NON_PROJECT_NAMES).

Definition filter_non_projects (entries : list entry)
    : list entry * nat :=
  foldl (fun '(filtered, excluded_count) e =>
           if is_non_project e then (filtered, S excluded_count)
           else (filtered ++ [e], excluded_count))
        ([], O) entries.

Definition filter_zero_hours (entries : list entry) : list entry :=
  filter (fun e => Is_true (Qlt_bool 0%Q (hours e))) entries.

Definition BILLABLE_TASK_CODES : gset string :=
  list_to_set ["DP"; "PM"; "3-D"; "D-D"; "M"].
Global Arguments BILLABLE_TASK_CODES : simpl never.
Definition BILLABLE_PHASE_CODES : gset string :=
  list_to_set ["PD"; "SD"; "DD"; "CD"; "CA"; "M"].
Global Arguments BILLABLE_PHASE_CODES : simpl never.

(** Stable insertion sort by a strict order, as [sorted] is stable. *)
Fixpoint insert_sorted {A} (ltb : A -> A -> bool) (x : A) (l : list A)
    : list A :=
  match l with
  | [] => [x]
  | y :: l' => if ltb y x then y :: insert_sorted ltb x l' else x :: l
  end.

Definition sorted {A} (ltb : A -> A -> bool) (l : list A) : list A :=
  foldr (insert_sorted ltb) [] l.

Definition task_error (task project_id : string) : string :=
  "Invalid Task code '" +:+ task +:+ "' for project '" +:+ project_id
  +:+ "' (valid: "
  +:+ join ", " (sorted String.ltb (elements BILLABLE_TASK_CODES)) +:+ ")".

Definition phase_error (phase project_id : string) : string :=
  "Invalid Phase code '" +:+ phase +:+ "' for project '" +:+ project_id
  +:+ "' (valid: "
  +:+ join ", " (sorted String.ltb (elements BILLABLE_PHASE_CODES)) +:+ ")".

Definition validate_codes (entries : list entry) : list string :=
  foldl (fun errors e =>
           let errors :=
             if nonempty (task e)
                && negb (bool_decide (task e ∈ BILLABLE_TASK_CODES))
             then errors ++ [task_error (task e) (project_id e)]
             else errors in
           if nonempty (phase e)
              && negb (bool_decide (phase e ∈ BILLABLE_PHASE_CODES))
           then errors ++ [phase_error (phase e) (project_id e)]
           else errors)
        [] entries.

Definition project_id_error (project_id : string) : string :=
  "Project ID missing colon separator: '" +:+ project_id +:+ "'".

Definition validate_project_ids (entries : list entry) : list string :=
  fst (foldl (fun '(errors, seen) e =>
                let project_id := project_id e in
                if bool_decide (project_id ∈ (seen : gset string))
                then (errors, seen)
                else
                  let seen := {[ project_id ]} ∪ seen in
                  if negb (contains_char ":" project_id)
                  then (errors ++ [project_id_error project_id], seen)
                  else (errors, seen))
             ([], ∅) entries).

(** ** Aggregation *)

Definition aggregate_hours (entries : list entry)
    : gmap string (gmap (string * string) Q) :=
  foldl (fun result e =>
           if nonempty (task e) && nonempty (phase e) then
             let slice := default ∅ (result !! project_id e) in
             let old := default 0%Q (slice !! (task e, phase e)) in
             <[project_id e :=
                 <[(task e, phase e) := (old + hours e)%Q]> slice]> result
           else result)
        ∅ entries.

(** [sum(d.values())]. *)
Definition sum_values `{Countable K} (d : gmap K Q) : Q :=
  map_fold (fun _ v acc => (acc + v)%Q) 0%Q d.

(** The grouping loop of [group_by_project], before the sort. *)
Definition group_entries (entries : list entry) : gmap string (list entry) :=
  foldl (fun grouped e =>
           <[project_id e := default [] (grouped !! project_id e) ++ [e]]>
             grouped)
        ∅ entries.

(** The sort key [e["date"] or date.min]: a date, or the number a
    non-date value left in the entry compares as. *)
Inductive sort_key :=
  | KeyDate (d : pydate)
  | KeyNum (q : Q).

Definition date_key (e : entry) : sort_key :=
  match date e with
  | DateNone => KeyDate date_min
  | DateVal d => KeyDate d
  | DateNum q => if Qeq_bool q 0%Q then KeyDate date_min else KeyNum q
  | DateBool b => if b then KeyNum 1%Q else KeyDate date_min
  end.

(** [a < b] on keys: Python refuses to order a date against a number. *)
Definition key_lt (a b : sort_key) : result bool :=
  match a, b with
  | KeyDate x, KeyDate y => Ok (date_ltb x y)
  | KeyNum x, KeyNum y => Ok (Qlt_bool x y)
  | _, _ => Raise TypeError
  end.

(** [list.sort(key=...)]: stable, raising at the first comparison of two
    keys of different kinds (every comparison sort makes one when both
    kinds are present). *)
Fixpoint insert_by_date (x : entry) (l : list entry) : result (list entry) :=
  match l with
  | [] => Ok [x]
  | y :: l' =>
      b ← key_lt (date_key y) (date_key x);
      if b : bool then r ← insert_by_date x l'; Ok (y :: r)
      else Ok (x :: l)
  end.

Fixpoint sort_by_date (l : list entry) : result (list entry) :=
  match l with
  | [] => Ok []
  | x :: l' => s ← sort_by_date l'; insert_by_date x s
  end.

Definition group_by_project (entries : list entry)
    : result (gmap string (list entry)) :=
  map_fold (fun project_id l acc =>
              grouped ← acc;
              s ← sort_by_date l;
              Ok (<[project_id := s]> grouped))
           (Ok ∅) (group_entries entries).

(** ** Sheet names *)

Definition MAX_SHEET_NAME_LENGTH : Z := 31.

Definition invalid_chars : list ascii :=
  ["\"; "/"; "?"; "*"; "["; "]"]%char.

Definition make_sheet_name (name suffix : string) : string :=
  let sanitized := replace_char ":" " -" name in
  let sanitized :=
    foldl (fun s c => replace_char c "-" s) sanitized invalid_chars in
  let max_base_len :=
    (MAX_SHEET_NAME_LENGTH - Z.of_nat (String.length suffix))%Z in
  let sanitized :=
    if (max_base_len <? Z.of_nat (String.length sanitized))%Z
    then rstrip (slice_to sanitized max_base_len)
    else sanitized in
  sanitized +:+ suffix.

(** ** The template layout *)

Record phase_info := mk_phase {
  header : nat;
  tasks : list nat;
  subtotal : nat
}.

Record template := mk_template {
  project_name_row : nat;
  project_number_row : nat;
  invoice_date_row : nat;
  invoice_number_row : nat;
  value_col : nat;
  units_col : nat;
  rate_col : nat;
  cost_col : nat;
  total_col : nat;
  phases : list (string * phase_info);
  overall_subtotal_row : nat;
  reimbursable_header : nat;
  reimbursable_rows : list nat;
  reimbursable_subtotal : nat;
  total_amount_due_row : nat;
  footer_row : nat
}.

Definition TEMPLATE_STRUCTURE : template := {|
  project_name_row := 3;
  project_number_row := 4;
  invoice_date_row := 5;
  invoice_number_row := 6;
  value_col := 3;
  units_col := 3;
  rate_col := 4;
  cost_col := 5;
  total_col := 6;
  phases := [
    ("PD", mk_phase 10 [11; 12; 13; 14] 15);
    ("SD", mk_phase 16 [17; 18; 19; 20] 21);
    ("DD", mk_phase 22 [23; 24; 25; 26] 27);
    ("CD", mk_phase 28 [29; 30; 31; 32] 33);
    ("CA", mk_phase 34 [35; 36; 37; 38] 39);
    ("M", mk_phase 40 [41] 42)
  ];
  overall_subtotal_row := 43;
  reimbursable_header := 44;
  reimbursable_rows := [45; 46; 47];
  reimbursable_subtotal := 48;
  total_amount_due_row := 50;
  footer_row := 52
|}.

Definition PHASE_ORDER : list string := ["PD"; "SD"; "DD"; "CD"; "CA"; "M"].
Definition TASK_ORDER_STANDARD : list string := ["DP"; "PM"; "3-D"; "D-D"].
Definition TASK_ORDER_MEETINGS : list string := ["M"].

(** [d[k]] on an association list: [KeyError] when the key is absent. *)
Fixpoint getitem {V} (d : list (string * V)) (k : string) : result V :=
  match d with
  | [] => Raise KeyError
  | (k', v) :: d' => if String.eqb k k' then Ok v else getitem d' k
  end.

(** [l[i]]: [IndexError] when out of range. *)
Definition index {A} (l : list A) (i : nat) : result A :=
  match l !! i with
  | Some x => Ok x
  | None => Raise IndexError
  end.

(** [enumerate(l)]. *)
Definition enumerate {A} (l : list A) : list (nat * A) := imap pair l.

(** ** Section pruning *)

Definition calculate_phase_hours (hours_dict : gmap (string * string) Q)
    : gmap string Q :=
  map_fold (fun '(_, phase) hours phase_totals =>
              <[phase :=
                 (default 0%Q (phase_totals !! phase) + hours)%Q]>
                phase_totals)
           ∅ hours_dict.

(** One pass of the phase loop: the rows it appends. *)
Definition phase_rows_to_delete (hours_dict : gmap (string * string) Q)
    (phase_totals : gmap string Q) (phase_code : string)
    : result (list nat) :=
  phase_info ← getitem (phases TEMPLATE_STRUCTURE) phase_code;
  let phase_hours := default 0%Q (phase_totals !! phase_code) in
  if Qeq_bool phase_hours 0%Q then
    Ok (header phase_info :: tasks phase_info ++ [subtotal phase_info])
  else if negb (String.eqb phase_code "M") then
    rows ← mapR (fun '(i, task_code) =>
                   let task_hours :=
                     default 0%Q (hours_dict !! (task_code, phase_code)) in
                   if Qeq_bool task_hours 0%Q then
                     r ← index (tasks phase_info) i; Ok [r]
                   else Ok [])
                (enumerate TASK_ORDER_STANDARD);
    Ok (concat rows)
  else Ok [].

Definition calculate_rows_to_delete (hours_dict : gmap (string * string) Q)
    : result (list nat) :=
  let phase_totals := calculate_phase_hours hours_dict in
  rows ← mapR (phase_rows_to_delete hours_dict phase_totals) PHASE_ORDER;
  Ok (sorted (fun y x => (x <? y)%nat) (concat rows)).

(** ** Worksheets

    A worksheet is its cells, by row and column (both from 1), and the
    number openpyxl reports as [max_row]. *)

Record worksheet := mk_ws {
  max_row : nat;
  cells : gmap (nat * nat) pyval
}.

(** [ws.cell(row=r, column=c).value]. *)
Definition cell (ws : worksheet) (row column : nat) : pyval :=
  default PNone (cells ws !! (row, column)).

(** [ws.cell(row=r, column=c, value=v)]. *)
Definition set_cell (ws : worksheet) (row column : nat) (value : pyval)
    : worksheet :=
  mk_ws (Nat.max (max_row ws) row) (<[(row, column) := value]> (cells ws)).

(** A sheet as [wb.create_sheet] makes it. *)
Definition empty_sheet : worksheet := mk_ws 1 ∅.

(** [range(a, b)]. *)
Definition range (a b : nat) : list nat := seq a (b - a).

(** ** Populating the invoice sheet *)

Definition ordinal_suffix (day : Z) : string :=
  if ((11 <=? day) && (day <=? 13))%Z then "th"
  else if (day mod 10 =? 1)%Z then "st"
  else if (day mod 10 =? 2)%Z then "nd"
  else if (day mod 10 =? 3)%Z then "rd"
  else "th".


Definition format_timesheet_date `{PyRuntime} (d : pydate) : string :=
  let day_suffix := ordinal_suffix (day d) in
  strftime d ("%A, %B " +:+ pretty (day d) +:+ day_suffix +:+ " %Y").

(** [hours_dict.get(key, 0)]. *)
Definition get_hours (hours_dict : gmap (string * string) Q)
    (key : string * string) : Q :=
  default 0%Q (hours_dict !! key).


(** [foldl] in the result monad: a loop whose body may raise. *)
Fixpoint foldR {A B} (f : A -> B -> result A) (a : A) (l : list B)
    : result A :=
  match l with
  | [] => Ok a
  | x :: l' => a' ← f a x; foldR f a' l'
  end.



(** ** Formula rebuilding *)

Definition phase_headers : gset string :=
  list_to_set [
    "Pre-Design"; "Schematic Design"; "Design Development";
    "Construction Documents"; "Construction Administration";
    "Meetings w/ Client or Contractor" ].
Global Arguments phase_headers : simpl never.

Definition task_descriptions : gset string :=
  list_to_set [
    "Design Principal"; "Project Management"; "3D Model";
    "Design and Documentation"; "Meetings" ].
Global Arguments task_descriptions : simpl never.

(** First pass: the phase header rows in order and the set of task rows
    (the keys of [task_rows_map]). *)
Definition classify_rows `{PyRuntime} (ws : worksheet)
    : list nat * gset nat :=
  foldl (fun '(phase_rows, task_rows_map) row =>
           let cell_b := cell ws row 2 in
           if negb (truthy cell_b) then (phase_rows, task_rows_map)
           else
             let cell_b_str := strip (py_str cell_b) in
             if bool_decide (cell_b_str ∈ phase_headers)
             then (phase_rows ++ [row], task_rows_map)
             else if bool_decide (cell_b_str ∈ task_descriptions)
             then (phase_rows, {[ row ]} ∪ task_rows_map)
             else (phase_rows, task_rows_map))
        ([], ∅) (range 1 (max_row ws + 1)).

(** The variables of the second pass. *)
Record totals_scan := mk_scan {
  scan_overall_subtotal_row : option nat;
  scan_reimbursable_subtotal_row : option nat;
  scan_reimbursable_cost_rows : list nat;
  scan_total_amount_due_row : option nat;
  scan_in_reimbursable : bool
}.

Definition reimbursable_names : list string :=
  ["CCI Engineering"; "Phipps Printing"; "In house plotting(s.f.)"].

Definition scan_row `{PyRuntime} (ws : worksheet) (st : totals_scan)
    (row : nat) : totals_scan :=
  let cell_b := cell ws row 2 in
  let cell_d := cell ws row 4 in
  let st :=
    if truthy cell_b then
      let cell_b_str := strip (py_str cell_b) in
      if String.eqb cell_b_str "Reimbursable" then
        mk_scan (scan_overall_subtotal_row st)
                (scan_reimbursable_subtotal_row st)
                (scan_reimbursable_cost_rows st)
                (scan_total_amount_due_row st) true
      else if String.eqb cell_b_str "Subtotal" then
        if negb (scan_in_reimbursable st) then
          mk_scan (Some row)
                  (scan_reimbursable_subtotal_row st)
                  (scan_reimbursable_cost_rows st)
                  (scan_total_amount_due_row st) (scan_in_reimbursable st)
        else
          mk_scan (scan_overall_subtotal_row st)
                  (Some row)
                  (scan_reimbursable_cost_rows st)
                  (scan_total_amount_due_row st) (scan_in_reimbursable st)
      else if existsb (String.eqb cell_b_str) reimbursable_names then
        mk_scan (scan_overall_subtotal_row st)
                (scan_reimbursable_subtotal_row st)
                (scan_reimbursable_cost_rows st ++ [row])
                (scan_total_amount_due_row st) (scan_in_reimbursable st)
      else st
    else st in
  if truthy cell_d && contains "Total Amount Due" (py_str cell_d) then
    mk_scan (scan_overall_subtotal_row st)
            (scan_reimbursable_subtotal_row st)
            (scan_reimbursable_cost_rows st)
            (Some row) (scan_in_reimbursable st)
  else st.

Definition scan_totals `{PyRuntime} (ws : worksheet) : totals_scan :=
  foldl (scan_row ws) (mk_scan None None [] None false)
        (range 1 (max_row ws + 1)).

(** Truthiness of an [Optional[int]] row: [None] and [0] are false. *)
Definition row_found (r : option nat) : bool :=
  match r with
  | Some (S _) => true
  | _ => false
  end.

(** [r or d]. *)
Definition row_or (r : option nat) (d : nat) : nat :=
  match r with
  | Some (S k) => S k
  | _ => d
  end.

(** Insertion-ordered dictionaries with row keys. *)
Fixpoint dict_set {V} (d : list (nat * V)) (k : nat) (v : V)
    : list (nat * V) :=
  match d with
  | [] => [(k, v)]
  | (k', v') :: d' =>
      if (k =? k')%nat then (k, v) :: d' else (k', v') :: dict_set d' k v
  end.

Fixpoint dict_get {V} (d : list (nat * V)) (k : nat) : option V :=
  match d with
  | [] => None
  | (k', v) :: d' => if (k =? k')%nat then Some v else dict_get d' k
  end.

(** The inner loop over the rows of one phase: its task rows and the
    first row with an empty description after a task row. *)
Definition phase_span `{PyRuntime} (ws : worksheet)
    (task_rows_map : gset nat) (phase_row next_phase_row : nat)
    : list nat * option nat :=
  foldl (fun '(phase_tasks, subtotal_row) row =>
           let cell_b := cell ws row 2 in
           if bool_decide (row ∈ task_rows_map)
           then (phase_tasks ++ [row], subtotal_row)
           else if negb (truthy cell_b) then
             match phase_tasks, subtotal_row with
             | _ :: _, None => (phase_tasks, Some row)
             | _, _ => (phase_tasks, subtotal_row)
             end
           else (phase_tasks, subtotal_row))
        ([], None) (range (phase_row + 1) next_phase_row).

(** What the scan of a worksheet finds. *)
Record structure := mk_structure {
  phase_task_rows : list (nat * list nat);
  phase_subtotal_rows : list (nat * nat);
  totals : totals_scan
}.

Definition build_phases `{PyRuntime} (ws : worksheet)
    (phase_rows : list nat) (task_rows_map : gset nat)
    (overall_subtotal_row : option nat)
    : list (nat * list nat) * list (nat * nat) :=
  foldl (fun '(phase_task_rows, phase_subtotal_rows) '(i, phase_row) =>
           let next_phase_row :=
             match phase_rows !! (i + 1)%nat with
             | Some r => r
             | None => row_or overall_subtotal_row (max_row ws)
             end in
           let '(phase_tasks, subtotal_row) :=
             phase_span ws task_rows_map phase_row next_phase_row in
           match phase_tasks with
           | [] => (phase_task_rows, phase_subtotal_rows)
           | _ :: _ =>
               (dict_set phase_task_rows phase_row phase_tasks,
                match subtotal_row with
                | Some (S r) =>
                    dict_set phase_subtotal_rows phase_row (S r)
                | _ => phase_subtotal_rows
                end)
           end)
        ([], []) (enumerate phase_rows).

Definition discover `{PyRuntime} (ws : worksheet) : structure :=
  let '(phase_rows, task_rows_map) := classify_rows ws in
  let st := scan_totals ws in
  let '(phase_task_rows, phase_subtotal_rows) :=
    build_phases ws phase_rows task_rows_map (scan_overall_subtotal_row st) in
  mk_structure phase_task_rows phase_subtotal_rows st.

(** A formula written to a cell: row, column, text. *)
Definition write := (nat * nat * string)%type.

Definition cost_formula (task_row : nat) : string :=
  "=C" +:+ pretty task_row +:+ "*D" +:+ pretty task_row.

Definition span_formula (first last : nat) : string :=
  "=SUM(E" +:+ pretty first +:+ ":E" +:+ pretty last +:+ ")".

Definition list_formula (column : string) (rows : list nat) : string :=
  "=SUM(" +:+ join "," (map (fun r => column +:+ pretty r) rows) +:+ ")".

Definition all_task_rows (s : structure) : list nat :=
  concat (map snd (phase_task_rows s)).

(** Step 1: the cost formula of every task row. *)
Definition cost_writes (s : structure) : list write :=
  map (fun task_row => (task_row, 5, cost_formula task_row))
      (all_task_rows s).

(** Step 2, one phase: the subtotal row written, if any. *)
Definition phase_subtotal_write (s : structure)
    (item : nat * list nat) : option write :=
  let '(phase_row, task_rows) := item in
  match dict_get (phase_subtotal_rows s) phase_row, task_rows with
  | Some (S r), t :: ts =>
      let first_task := foldl Nat.min t ts in
      let last_task := foldl Nat.max t ts in
      Some (S r, 6, span_formula first_task last_task)
  | _, _ => None
  end.

Definition phase_subtotal_writes (s : structure) : list write :=
  omap (phase_subtotal_write s) (phase_task_rows s).

Definition phase_subtotal_list (s : structure) : list nat :=
  map (fun w : write => fst (fst w)) (phase_subtotal_writes s).

(** Step 3: the two cells of the overall subtotal row. *)
Definition overall_writes (s : structure) : list write :=
  match scan_overall_subtotal_row (totals s) with
  | Some (S o) =>
      (match all_task_rows s with
       | [] => []
       | _ :: _ =>
           [(S o, 3, list_formula "C" (sorted Nat.ltb (all_task_rows s)))]
       end) ++
      (match phase_subtotal_list s with
       | [] => []
       | _ :: _ =>
           [(S o, 6,
             list_formula "F" (sorted Nat.ltb (phase_subtotal_list s)))]
       end)
  | _ => []
  end.

(** Step 4: the reimbursable subtotal. *)
Definition reimbursable_writes (s : structure) : list write :=
  match scan_reimbursable_subtotal_row (totals s),
        scan_reimbursable_cost_rows (totals s) with
  | Some (S r), c :: cs =>
      [(S r, 6, span_formula (foldl Nat.min c cs) (foldl Nat.max c cs))]
  | _, _ => []
  end.

(** Step 5: Total Amount Due. *)
Definition total_due_writes (s : structure) : list write :=
  match scan_total_amount_due_row (totals s),
        scan_overall_subtotal_row (totals s) with
  | Some (S t), Some (S o) =>
      match scan_reimbursable_subtotal_row (totals s) with
      | Some (S r) =>
          [(S t, 6, "=F" +:+ pretty (S o) +:+ "+F" +:+ pretty (S r))]
      | _ => [(S t, 6, "=F" +:+ pretty (S o))]
      end
  | _, _ => []
  end.

(** The formulas in the order the function writes them. *)
Definition formula_writes (s : structure) : list write :=
  cost_writes s ++ phase_subtotal_writes s ++ overall_writes s
  ++ reimbursable_writes s ++ total_due_writes s.

Definition apply_write (ws : worksheet) (w : write) : worksheet :=
  let '(row, column, text) := w in set_cell ws row column (PStr text).

(** All reads of [rebuild_formulas] come before its first write, so the
    function is the scan followed by the writes. *)
Definition rebuild_formulas `{PyRuntime} (ws : worksheet) : worksheet :=
  foldl apply_write ws (formula_writes (discover ws)).

(** ** The detail sheet *)

(** [enumerate(l, start=n)]. *)
Definition enumerate_from {A} (n : nat) (l : list A) : list (nat * A) :=
  imap (fun i x => (n + i, x)%nat) l.

(** The text of the date column: empty for a false value, and an
    [AttributeError] for a true value that is not a date. *)
Definition detail_date `{PyRuntime} (d : date_field) : result string :=
  match d with
  | DateNone => Ok ""
  | DateVal d => Ok (format_timesheet_date d)
  | DateNum q => if Qeq_bool q 0%Q then Ok "" else Raise AttributeError
  | DateBool b => if b then Raise AttributeError else Ok ""
  end.

Definition detail_row `{PyRuntime} (ws : worksheet) (data_row : nat)
    (e : entry) : result worksheet :=
  date_str ← detail_date (date e);
  let ws := set_cell ws data_row 1 (PStr date_str) in
  let ws := set_cell ws data_row 2 (PStr (employee e)) in
  let ws := set_cell ws data_row 3 (PNum (hours e)) in
  let ws := set_cell ws data_row 4 (PStr (phase e)) in
  let ws := set_cell ws data_row 5 (PStr (task e)) in
  let ws := set_cell ws data_row 6 (PStr (wid e)) in
  Ok ws.

(** The worksheet [create_timesheet_sheet] adds to the workbook (fonts,
    fills and widths left out). *)
Definition create_timesheet_sheet `{PyRuntime} (entries : list entry)
    : result worksheet :=
  let ws := empty_sheet in
  let headers := ["Date"; "E"; "H"; "P"; "T"; "WID"] in
  let header_row := 1%nat in
  let ws :=
    foldl (fun ws '(col_idx, header) =>
             set_cell ws header_row col_idx (PStr header))
          ws (enumerate_from 1 headers) in
  let first_data_row := (header_row + 1)%nat in
  ws ← foldR (fun ws '(row_offset, e) =>
                detail_row ws (first_data_row + row_offset) e)
             ws (enumerate entries);
  let last_data_row := (first_data_row + length entries - 1)%nat in
  let total_row := (last_data_row + 1)%nat in
  let ws := set_cell ws total_row 1 (PStr "Total") in
  let ws :=
    set_cell ws total_row 3
      (PStr ("=SUM(C" +:+ pretty first_data_row +:+ ":C"
             +:+ pretty last_data_row +:+ ")")) in
  Ok ws.



(** ** The pipeline *)

Definition newline : string := String (ascii_of_nat 10) EmptyString.

Definition NoBillableData : exn :=
  ValueError "No billable projects found in input file".

(** The batch errors of the two validators. *)
Definition InvalidProjectId (errors : list string) : exn :=
  ValueError (join newline errors).
Definition InvalidCode (errors : list string) : exn :=
  ValueError (join newline errors).

Record InvoiceResult (Workbook : Type) := mk_result {
  workbook : Workbook;
  project_count : nat;
  total_hours : Q;
  entries : list entry
}.
Arguments mk_result {Workbook}.
Arguments workbook {Workbook}.
Arguments project_count {Workbook}.
Arguments total_hours {Workbook}.
Arguments entries {Workbook}.

Section Pipeline.
Context `{PyRuntime} {Workbook : Type}.

(** The workbook assembler, with the template it loads: it works on
    openpyxl workbooks and is taken as given. *)
Variable create_invoice_workbook :
  gmap string (gmap (string * string) Q) ->
  gmap string (list entry) -> option pydate -> result Workbook.

(** [_process_invoices] after the read (with [silent] set). *)
Definition process_entries (all_entries : list entry)
    (invoice_date : option pydate) : result (InvoiceResult Workbook) :=
  let '(filtered_entries, excluded_count) :=
    filter_non_projects all_entries in
  let filtered_entries := filter_zero_hours filtered_entries in
  let project_errors := validate_project_ids filtered_entries in
  match project_errors with
  | _ :: _ => Raise (InvalidProjectId project_errors)
  | [] =>
      let code_errors := validate_codes filtered_entries in
      match code_errors with
      | _ :: _ => Raise (InvalidCode code_errors)
      | [] =>
          match filtered_entries with
          | [] => Raise NoBillableData
          | _ :: _ =>
              let aggregated := aggregate_hours filtered_entries in
              grouped ← group_by_project filtered_entries;
              wb ← create_invoice_workbook aggregated grouped invoice_date;
              let total_hours :=
                map_fold (fun _ hours acc => (acc + sum_values hours)%Q)
                         0%Q aggregated in
              Ok (mk_result wb (size aggregated) total_hours
                    filtered_entries)
          end
      end
  end.

Definition _process_invoices (input_file : string) (src : source)
    (invoice_date : option pydate) : result (InvoiceResult Workbook) :=
  all_entries ← read_timesheet_data input_file src;
  process_entries all_entries invoice_date.
End Pipeline.


(** ** A reference runtime

    An instance of [PyRuntime] to run the model on concrete inputs.  It
    follows CPython on the inputs it covers: [float] on plain decimal
    literals (no exponent, infinity or NaN), [strptime] on
    month/day/four-digit-year text, [str] on whole numbers and on
    date-times, [upper] on characters whose capital is below 256, and
    [strftime] on the directives [%A], [%B], [%d], [%m] and [%Y]. *)

Module Reference.

Definition is_digit (c : ascii) : bool :=
  ((48 <=? code c) && (code c <=? 57))%N.

Definition digit_value (c : ascii) : Z := Z.of_N (code c - 48).

(** The value of a run of digits, [None] for anything else. *)
Fixpoint digits_from (acc : Z) (s : string) : option Z :=
  match s with
  | EmptyString => Some acc
  | String c s' =>
      if is_digit c then digits_from (10 * acc + digit_value c)%Z s'
      else None
  end.

Definition digits (s : string) : option Z :=
  match s with
  | EmptyString => None
  | _ => digits_from 0 s
  end.

(** The text before and after the first occurrence of [c]. *)
Fixpoint split_at (c : ascii) (s : string) : string * option string :=
  match s with
  | EmptyString => (EmptyString, None)
  | String d s' =>
      if Ascii.eqb c d then (EmptyString, Some s')
      else let '(a, b) := split_at c s' in (String d a, b)
  end.

Definition unsigned_decimal (s : string) : option Q :=
  match split_at "." s with
  | (whole, None) => z ← digits whole; Some (inject_Z z)
  | (whole, Some frac) =>
      match whole, frac with
      | EmptyString, EmptyString => None
      | _, _ =>
          w ← digits_from 0 whole;
          f ← digits_from 0 frac;
          Some (inject_Z w
                + Qmake f (Pos.pow 10 (Pos.of_nat (String.length frac)))
                  * (if String.eqb frac "" then 0 else 1))%Q
      end
  end.

Definition float_of_text (s : string) : result Q :=
  let t := strip s in
  let r :=
    match t with
    | String "-" t' => q ← unsigned_decimal t'; Some (- q)%Q
    | String "+" t' => unsigned_decimal t'
    | _ => unsigned_decimal t
    end in
  match r with
  | Some q => Ok q
  | None =>
      Raise (ValueError
               ("could not convert string to float: '" +:+ s +:+ "'"))
  end.

Definition is_leap (y : Z) : bool :=
  ((y mod 4 =? 0) && (negb (y mod 100 =? 0) || (y mod 400 =? 0)))%Z.

Definition days_in_month (y m : Z) : Z :=
  if (m =? 2)%Z then (if is_leap y then 29 else 28)%Z
  else if ((m =? 4) || (m =? 6) || (m =? 9) || (m =? 11))%Z then 30%Z
  else 31%Z.

Definition strptime_mdY (s : string) : option pydate :=
  match split_at "/" s with
  | (ms, Some rest) =>
      match split_at "/" rest with
      | (ds, Some ys) =>
          m ← digits ms; d ← digits ds; y ← digits ys;
          if ((String.length ms <=? 2) && (String.length ds <=? 2)
              && (String.length ys =? 4))%nat
             && ((1 <=? m) && (m <=? 12) && (1 <=? y)
                 && (1 <=? d) && (d <=? days_in_month y m))%Z
          then Some (mk_date y m d) else None
      | _ => None
      end
  | _ => None
  end.

(** A number in at least [width] digits. *)
Definition padded (width : nat) (z : Z) : string :=
  let s := pretty z in
  String.concat "" (replicate (width - String.length s) "0") +:+ s.

Definition str_of_num (q : Q) : string :=
  pretty (Qnum q / Zpos (Qden q))%Z +:+ ".0".

Definition str_of_datetime (d : pydate) (us : N) : string :=
  let secs := Z.of_N (us / 1000000) in
  let micro := Z.of_N (us mod 1000000) in
  padded 4 (year d) +:+ "-" +:+ padded 2 (month d) +:+ "-"
  +:+ padded 2 (day d) +:+ " " +:+ padded 2 (secs / 3600)%Z +:+ ":"
  +:+ padded 2 ((secs / 60) mod 60)%Z +:+ ":" +:+ padded 2 (secs mod 60)%Z
  +:+ (if (micro =? 0)%Z then "" else "." +:+ padded 6 micro).

Definition upper_char (c : ascii) : ascii :=
  let n := code c in
  if ((97 <=? n) && (n <=? 122)
      || (224 <=? n) && (n <=? 254) && negb (n =? 247))%N
  then ascii_of_N (n - 32) else c.

Fixpoint upper (s : string) : string :=
  match s with
  | EmptyString => EmptyString
  | String c s' => String (upper_char c) (upper s')
  end.

(** [d.toordinal()]: 1 for 1 January of year 1, a Monday. *)
Definition toordinal (d : pydate) : Z :=
  let y := (year d - 1)%Z in
  (y * 365 + y / 4 - y / 100 + y / 400
   + foldr Z.add 0 (map (days_in_month (year d))
                        (map Z.of_nat (seq 1 (Z.to_nat (month d) - 1))))
   + day d)%Z.

Definition weekday_name (d : pydate) : string :=
  nth (Z.to_nat ((toordinal d + 6) mod 7))
      ["Monday"; "Tuesday"; "Wednesday"; "Thursday"; "Friday";
       "Saturday"; "Sunday"] "".

Definition month_name (d : pydate) : string :=
  nth (Z.to_nat (month d))
      [""; "January"; "February"; "March"; "April"; "May"; "June";
       "July"; "August"; "September"; "October"; "November";
       "December"] "".

Fixpoint strftime (d : pydate) (fmt : string) : string :=
  match fmt with
  | String "%" (String "A" r) => weekday_name d +:+ strftime d r
  | String "%" (String "B" r) => month_name d +:+ strftime d r
  | String "%" (String "d" r) => padded 2 (day d) +:+ strftime d r
  | String "%" (String "m" r) => padded 2 (month d) +:+ strftime d r
  | String "%" (String "Y" r) => padded 4 (year d) +:+ strftime d r
  | String c r => String c (strftime d r)
  | EmptyString => EmptyString
  end.

(** The day taken as today. *)
Definition today : pydate := mk_date 2025 12 30.

Definition runtime : PyRuntime :=
  Build_PyRuntime float_of_text strptime_mdY str_of_num str_of_datetime
                  upper strftime today.

End Reference.


(** * Properties *)

(** ** Text *)

Lemma append_nil (t : string) : "" +:+ t = t.
Proof. reflexivity. Qed.

Lemma append_cons c (s t : string) : String c s +:+ t = String c (s +:+ t).
Proof. reflexivity. Qed.

Lemma append_assoc (s t u : string) : (s +:+ t) +:+ u = s +:+ t +:+ u.
Proof.
  induction s as [|c s IH]; [done|]. by rewrite !append_cons, IH.
Qed.

Lemma length_app (s t : string) :
  String.length (s +:+ t) = (String.length s + String.length t)%nat.
Proof.
  induction s as [|c s IH]; [done|]. rewrite append_cons. simpl.
  by rewrite IH.
Qed.

(** ** Lists *)

Lemma filter_all {A} (P : A -> Prop) `{!forall x, Decision (P x)}
    (l : list A) :
  (forall x, x ∈ l -> P x) -> filter P l = l.
Proof.
  induction l as [|x l IH]; intros HP; [done|].
  rewrite filter_cons_True by (apply HP; left).
  rewrite IH; [done|]. intros y Hy. apply HP. by right.
Qed.

Lemma elem_of_concat {A} (x : A) (ls : list (list A)) :
  x ∈ concat ls <-> exists l, x ∈ l /\ l ∈ ls.
Proof.
  induction ls as [|l ls IH]; simpl.
  - split; [by intros ?%elem_of_nil|].
    by intros (? & _ & ?%elem_of_nil).
  - rewrite elem_of_app, IH. split.
    + intros [Hx|(l' & Hx & Hl')].
      * exists l. split; [done|left].
      * exists l'. split; [done|by right].
    + intros (l' & Hx & [->|Hl']%elem_of_cons); eauto.
Qed.

(** ** Sheet names *)

Module SheetName.

(** The characters a sheet name may not hold. *)
Definition illegal : list ascii :=
  ["\"; "/"; "?"; "*"; "["; "]"; ":"]%char.

Definition legal (c : ascii) : bool :=
  negb (existsb (Ascii.eqb c) illegal).

Fixpoint all_chars (P : ascii -> bool) (s : string) : bool :=
  match s with
  | EmptyString => true
  | String c s' => P c && all_chars P s'
  end.


(** The sanitising step as the specification words it: every colon
    becomes space-hyphen, every other illegal character a hyphen. *)
Definition sanitize_char (c : ascii) : string :=
  if Ascii.eqb c ":" then " -"
  else if existsb (Ascii.eqb c) invalid_chars then "-"
  else String c EmptyString.

Fixpoint sanitize (s : string) : string :=
  match s with
  | EmptyString => EmptyString
  | String c s' => sanitize_char c +:+ sanitize s'
  end.

Lemma replace_char_app c b s t :
  replace_char c b (s +:+ t) = replace_char c b s +:+ replace_char c b t.
Proof.
  induction s as [|d s IH]; [done|]. rewrite append_cons. simpl.
  destruct (Ascii.eqb c d); rewrite IH; [|done].
  by rewrite append_assoc.
Qed.

(** The code's chain of replacements, one after the other. *)
Definition replace_chain (s : string) : string :=
  foldl (fun s c => replace_char c "-" s) (replace_char ":" " -" s)
        invalid_chars.

Lemma replace_chain_app s t :
  replace_chain (s +:+ t) = replace_chain s +:+ replace_chain t.
Proof.
  unfold replace_chain; simpl. by rewrite !replace_char_app.
Qed.

Lemma replace_chain_char c :
  replace_chain (String c EmptyString) = sanitize_char c.
Proof. destruct c as [[] [] [] [] [] [] [] []]; reflexivity. Qed.

(** The chain of replacements is the simultaneous substitution. *)
Lemma replace_chain_sanitize s : replace_chain s = sanitize s.
Proof.
  induction s as [|c s IH]; [reflexivity|].
  change (String c s) with (String c EmptyString +:+ s).
  rewrite replace_chain_app, replace_chain_char, IH. reflexivity.
Qed.













(** The part of a sheet name before the suffix. *)
Definition base_name (name suffix : string) : string :=
  let sanitized := sanitize name in
  let max_base_len :=
    (MAX_SHEET_NAME_LENGTH - Z.of_nat (String.length suffix))%Z in
  if (max_base_len <? Z.of_nat (String.length sanitized))%Z
  then rstrip (slice_to sanitized max_base_len)
  else sanitized.

Lemma make_sheet_name_base name suffix :
  make_sheet_name name suffix = base_name name suffix +:+ suffix.
Proof.
  unfold make_sheet_name, base_name.
  fold (replace_chain name). by rewrite replace_chain_sanitize.
Qed.





End SheetName.


(** ** Filters and validators *)

Module Validation.

(** An entry the two filters keep. *)
Definition survives (e : entry) : bool :=
  negb (is_non_project e) && Qlt_bool 0%Q (hours e).

(** The entries the validators inspect. *)
Definition billable (all_entries : list entry) : list entry :=
  filter_zero_hours (fst (filter_non_projects all_entries)).

(** The distinct identifiers of a list in the order of their first
    occurrence. *)
Fixpoint first_occurrences (ids : list string) : list string :=
  match ids with
  | [] => []
  | p :: ids' => p :: filter (fun q => q <> p) (first_occurrences ids')
  end.

Definition missing_colon (p : string) : Prop :=
  contains_char ":" p = false.

Global Instance missing_colon_dec p : Decision (missing_colon p).
Proof. unfold missing_colon. apply _. Defined.

(** The messages of the specification: one for every distinct
    identifier without a colon, in first-occurrence order. *)
Definition project_id_errors (es : list entry) : list string :=
  map project_id_error
      (filter missing_colon (first_occurrences (map project_id es))).

(** The messages one entry contributes to code validation. *)
Definition code_errors (e : entry) : list string :=
  (if nonempty (task e)
      && negb (bool_decide (task e ∈ BILLABLE_TASK_CODES))
   then [task_error (task e) (project_id e)] else [])
  ++ (if nonempty (phase e)
         && negb (bool_decide (phase e ∈ BILLABLE_PHASE_CODES))
      then [phase_error (phase e) (project_id e)] else []).

Lemma filter_non_projects_foldl es acc n :
  foldl (fun '(filtered, excluded_count) e =>
           if is_non_project e then (filtered, S excluded_count)
           else (filtered ++ [e], excluded_count))
        (acc, n) es
  = (acc ++ filter (fun e => Is_true (negb (is_non_project e))) es,
     (n + length (filter (fun e => Is_true (is_non_project e)) es))%nat).
Proof.
  revert acc n; induction es as [|e es IH]; intros acc n.
  - simpl. by rewrite app_nil_r, Nat.add_0_r.
  - cbn [foldl]. rewrite !filter_cons.
    destruct (is_non_project e) eqn:E; rewrite IH; simpl.
    + f_equal. lia.
    + by rewrite <- app_assoc.
Qed.

Lemma filter_non_projects_spec es :
  filter_non_projects es
  = (filter (fun e => Is_true (negb (is_non_project e))) es,
     length (filter (fun e => Is_true (is_non_project e)) es)).
Proof. apply (filter_non_projects_foldl es [] 0). Qed.

Lemma billable_spec es :
  billable es = filter (fun e => Is_true (survives e)) es.
Proof.
  unfold billable, filter_zero_hours.
  rewrite filter_non_projects_spec. simpl.
  rewrite list_filter_filter. apply list_filter_iff.
  intros e. unfold survives. rewrite andb_True. tauto.
Qed.

Lemma elem_of_billable es e :
  e ∈ billable es <->
  e ∈ es /\ is_non_project e = false /\ (0 < hours e)%Q.
Proof.
  rewrite billable_spec, list_elem_of_filter. unfold survives, Qlt_bool.
  rewrite andb_True, !negb_True.
  assert (~ Is_true (Qle_bool (hours e) 0) <-> (0 < hours e)%Q) as ->.
  { rewrite Is_true_true, Qle_bool_iff. split.
    - apply Qnot_le_lt.
    - intros ??. by eapply Qlt_not_le. }
  rewrite Is_true_true, not_true_iff_false. tauto.
Qed.

Lemma billable_idem es : billable (billable es) = billable es.
Proof.
  rewrite !billable_spec, list_filter_filter.
  apply list_filter_iff. tauto.
Qed.

(** *** Identifier validation *)


Lemma filter_first_occurrences (seen : gset string) p ids :
  filter (fun q => q ∉ {[p]} ∪ seen) (first_occurrences ids)
  = filter (fun q => q ∉ seen)
           (filter (fun q => q <> p) (first_occurrences ids)).
Proof.
  rewrite list_filter_filter. apply list_filter_iff. intros q.
  rewrite not_elem_of_union, not_elem_of_singleton. tauto.
Qed.

Lemma validate_project_ids_foldl es errors (seen : gset string) :
  fst (foldl (fun '(errors, seen) e =>
                let project_id := project_id e in
                if bool_decide (project_id ∈ (seen : gset string))
                then (errors, seen)
                else
                  let seen := {[ project_id ]} ∪ seen in
                  if negb (contains_char ":" project_id)
                  then (errors ++ [project_id_error project_id], seen)
                  else (errors, seen))
             (errors, seen) es)
  = errors ++
    map project_id_error
      (filter missing_colon
         (filter (fun q => q ∉ seen)
                 (first_occurrences (map project_id es)))).
Proof.
  revert errors seen; induction es as [|e es IH]; intros errors seen.
  - simpl. by rewrite app_nil_r.
  - cbn [foldl map first_occurrences]. cbv zeta.
    rewrite (filter_cons (fun q => q ∉ seen)).
    case_bool_decide as Hseen.
    + rewrite IH. rewrite decide_False by (intros ?; done).
      do 3 f_equal. rewrite list_filter_filter.
      apply list_filter_iff. intros q. split; [|tauto].
      intros Hq. split; [done|]. congruence.
    + rewrite decide_True by done. rewrite filter_cons.
      rewrite <- filter_first_occurrences.
      destruct (contains_char ":" (project_id e)) eqn:Hc; simpl.
      * rewrite IH. rewrite decide_False; [done|].
        unfold missing_colon. congruence.
      * rewrite IH. rewrite decide_True by done.
        simpl. by rewrite <- app_assoc.
Qed.

(** The loop with its [seen] set computes the specification's list. *)
Lemma validate_project_ids_spec es :
  validate_project_ids es = project_id_errors es.
Proof.
  unfold validate_project_ids. rewrite validate_project_ids_foldl.
  simpl. unfold project_id_errors. do 2 f_equal.
  apply filter_all. intros q _. apply not_elem_of_empty.
Qed.

Lemma first_occurrences_elem p ids :
  p ∈ first_occurrences ids <-> p ∈ ids.
Proof.
  induction ids as [|q ids IH]; simpl; [done|].
  rewrite !elem_of_cons, list_elem_of_filter, IH.
  destruct (decide (p = q)); tauto.
Qed.

Lemma first_occurrences_NoDup ids : NoDup (first_occurrences ids).
Proof.
  induction ids as [|q ids IH]; simpl; constructor.
  - rewrite list_elem_of_filter. tauto.
  - by apply NoDup_filter.
Qed.

Lemma project_id_error_inj : Inj (=) (=) project_id_error.
Proof.
  intros p q Heq. unfold project_id_error in Heq.
  apply (inj (String.app _)) in Heq.
  revert q Heq. induction p as [|c p IH]; intros [|d q] Heq;
    rewrite ?append_cons, ?append_nil in Heq; try done.
  - injection Heq as <- Heq. by destruct q.
  - injection Heq as -> Heq. by destruct p.
  - injection Heq as -> Heq. f_equal. by apply IH.
Qed.

Lemma project_id_errors_NoDup es : NoDup (project_id_errors es).
Proof.
  unfold project_id_errors. apply NoDup_fmap_2.
  - apply project_id_error_inj.
  - apply NoDup_filter, first_occurrences_NoDup.
Qed.

Lemma elem_of_project_id_errors es msg :
  msg ∈ project_id_errors es <->
  exists e, e ∈ es /\ missing_colon (project_id e)
            /\ msg = project_id_error (project_id e).
Proof.
  unfold project_id_errors.
  change (map project_id_error ?l) with (project_id_error <$> l).
  rewrite list_elem_of_fmap. split.
  - intros (p & -> & Hp). apply list_elem_of_filter in Hp as [Hc Hp].
    apply (proj1 (first_occurrences_elem _ _)) in Hp.
    change (map project_id es) with (project_id <$> es) in Hp.
    apply list_elem_of_fmap in Hp as (e & -> & He). eauto.
  - intros (e & He & Hc & ->). eexists; split; [done|].
    apply list_elem_of_filter. split; [done|].
    apply first_occurrences_elem.
    change (map project_id es) with (project_id <$> es).
    apply list_elem_of_fmap. eauto.
Qed.

(** *** Code validation *)

Lemma validate_codes_foldl es errors :
  foldl (fun errors e =>
           let errors :=
             if nonempty (task e)
                && negb (bool_decide (task e ∈ BILLABLE_TASK_CODES))
             then errors ++ [task_error (task e) (project_id e)]
             else errors in
           if nonempty (phase e)
              && negb (bool_decide (phase e ∈ BILLABLE_PHASE_CODES))
           then errors ++ [phase_error (phase e) (project_id e)]
           else errors)
        errors es
  = errors ++ concat (map code_errors es).
Proof.
  revert errors; induction es as [|e es IH]; intros errors; simpl.
  - by rewrite app_nil_r.
  - rewrite IH. unfold code_errors.
    destruct (nonempty (task e) && _), (nonempty (phase e) && _);
      simpl; by rewrite <- ?app_assoc.
Qed.

Lemma validate_codes_spec es :
  validate_codes es = concat (map code_errors es).
Proof. apply (validate_codes_foldl es []). Qed.

Lemma elem_of_validate_codes es msg :
  msg ∈ validate_codes es <-> exists e, e ∈ es /\ msg ∈ code_errors e.
Proof.
  rewrite validate_codes_spec, elem_of_concat. split.
  - intros (l & Hmsg & Hl).
    change (map code_errors es) with (code_errors <$> es) in Hl.
    apply list_elem_of_fmap in Hl as (e & -> & He). eauto.
  - intros (e & He & Hmsg). exists (code_errors e). split; [done|].
    change (map code_errors es) with (code_errors <$> es).
    apply list_elem_of_fmap. eauto.
Qed.

(** *** The pipeline after the read *)

Lemma join_head sep c r rest :
  exists r', join sep (String c r :: rest) = String c r'.
Proof.
  unfold join. simpl. destruct rest; [eauto|].
  rewrite append_cons. eauto.
Qed.

Lemma project_id_error_head p :
  exists r, project_id_error p = String "P" r.
Proof. unfold project_id_error. rewrite append_cons. eauto. Qed.

Lemma code_errors_head e msg :
  msg ∈ code_errors e -> exists r, msg = String "I" r.
Proof.
  unfold code_errors, task_error, phase_error.
  intros [Hm|Hm]%elem_of_app; revert Hm;
    destruct (nonempty _ && _);
    intros Hm; try (by apply elem_of_nil in Hm);
    apply list_elem_of_singleton in Hm as ->;
    rewrite append_cons; eauto.
Qed.

Lemma InvalidProjectId_distinct es :
  validate_project_ids es <> [] ->
  InvalidProjectId (validate_project_ids es) <> NoBillableData.
Proof.
  rewrite validate_project_ids_spec. unfold project_id_errors.
  destruct (filter _ _) as [|p ps]; [done|]. intros _. simpl.
  destruct (project_id_error_head p) as [r ->].
  destruct (join_head newline "P" r (map project_id_error ps)) as [r' Hr].
  unfold InvalidProjectId, NoBillableData. rewrite Hr. discriminate.
Qed.

Lemma InvalidCode_distinct es :
  validate_codes es <> [] ->
  InvalidCode (validate_codes es) <> NoBillableData.
Proof.
  destruct (validate_codes es) as [|m ms] eqn:E; [done|]. intros _.
  assert (m ∈ validate_codes es) as Hm by (rewrite E; left).
  apply elem_of_validate_codes in Hm as (e & _ & Hm).
  apply code_errors_head in Hm as [r ->].
  destruct (join_head newline "I" r ms) as [r' Hr].
  unfold InvalidCode, NoBillableData. rewrite Hr. discriminate.
Qed.

Section Pipeline.
Context `{PyRuntime} {Workbook : Type}.
Variable create_invoice_workbook :
  gmap string (gmap (string * string) Q) ->
  gmap string (list entry) -> option pydate -> result Workbook.

(** What the pipeline does with the billable entries. *)
Definition after_filters (filtered_entries : list entry)
    (invoice_date : option pydate) : result (InvoiceResult Workbook) :=
  let project_errors := validate_project_ids filtered_entries in
  let code_errors := validate_codes filtered_entries in
  match project_errors with
  | _ :: _ => Raise (InvalidProjectId project_errors)
  | [] =>
      match code_errors with
      | _ :: _ => Raise (InvalidCode code_errors)
      | [] =>
          match filtered_entries with
          | [] => Raise NoBillableData
          | _ :: _ =>
              let aggregated := aggregate_hours filtered_entries in
              grouped ← group_by_project filtered_entries;
              wb ← create_invoice_workbook aggregated grouped
                     invoice_date;
              let total_hours :=
                map_fold (fun _ hours acc => (acc + sum_values hours)%Q)
                         0%Q aggregated in
              Ok (mk_result wb (size aggregated) total_hours
                    filtered_entries)
          end
      end
  end.

Lemma process_entries_billable all_entries invoice_date :
  process_entries create_invoice_workbook all_entries invoice_date
  = after_filters (billable all_entries) invoice_date.
Proof.
  unfold process_entries, after_filters, billable.
  destruct (filter_non_projects all_entries) as [filtered n].
  reflexivity.
Qed.

Lemma process_entries_project_errors all_entries invoice_date :
  validate_project_ids (billable all_entries) <> [] ->
  process_entries create_invoice_workbook all_entries invoice_date
  = Raise (InvalidProjectId
             (validate_project_ids (billable all_entries))).
Proof.
  intros Hne. rewrite process_entries_billable. unfold after_filters.
  by destruct (validate_project_ids _).
Qed.

(** C6.  On the billable entries, identifier validation yields one
    message for every distinct project identifier without a colon,
    in the order of first occurrence and without repetition; when
    there is any, the pipeline fails with all of them joined into
    one batch error; and when a billable entry has the identifier
    "NoColon", that failure holds the message naming "NoColon"
    exactly once. *)
Theorem validate_project_ids_batched (all_entries : list entry)
    (invoice_date : option pydate) :
  let filtered := billable all_entries in
  let errors := validate_project_ids filtered in
  errors = project_id_errors filtered
  /\ NoDup errors
  /\ (forall msg, msg ∈ errors <->
        exists e, e ∈ filtered /\ missing_colon (project_id e)
                  /\ msg = project_id_error (project_id e))
  /\ (errors <> [] ->
      process_entries create_invoice_workbook all_entries invoice_date
      = Raise (InvalidProjectId errors))
  /\ ((exists e, e ∈ filtered /\ project_id e = "NoColon") ->
      process_entries create_invoice_workbook all_entries invoice_date
      = Raise (InvalidProjectId errors)
      /\ count_occ string_dec errors (project_id_error "NoColon") = 1%nat).
Proof.
  intros filtered errors. subst errors.
  split; [apply validate_project_ids_spec|].
  split; [rewrite validate_project_ids_spec;
          apply project_id_errors_NoDup|].
  split; [intros msg; rewrite validate_project_ids_spec;
          apply elem_of_project_id_errors|].
  split; [apply process_entries_project_errors|].
  intros (e & He & Hid).
  assert (project_id_error "NoColon" ∈ validate_project_ids filtered)
    as Hin.
  { rewrite validate_project_ids_spec. apply elem_of_project_id_errors.
    exists e. rewrite Hid. done. }
  split.
  - apply process_entries_project_errors. intros Hnil.
    unfold filtered in Hin. rewrite Hnil in Hin.
    by apply elem_of_nil in Hin.
  - pose proof (project_id_errors_NoDup filtered) as Hnd.
    rewrite <- validate_project_ids_spec in Hnd.
    apply NoDup_ListNoDup in Hnd.
    apply list_elem_of_In in Hin.
    apply (proj1 (NoDup_count_occ string_dec _)) with
      (x := project_id_error "NoColon") in Hnd.
    apply (proj1 (count_occ_In string_dec _ _)) in Hin. lia.
Qed.

(** C7.  When every entry is a non-project entry or has no positive
    hours, nothing is billable and the pipeline fails with
    [NoBillableData], from the check that follows both validations
    (whether it starts from the entries or from the source they were
    read from); and that error is not one a failing identifier or
    code validation raises. *)
Theorem no_billable_data (all_entries : list entry)
    (invoice_date : option pydate) :
  Forall (fun e => is_non_project e = true \/ ~ (0 < hours e)%Q)
         all_entries ->
  billable all_entries = []
  /\ process_entries create_invoice_workbook all_entries invoice_date
     = Raise NoBillableData
  /\ (forall input_file src,
        read_timesheet_data input_file src = Ok all_entries ->
        _process_invoices create_invoice_workbook input_file src
          invoice_date = Raise NoBillableData)
  /\ (forall es, validate_project_ids es <> [] ->
        InvalidProjectId (validate_project_ids es) <> NoBillableData)
  /\ (forall es, validate_codes es <> [] ->
        InvalidCode (validate_codes es) <> NoBillableData).
Proof.
  intros Hall.
  assert (billable all_entries = []) as Hnil.
  { apply elem_of_nil_inv. intros e He.
    apply elem_of_billable in He as (He & Hnp & Hpos).
    destruct (proj1 (List.Forall_forall _ _) Hall e) as [Hn|Hn].
    - by apply list_elem_of_In.
    - rewrite Hn in Hnp. destruct (Bool.diff_true_false Hnp).
    - exact (Hn Hpos). }
  assert (process_entries create_invoice_workbook all_entries
            invoice_date = Raise NoBillableData) as Hproc.
  { rewrite process_entries_billable, Hnil. reflexivity. }
  split; [done|]. split; [done|].
  split.
  { intros input_file src Hread. unfold _process_invoices.
    rewrite Hread. exact Hproc. }
  split; [apply InvalidProjectId_distinct|apply InvalidCode_distinct].
Qed.

(** C10.  Both validators run on the billable entries only: the
    outcome of the pipeline is a function of that list, so it is the
    same as for any input with the same billable entries (the input
    stripped of its non-project and non-positive-hour entries among
    them); and every message of identifier or code validation comes
    from an entry of the input that is a project entry with positive
    hours. *)
Theorem validation_after_filters (all_entries : list entry)
    (invoice_date : option pydate) :
  let filtered := billable all_entries in
  process_entries create_invoice_workbook all_entries invoice_date
  = process_entries create_invoice_workbook filtered invoice_date
  /\ (forall others,
        billable others = filtered ->
        process_entries create_invoice_workbook others invoice_date
        = process_entries create_invoice_workbook all_entries
            invoice_date)
  /\ (forall msg, msg ∈ validate_project_ids filtered ->
        exists e, e ∈ all_entries /\ is_non_project e = false
                  /\ (0 < hours e)%Q
                  /\ missing_colon (project_id e)
                  /\ msg = project_id_error (project_id e))
  /\ (forall msg, msg ∈ validate_codes filtered ->
        exists e, e ∈ all_entries /\ is_non_project e = false
                  /\ (0 < hours e)%Q /\ msg ∈ code_errors e).
Proof.
  intros filtered. subst filtered. split; [|split; [|split]].
  - by rewrite !process_entries_billable, billable_idem.
  - intros others Ho. by rewrite !process_entries_billable, Ho.
  - intros msg Hmsg. rewrite validate_project_ids_spec in Hmsg.
    apply elem_of_project_id_errors in Hmsg as (e & He & Hc & ->).
    apply elem_of_billable in He as (He & Hnp & Hpos). eauto 10.
  - intros msg Hmsg.
    apply elem_of_validate_codes in Hmsg as (e & He & Hmsg).
    apply elem_of_billable in He as (He & Hnp & Hpos). eauto 10.
Qed.
End Pipeline.

End Validation.


(** ** Aggregation and the detail sheet *)

Module Aggregation.

(** *** Sums of rationals *)

Lemma Qsum_foldl (a : Q) (l : list Q) : (foldl Qplus a l == a + Qsum l)%Q.
Proof.
  unfold Qsum. revert a. induction l as [|x l IH]; intros a; simpl.
  - by rewrite Qplus_0_r.
  - rewrite (IH (a + x)%Q), (IH (0 + x)%Q). ring.
Qed.

Lemma Qsum_cons (x : Q) (l : list Q) : (Qsum (x :: l) == x + Qsum l)%Q.
Proof. unfold Qsum at 1. simpl. rewrite Qsum_foldl. ring. Qed.



(** *** Sums over a dictionary *)

Section SumValues.
Context `{Countable K}.
Implicit Types d : gmap K Q.




End SumValues.

(** *** The aggregator *)

(** An entry that carries both a task and a phase code. *)
Definition coded (e : entry) : bool :=
  nonempty (task e) && nonempty (phase e).

(** A project's slice of the hour matrix, empty when the project has
    no key. *)
Definition matrix_slice (es : list entry) (pid : string)
    : gmap (string * string) Q :=
  default ∅ (aggregate_hours es !! pid).

(** A project's rows of the detail list. *)
Definition detail_rows (grouped : gmap string (list entry))
    (pid : string) : list entry :=
  default [] (grouped !! pid).

Definition aggregate_step (result : gmap string (gmap (string * string) Q))
    (e : entry) : gmap string (gmap (string * string) Q) :=
  if nonempty (task e) && nonempty (phase e) then
    let slice := default ∅ (result !! project_id e) in
    let old := default 0%Q (slice !! (task e, phase e)) in
    <[project_id e :=
        <[(task e, phase e) := (old + hours e)%Q]> slice]> result
  else result.




(** *** Grouping *)

Definition group_step (grouped : gmap string (list entry)) (e : entry)
    : gmap string (list entry) :=
  <[project_id e := default [] (grouped !! project_id e) ++ [e]]> grouped.

Lemma group_foldl es acc pid :
  default [] (foldl group_step acc es !! pid)
  = default [] (acc !! pid) ++ filter (fun e => project_id e = pid) es.
Proof.
  revert acc; induction es as [|e es IH]; intros acc; simpl.
  - by rewrite app_nil_r.
  - rewrite IH, filter_cons. unfold group_step.
    destruct (decide (project_id e = pid)) as [<-|Hne].
    + rewrite lookup_insert_eq. simpl. by rewrite <- app_assoc.
    + by rewrite lookup_insert_ne.
Qed.

Lemma group_entries_lookup es pid :
  default [] (group_entries es !! pid)
  = filter (fun e => project_id e = pid) es.
Proof.
  change (group_entries es) with (foldl group_step ∅ es).
  by rewrite group_foldl, lookup_empty.
Qed.

(** *** Sorting by date *)

Lemma insert_by_date_perm x l r :
  insert_by_date x l = Ok r -> r ≡ₚ x :: l.
Proof.
  revert r; induction l as [|y l IH]; intros r; simpl.
  - by intros [= <-].
  - destruct (key_lt (date_key y) (date_key x)) as [[]|]; simpl;
      [|by intros [= <-]|done].
    destruct (insert_by_date x l) as [r'|]; simpl; [|done].
    intros [= <-]. rewrite (IH r' eq_refl). apply Permutation_swap.
Qed.

Lemma sort_by_date_perm l r : sort_by_date l = Ok r -> r ≡ₚ l.
Proof.
  revert r; induction l as [|x l IH]; intros r; simpl.
  - by intros [= <-].
  - destruct (sort_by_date l) as [s|]; simpl; [|done].
    intros ->%insert_by_date_perm. by rewrite (IH s eq_refl).
Qed.

(** An entry whose sort key is a date: its [date] is a date or a false
    value. *)
Definition dated (e : entry) : Prop :=
  match date_key e with
  | KeyDate _ => True
  | KeyNum _ => False
  end.

(** An entry whose [date] is a date or [None], as the reader makes it
    from date-time, text and empty cells. *)
Definition well_dated (e : entry) : Prop :=
  match date e with
  | DateNone | DateVal _ => True
  | _ => False
  end.

Lemma well_dated_dated e : well_dated e -> dated e.
Proof. unfold well_dated, dated, date_key. by destruct (date e). Qed.

Lemma insert_by_date_total x l :
  dated x -> Forall dated l -> exists r, insert_by_date x l = Ok r.
Proof.
  intros Hx. induction 1 as [|y l Hy Hl [r IH]]; simpl; [eauto|].
  unfold dated in Hx, Hy.
  destruct (date_key y), (date_key x); try done. simpl.
  destruct (date_ltb _ _); [|eauto]. rewrite IH. simpl. eauto.
Qed.

Lemma sort_by_date_total l :
  Forall dated l -> exists r, sort_by_date l = Ok r.
Proof.
  induction 1 as [|x l Hx Hl [s IH]]; simpl; [eauto|].
  rewrite IH. simpl. apply insert_by_date_total; [done|].
  apply sort_by_date_perm in IH. by rewrite IH.
Qed.

Definition sort_step (project_id : string) (l : list entry)
    (acc : result (gmap string (list entry)))
    : result (gmap string (list entry)) :=
  grouped ← acc; s ← sort_by_date l; Ok (<[project_id := s]> grouped).

(** The sorting loop, group by group. *)
Lemma sort_groups_lookup (g : gmap string (list entry)) grouped pid :
  map_fold sort_step (Ok ∅) g = Ok grouped ->
  match g !! pid with
  | Some l => exists s, sort_by_date l = Ok s /\ grouped !! pid = Some s
  | None => grouped !! pid = None
  end.
Proof.
  revert grouped.
  induction g as [|i x m Hi Hfirst IH] using map_first_key_ind;
    intros grouped.
  - rewrite map_fold_empty. intros [= <-]. by rewrite !lookup_empty.
  - rewrite map_fold_insert_first_key by done. unfold sort_step at 1.
    destruct (map_fold sort_step (Ok ∅) m) as [g'|]; simpl; [|done].
    destruct (sort_by_date x) as [s|] eqn:Hs; simpl; [|done].
    intros [= <-]. specialize (IH g' eq_refl).
    destruct (decide (i = pid)) as [->|Hne].
    + rewrite !lookup_insert_eq. eauto.
    + by rewrite !lookup_insert_ne.
Qed.

Lemma sort_groups_total (g : gmap string (list entry)) :
  map_Forall (fun _ l => Forall dated l) g ->
  exists grouped, map_fold sort_step (Ok ∅) g = Ok grouped.
Proof.
  induction g as [|i x m Hi Hfirst IH] using map_first_key_ind;
    intros Hall.
  - rewrite map_fold_empty. eauto.
  - rewrite map_fold_insert_first_key by done. unfold sort_step at 1.
    apply map_Forall_insert in Hall as [Hx Hm]; [|done].
    destruct (IH Hm) as [g' ->]. simpl.
    destruct (sort_by_date_total x Hx) as [s ->]. simpl. eauto.
Qed.

(** The detail rows of a project are its entries, reordered. *)
Lemma group_by_project_perm es grouped pid :
  group_by_project es = Ok grouped ->
  detail_rows grouped pid ≡ₚ filter (fun e => project_id e = pid) es.
Proof.
  intros Hg. apply (sort_groups_lookup _ _ pid) in Hg.
  rewrite <- group_entries_lookup. unfold detail_rows.
  destruct (group_entries es !! pid) as [l|]; simpl.
  - destruct Hg as (s & Hs & ->). simpl. by apply sort_by_date_perm.
  - by rewrite Hg.
Qed.

Lemma group_by_project_total es :
  Forall dated es -> exists grouped, group_by_project es = Ok grouped.
Proof.
  intros Hes. apply sort_groups_total. intros pid l Hl.
  assert (l = filter (fun e => project_id e = pid) es) as ->.
  { by rewrite <- group_entries_lookup, Hl. }
  apply Forall_forall. intros e [_ He]%list_elem_of_filter.
  rewrite Forall_forall in Hes. by apply Hes.
Qed.

(** *** The detail sheet *)

Lemma cell_set_cell_eq ws r c v : cell (set_cell ws r c v) r c = v.
Proof. unfold cell, set_cell. simpl. by rewrite lookup_insert_eq. Qed.

Lemma cell_set_cell_ne ws r c v r' c' :
  (r, c) <> (r', c') -> cell (set_cell ws r c v) r' c' = cell ws r' c'.
Proof.
  intros Hne. unfold cell, set_cell. simpl.
  by rewrite lookup_insert_ne.
Qed.


(** [enumerate], shifted. *)
Definition rows_from (k : nat) (l : list entry) : list (nat * entry) :=
  imap (fun i e => ((k + i)%nat, e)) l.

Lemma rows_from_cons k e l :
  rows_from k (e :: l) = (k, e) :: rows_from (S k) l.
Proof.
  unfold rows_from. rewrite imap_cons. f_equal.
  - f_equal. lia.
  - apply imap_ext. intros i x _. simpl. f_equal. lia.
Qed.

Lemma enumerate_rows_from l : enumerate l = rows_from 0 l.
Proof. unfold enumerate, rows_from. by apply imap_ext. Qed.





(** *** The round trip *)





End Aggregation.


(** ** Section pruning *)

Module Pruning.

(** *** Sorting *)

Lemma insert_sorted_perm {A} (ltb : A -> A -> bool) x l :
  insert_sorted ltb x l ≡ₚ x :: l.
Proof.
  induction l as [|y l IH]; simpl; [done|].
  destruct (ltb y x); [|done]. rewrite IH. apply Permutation_swap.
Qed.

Lemma sorted_perm {A} (ltb : A -> A -> bool) l : sorted ltb l ≡ₚ l.
Proof.
  induction l as [|x l IH]; simpl; [done|].
  by rewrite insert_sorted_perm, IH.
Qed.

(** [sorted(rows, reverse=True)] on row numbers. *)
Definition descending (l : list nat) : list nat :=
  sorted (fun y x => (x <? y)%nat) l.

Lemma insert_descending x l :
  StronglySorted ge l ->
  StronglySorted ge (insert_sorted (fun y x => (x <? y)%nat) x l).
Proof.
  induction 1 as [|y l Hl IH Hy]; simpl.
  - repeat constructor.
  - destruct (x <? y)%nat eqn:E.
    + apply Nat.ltb_lt in E. constructor; [done|].
      eapply Permutation_Forall; [symmetry; apply insert_sorted_perm|].
      constructor; [lia|done].
    + apply Nat.ltb_ge in E. constructor; [by constructor|].
      constructor; [lia|].
      eapply Forall_impl; [exact Hy|]. simpl. lia.
Qed.

Lemma descending_sorted l : StronglySorted ge (descending l).
Proof.
  induction l as [|x l IH]; simpl; [constructor|].
  by apply insert_descending.
Qed.

(** *** Phase totals *)

(** [phase_totals.get(phase_code, 0)]. *)
Definition phase_total (hours_dict : gmap (string * string) Q)
    (phase_code : string) : Q :=
  default 0%Q (calculate_phase_hours hours_dict !! phase_code).

(** The hours recorded under a phase, summed over all tasks. *)
Definition phase_sum (hours_dict : gmap (string * string) Q)
    (phase_code : string) : Q :=
  map_fold (fun '(_, phase) hours acc =>
              if String.eqb phase phase_code then (acc + hours)%Q else acc)
           0%Q hours_dict.

Lemma phase_total_sum hours_dict phase_code :
  (phase_total hours_dict phase_code == phase_sum hours_dict phase_code)%Q.
Proof.
  unfold phase_total, phase_sum, calculate_phase_hours.
  induction hours_dict as [|[t p] h m Hi Hfirst IH]
    using map_first_key_ind.
  - rewrite !map_fold_empty, lookup_empty. reflexivity.
  - rewrite !map_fold_insert_first_key by done.
    destruct (String.eqb_spec p phase_code) as [->|Hne].
    + rewrite lookup_insert_eq. simpl. by rewrite IH.
    + by rewrite lookup_insert_ne.
Qed.

Lemma phase_sum_insert hours_dict t p h phase_code :
  hours_dict !! (t, p) = None ->
  (phase_sum (<[(t, p) := h]> hours_dict) phase_code
   == phase_sum hours_dict phase_code
      + (if String.eqb p phase_code then h else 0))%Q.
Proof.
  intros Hk. unfold phase_sum.
  rewrite (map_fold_insert Qeq
    (fun '(_, phase) hours acc =>
       if String.eqb phase phase_code then (acc + hours)%Q else acc));
    [| | |done].
  - destruct (String.eqb p phase_code); ring.
  - intros [] z a b Hab. destruct (String.eqb _ _); by rewrite Hab.
  - intros [] [] z1 z2 y _ _ _.
    repeat destruct (String.eqb _ _); ring.
Qed.

(** *** The rows of one phase *)

(** What the loop appends for one phase. *)
Definition section_rows (hours_dict : gmap (string * string) Q)
    (phase_code : string) (info : phase_info) : list nat :=
  if Qeq_bool (phase_total hours_dict phase_code) 0%Q then
    header info :: tasks info ++ [subtotal info]
  else if negb (String.eqb phase_code "M") then
    concat (imap (fun i task_code =>
                    if Qeq_bool (get_hours hours_dict
                                   (task_code, phase_code)) 0%Q
                    then option_list (tasks info !! i) else [])
                 TASK_ORDER_STANDARD)
  else [].

Lemma elem_of_phases code info :
  (code, info) ∈ phases TEMPLATE_STRUCTURE ->
  (code, info) = ("PD", mk_phase 10 [11; 12; 13; 14] 15)
  \/ (code, info) = ("SD", mk_phase 16 [17; 18; 19; 20] 21)
  \/ (code, info) = ("DD", mk_phase 22 [23; 24; 25; 26] 27)
  \/ (code, info) = ("CD", mk_phase 28 [29; 30; 31; 32] 33)
  \/ (code, info) = ("CA", mk_phase 34 [35; 36; 37; 38] 39)
  \/ (code, info) = ("M", mk_phase 40 [41] 42).
Proof.
  simpl. rewrite !elem_of_cons, elem_of_nil. tauto.
Qed.

Lemma phase_rows_section hours_dict code info :
  (code, info) ∈ phases TEMPLATE_STRUCTURE ->
  phase_rows_to_delete hours_dict (calculate_phase_hours hours_dict) code
  = Ok (section_rows hours_dict code info).
Proof.
  intros Hin. apply elem_of_phases in Hin.
  unfold phase_rows_to_delete, section_rows, phase_total, get_hours.
  destruct Hin as [H|[H|[H|[H|[H|H]]]]]; injection H as -> ->; simpl;
    repeat (destruct (Qeq_bool _ _); simpl); reflexivity.
Qed.

(** The rows of a phase section, top to bottom. *)
Definition section_of (info : phase_info) : list nat :=
  header info :: tasks info ++ [subtotal info].

Definition in_section (info : phase_info) (r : nat) : Prop :=
  (header info <= r <= subtotal info)%nat.

Ltac each_phase H :=
  apply elem_of_phases in H;
  destruct H as [H|[H|[H|[H|[H|H]]]]]; injection H as -> ->.

Ltac split_tests :=
  repeat match goal with
  | |- context [Qeq_bool ?a ?b] => destruct (Qeq_bool a b); simpl
  end.

Lemma section_rows_sublist hours_dict code info :
  (code, info) ∈ phases TEMPLATE_STRUCTURE ->
  section_rows hours_dict code info `sublist_of` section_of info.
Proof.
  intros Hin. each_phase Hin; unfold section_rows, section_of; simpl;
    split_tests;
    repeat first [apply sublist_nil_l | apply sublist_skip
                 | apply sublist_cons].
Qed.

Lemma section_rows_bounds hours_dict code info r :
  (code, info) ∈ phases TEMPLATE_STRUCTURE ->
  r ∈ section_rows hours_dict code info -> in_section info r.
Proof.
  intros Hin Hr.
  pose proof (elem_of_sublist _ _ _ Hr
                (section_rows_sublist hours_dict code info Hin)) as Hs.
  clear Hr. rename Hs into Hr.
  unfold section_of, in_section in *.
  each_phase Hin; simpl in *;
    rewrite ?elem_of_cons, elem_of_nil in Hr; lia.
Qed.

Lemma sections_disjoint code1 info1 code2 info2 r :
  (code1, info1) ∈ phases TEMPLATE_STRUCTURE ->
  (code2, info2) ∈ phases TEMPLATE_STRUCTURE ->
  in_section info1 r -> in_section info2 r ->
  (code1, info1) = (code2, info2).
Proof.
  intros H1 H2. unfold in_section.
  each_phase H1; each_phase H2; simpl; intros; (reflexivity || lia).
Qed.

(** The rows marked across all phases, in template order. *)
Definition marked_rows (hours_dict : gmap (string * string) Q)
    : list nat :=
  concat (map (fun p => section_rows hours_dict (fst p) (snd p))
              (phases TEMPLATE_STRUCTURE)).

Lemma calculate_rows_to_delete_marked hours_dict :
  calculate_rows_to_delete hours_dict
  = Ok (descending (marked_rows hours_dict)).
Proof.
  unfold calculate_rows_to_delete, PHASE_ORDER. cbn [mapR].
  rewrite (phase_rows_section hours_dict "PD" (mk_phase 10 [11; 12; 13; 14] 15))
    by (simpl; rewrite !elem_of_cons; tauto).
  rewrite (phase_rows_section hours_dict "SD" (mk_phase 16 [17; 18; 19; 20] 21))
    by (simpl; rewrite !elem_of_cons; tauto).
  rewrite (phase_rows_section hours_dict "DD" (mk_phase 22 [23; 24; 25; 26] 27))
    by (simpl; rewrite !elem_of_cons; tauto).
  rewrite (phase_rows_section hours_dict "CD" (mk_phase 28 [29; 30; 31; 32] 33))
    by (simpl; rewrite !elem_of_cons; tauto).
  rewrite (phase_rows_section hours_dict "CA" (mk_phase 34 [35; 36; 37; 38] 39))
    by (simpl; rewrite !elem_of_cons; tauto).
  rewrite (phase_rows_section hours_dict "M" (mk_phase 40 [41] 42))
    by (simpl; rewrite !elem_of_cons; tauto).
  reflexivity.
Qed.

Lemma elem_of_marked_rows hours_dict r :
  r ∈ marked_rows hours_dict <->
  exists code info,
    (code, info) ∈ phases TEMPLATE_STRUCTURE
    /\ r ∈ section_rows hours_dict code info.
Proof.
  unfold marked_rows. rewrite elem_of_concat. split.
  - intros (l & Hr & Hl).
    change (map ?f ?l) with (f <$> l) in Hl.
    apply list_elem_of_fmap in Hl as ([code info] & -> & Hp). eauto.
  - intros (code & info & Hp & Hr). eexists. split; [exact Hr|].
    change (map ?f ?l) with (f <$> l).
    apply list_elem_of_fmap. by exists (code, info).
Qed.

(** Inside a phase section, a row is marked exactly when the pass over
    that phase appends it. *)
Lemma elem_of_descending_section hours_dict code info r :
  (code, info) ∈ phases TEMPLATE_STRUCTURE ->
  in_section info r ->
  r ∈ descending (marked_rows hours_dict) <->
  r ∈ section_rows hours_dict code info.
Proof.
  intros Hp Hr. unfold descending. rewrite sorted_perm.
  rewrite elem_of_marked_rows. split; [|eauto].
  intros (code' & info' & Hp' & Hr').
  pose proof (section_rows_bounds _ _ _ _ Hp' Hr') as Hb.
  pose proof (sections_disjoint _ _ _ _ _ Hp' Hp Hb Hr) as Heq.
  injection Heq as -> ->. exact Hr'.
Qed.

Lemma marked_rows_sublist hours_dict :
  marked_rows hours_dict
  `sublist_of` concat (map (fun p => section_of (snd p))
                           (phases TEMPLATE_STRUCTURE)).
Proof.
  unfold marked_rows.
  assert (forall p, p ∈ phases TEMPLATE_STRUCTURE ->
            section_rows hours_dict (fst p) (snd p)
            `sublist_of` section_of (snd p)) as Hs.
  { intros [c i]. apply section_rows_sublist. }
  induction (phases TEMPLATE_STRUCTURE) as [|p ps IH];
    cbn [concat map]; [constructor|].
  apply sublist_app.
  - apply Hs. left.
  - apply IH. intros q Hq. apply Hs. by right.
Qed.

Lemma marked_rows_NoDup hours_dict : NoDup (marked_rows hours_dict).
Proof.
  eapply sublist_NoDup; [|apply marked_rows_sublist].
  apply (bool_decide_unpack _). by vm_compute.
Qed.

Lemma section_of_in_section code info r :
  (code, info) ∈ phases TEMPLATE_STRUCTURE ->
  r ∈ section_of info -> in_section info r.
Proof.
  intros Hin Hr. unfold section_of, in_section in *.
  each_phase Hin; simpl in *;
    rewrite ?elem_of_cons, elem_of_nil in Hr; lia.
Qed.

Lemma section_rows_zero hours_dict code info :
  Qeq_bool (phase_total hours_dict code) 0 = true ->
  section_rows hours_dict code info = section_of info.
Proof. intros Hz. unfold section_rows. by rewrite Hz. Qed.

Ltac name_tests :=
  repeat match goal with
  | |- context [Qeq_bool ?a ?b] =>
      let t := fresh "t" in generalize (Qeq_bool a b); intros t
  end.

Ltac decide_rows :=
  rewrite ?elem_of_app, ?elem_of_cons, ?elem_of_nil;
  intuition (discriminate || lia).

Lemma section_rows_nonzero hours_dict code info :
  (code, info) ∈ phases TEMPLATE_STRUCTURE ->
  Qeq_bool (phase_total hours_dict code) 0 = false ->
  (header info ∉ section_rows hours_dict code info)
  /\ (subtotal info ∉ section_rows hours_dict code info)
  /\ (code <> "M" ->
      forall i task_code r,
        TASK_ORDER_STANDARD !! i = Some task_code ->
        tasks info !! i = Some r ->
        r ∈ section_rows hours_dict code info <->
        Qeq_bool (get_hours hours_dict (task_code, code)) 0 = true)
  /\ (code = "M" -> section_rows hours_dict code info = []).
Proof.
  intros Hin Hz. unfold section_rows. rewrite Hz. clear Hz.
  each_phase Hin; simpl.
  6: { split; [apply not_elem_of_nil|].
       split; [apply not_elem_of_nil|]. split; [done|done]. }
  all: split; [name_tests; destruct t, t0, t1, t2; simpl; decide_rows|].
  all: split; [name_tests; destruct t, t0, t1, t2; simpl; decide_rows|].
  all: split; [|intros [=]].
  all: intros _ i task_code r Hi Hr.
  all: destruct i as [|[|[|[|i]]]]; simpl in Hi, Hr; try discriminate Hi.
  all: injection Hi as <-; injection Hr as <-.
  all: name_tests; destruct t, t0, t1, t2; simpl; decide_rows.
Qed.

(** C2.  For every per-project hours mapping the pruner returns a list
    of template rows, in descending order and without repetition, such
    that, for each phase of the template: when the phase's hour total
    is zero, its header row, all its task rows and its subtotal row
    are in the list; when the total is not zero, neither its header
    nor its subtotal row is, and - for a phase other than "M" - the
    row of the i-th standard task is in the list exactly when the
    hours recorded for that task and phase are zero, while the single
    task row of "M" is never in it.  The total of a phase is the sum
    of the hours recorded under it, and every listed row lies in the
    section of some phase. *)
Theorem calculate_rows_to_delete_policy
    (hours_dict : gmap (string * string) Q) :
  exists rows,
    calculate_rows_to_delete hours_dict = Ok rows
    /\ StronglySorted ge rows
    /\ NoDup rows
    /\ (forall r, r ∈ rows ->
          exists code info,
            (code, info) ∈ phases TEMPLATE_STRUCTURE
            /\ in_section info r)
    /\ forall code info,
         (code, info) ∈ phases TEMPLATE_STRUCTURE ->
         (phase_total hours_dict code == phase_sum hours_dict code)%Q
         /\ ((phase_total hours_dict code == 0)%Q ->
             header info ∈ rows /\ subtotal info ∈ rows
             /\ forall r, r ∈ tasks info -> r ∈ rows)
         /\ (~ (phase_total hours_dict code == 0)%Q ->
             (header info ∉ rows) /\ (subtotal info ∉ rows)
             /\ (code <> "M" ->
                 forall i task_code r,
                   TASK_ORDER_STANDARD !! i = Some task_code ->
                   tasks info !! i = Some r ->
                   r ∈ rows <->
                   (get_hours hours_dict (task_code, code) == 0)%Q)
             /\ (code = "M" -> forall r, r ∈ tasks info -> r ∉ rows)).
Proof.
  exists (descending (marked_rows hours_dict)).
  split; [apply calculate_rows_to_delete_marked|].
  split; [apply descending_sorted|].
  split.
  { unfold descending. rewrite sorted_perm. apply marked_rows_NoDup. }
  split.
  { intros r Hr. unfold descending in Hr. rewrite sorted_perm in Hr.
    apply elem_of_marked_rows in Hr as (code & info & Hp & Hr).
    exists code, info. split; [done|].
    by eapply section_rows_bounds. }
  intros code info Hp.
  assert (forall r, r ∈ section_of info ->
            r ∈ descending (marked_rows hours_dict) <->
            r ∈ section_rows hours_dict code info) as Hiff.
  { intros r Hr. apply elem_of_descending_section; [done|].
    by eapply section_of_in_section. }
  assert (header info ∈ section_of info) as Hh by left.
  assert (subtotal info ∈ section_of info) as Hs.
  { unfold section_of. rewrite elem_of_cons, elem_of_app,
      list_elem_of_singleton. tauto. }
  assert (forall r, r ∈ tasks info -> r ∈ section_of info) as Ht.
  { intros r Hr. unfold section_of. rewrite elem_of_cons, elem_of_app.
    tauto. }
  split; [apply phase_total_sum|]. split.
  - intros Hz%Qeq_bool_iff.
    rewrite !Hiff by auto. rewrite (section_rows_zero _ _ _ Hz).
    split; [done|]. split; [done|].
    intros r Hr. rewrite Hiff by auto.
    rewrite (section_rows_zero _ _ _ Hz). auto.
  - intros Hnz.
    assert (Qeq_bool (phase_total hours_dict code) 0 = false) as Hz.
    { destruct (Qeq_bool _ _) eqn:E; [|done].
      by apply Qeq_bool_iff in E. }
    destruct (section_rows_nonzero hours_dict code info Hp Hz)
      as (Hnh & Hns & Htask & Hm).
    rewrite !Hiff by auto.
    split; [done|]. split; [done|]. split.
    + intros Hne i task_code r Hi Hr.
      rewrite Hiff by (apply Ht; by eapply list_elem_of_lookup_2).
      rewrite (Htask Hne i task_code r Hi Hr). apply Qeq_bool_iff.
    + intros HM r Hr. rewrite Hiff by auto. rewrite (Hm HM).
      apply not_elem_of_nil.
Qed.

End Pruning.


(** ** Populating the units column *)

Module Populate.
Import Aggregation Pruning.





Definition nonnegative (hours_dict : gmap (string * string) Q) : Prop :=
  map_Forall (fun _ v => (0 <= v)%Q) hours_dict.











(** *** The hours that reach no task row *)








Lemma nonnegative_delete m k : nonnegative m -> nonnegative (delete k m).
Proof.
  unfold nonnegative. intros Hm k' v Hk'.
  apply lookup_delete_Some in Hk' as [_ Hk']. by apply (Hm k').
Qed.

Lemma phase_sum_nonnegative m p : nonnegative m -> (0 <= phase_sum m p)%Q.
Proof.
  unfold nonnegative.
  induction m as [|[t q] v m Hk IH] using map_ind; intros Hm.
  - unfold phase_sum. rewrite map_fold_empty. apply Qle_refl.
  - apply map_Forall_insert in Hm as [Hv Hm]; [|done].
    rewrite phase_sum_insert by done. specialize (IH Hm).
    destruct (String.eqb q p).
    + rewrite <- (Qplus_0_r 0). by apply Qplus_le_compat.
    + by rewrite Qplus_0_r.
Qed.

Lemma phase_sum_delete m t p h :
  m !! (t, p) = Some h ->
  (phase_sum m p == phase_sum (delete (t, p) m) p + h)%Q.
Proof.
  intros Hk. rewrite <- (insert_delete_id m (t, p) h) at 1 by done.
  rewrite phase_sum_insert by apply lookup_delete_eq.
  by rewrite String.eqb_refl.
Qed.




End Populate.


(** ** The entry reader *)

Module Reader.

(** A row with at least the nine expected cells. *)
Definition long_row (row : list pyval) : Prop := (9 <= length row)%nat.

(** [row[i]] on a row that has the cell. *)
Definition at_ (row : list pyval) (i : nat) : pyval :=
  default PNone (row !! i).

(** The entry of a row, given its hours. *)
Definition entry_with_hours `{PyRuntime} (row : list pyval) (q : Q)
    : entry :=
  mk_entry (text_cell (at_ row 0)) (date_cell (at_ row 1))
           (text_cell (at_ row 2)) q (code_cell (at_ row 6))
           (code_cell (at_ row 7)) (text_cell (at_ row 8)).

(** The entry read from a row: every field from its own column, the
    hours from the sixth (total adjusted hours). *)
Definition row_read `{PyRuntime} (row : list pyval) (e : entry) : Prop :=
  exists q, hours_cell (at_ row 5) = Ok q /\ e = entry_with_hours row q.

(** The contract as the specification words it: one entry for every
    row of at least nine cells after the header. *)
Definition reads_every_long_row `{PyRuntime} (input_file : string)
    (rows : list (list pyval)) : Prop :=
  exists es,
    read_timesheet_data input_file (SourceTable rows) = Ok es
    /\ length es = length (filter long_row (tail rows)).

Section WithRuntime.
Context `{PyRuntime}.

Lemma read_row_short row :
  ~ long_row row -> read_row row = Ok None.
Proof.
  unfold long_row. intros Hlen.
  do 9 (destruct row as [|? row]; [done|]). simpl in Hlen. lia.
Qed.

Lemma read_row_long row :
  long_row row ->
  read_row row
  = (q ← hours_cell (at_ row 5); Ok (Some (entry_with_hours row q))).
Proof.
  unfold long_row. intros Hlen.
  do 9 (destruct row as [|? row]; [simpl in Hlen; lia|]).
  reflexivity.
Qed.

(** The raw hours column is not read. *)
Lemma read_row_raw_hours row c :
  read_row (<[3%nat := c]> row) = read_row row.
Proof.
  do 9 (destruct row as [|? row]; [done|]). reflexivity.
Qed.

Lemma read_rows_spec rows es :
  read_rows rows = Ok es ->
  Forall2 row_read (filter long_row rows) es.
Proof.
  revert es; induction rows as [|row rows IH]; intros es; simpl.
  - intros [= <-]. constructor.
  - rewrite filter_cons.
    destruct (decide (long_row row)) as [Hl|Hl].
    + rewrite (read_row_long row Hl).
      destruct (hours_cell (at_ row 5)) as [q|] eqn:Hq; simpl; [|done].
      destruct (read_rows rows) as [es'|]; simpl; [|done].
      intros [= <-]. constructor; [|by apply IH].
      exists q. done.
    + rewrite (read_row_short row Hl). simpl.
      destruct (read_rows rows) as [es'|]; simpl; [|done].
      intros [= <-]. by apply IH.
Qed.

Lemma read_rows_total rows :
  (forall row, row ∈ rows -> long_row row ->
               exists q, hours_cell (at_ row 5) = Ok q) ->
  exists es, read_rows rows = Ok es.
Proof.
  induction rows as [|row rows IH]; intros Hall; simpl; [eauto|].
  destruct IH as [es Hes].
  { intros r Hr. apply Hall. by right. }
  rewrite Hes.
  destruct (decide (long_row row)) as [Hl|Hl].
  - rewrite (read_row_long row Hl).
    destruct (Hall row) as [q ->]; [left|done|]. simpl. eauto.
  - rewrite (read_row_short row Hl). simpl. eauto.
Qed.

Lemma read_rows_raise rows row err :
  row ∈ rows -> long_row row -> hours_cell (at_ row 5) = Raise err ->
  exists err', read_rows rows = Raise err'.
Proof.
  intros Hin Hl Herr.
  induction rows as [|r rows IH]; [by apply elem_of_nil in Hin|].
  simpl. destruct (read_row r) as [oe|] eqn:Hr; simpl; [|eauto].
  apply elem_of_cons in Hin as [<-|Hin].
  - rewrite (read_row_long row Hl), Herr in Hr. done.
  - destruct (IH Hin) as [err' ->]. simpl. eauto.
Qed.

(** C5, as amended.  A table of fewer than two rows fails with
    [InputMissing].  Otherwise the rows after the header are read in
    order: a row of fewer than nine cells is skipped; a row of at
    least nine gives one entry whose hours are taken from the total
    adjusted hours cell (the raw hours cell is never read) - zero
    when that cell is empty or otherwise false, the number when it
    holds one, and what [float] makes of it when it holds text, so
    that text which is not a number makes the whole read fail
    instead of counting as zero.  The read succeeds when every such
    cell converts, and date text that does not parse gives no date
    without failing the row. *)
Theorem read_timesheet_data_contract (input_file : string)
    (rows : list (list pyval)) :
  ((length rows < 2)%nat ->
   read_timesheet_data input_file (SourceTable rows)
   = Raise InputMissing)
  /\ ((2 <= length rows)%nat ->
      (forall es,
         read_timesheet_data input_file (SourceTable rows) = Ok es ->
         Forall2 row_read (filter long_row (tail rows)) es)
      /\ ((forall row, row ∈ tail rows -> long_row row ->
             exists q, hours_cell (at_ row 5) = Ok q) ->
          reads_every_long_row input_file rows)
      /\ (forall row err,
            row ∈ tail rows -> long_row row ->
            hours_cell (at_ row 5) = Raise err ->
            exists err',
              read_timesheet_data input_file (SourceTable rows)
              = Raise err'))
  /\ (forall row c, read_row (<[3%nat := c]> row) = read_row row)
  /\ (forall c, truthy c = false -> hours_cell c = Ok 0%Q)
  /\ (forall q, exists q', hours_cell (PNum q) = Ok q' /\ (q' == q)%Q)
  /\ (forall s, s <> "" -> hours_cell (PStr s) = float_of_text s)
  /\ (forall s, strptime_mdY s = None -> date_cell (PStr s) = DateNone).
Proof.
  split; [|split; [|split; [|split; [|split; [|split]]]]].
  - intros Hlen. simpl.
    destruct (Nat.ltb_spec (length rows) 2); [done|lia].
  - intros Hlen. simpl.
    destruct (Nat.ltb_spec (length rows) 2); [lia|].
    split; [|split].
    + intros es. apply read_rows_spec.
    + intros Hall. destruct (read_rows_total _ Hall) as [es Hes].
      exists es. simpl.
      destruct (Nat.ltb_spec (length rows) 2); [lia|].
      split; [done|]. apply read_rows_spec in Hes.
      symmetry. by eapply Forall2_length.
    + intros row err. apply read_rows_raise.
  - apply read_row_raw_hours.
  - intros c Hc. unfold hours_cell. by rewrite Hc.
  - intros q. unfold hours_cell. simpl.
    destruct (Qeq_bool q 0) eqn:E; simpl.
    + exists 0%Q. split; [done|]. apply Qeq_bool_iff in E. by rewrite E.
    + exists q. split; [done|reflexivity].
  - intros s Hs. unfold hours_cell. simpl.
    apply String.eqb_neq in Hs. by rewrite Hs.
  - intros s Hs. simpl. by rewrite Hs.
Qed.
End WithRuntime.

End Reader.


(** ** Formula rebuilding *)

Module Rebuild.
Import Aggregation.

(** A row of the sheet. *)
Definition in_sheet (ws : worksheet) (r : nat) : Prop :=
  (1 <= r <= max_row ws)%nat.

Lemma elem_of_range a b r : r ∈ range a b <-> (a <= r < b)%nat.
Proof. unfold range. rewrite elem_of_seq. lia. Qed.

Lemma elem_of_rows ws r : r ∈ range 1 (max_row ws + 1) <-> in_sheet ws r.
Proof. rewrite elem_of_range. unfold in_sheet. lia. Qed.

Lemma foldl_invariant {A B} (P : A -> Prop) (f : A -> B -> A) l a :
  P a -> (forall a x, x ∈ l -> P a -> P (f a x)) -> P (foldl f a l).
Proof.
  revert a; induction l as [|x l IH]; intros a Ha Hf; simpl; [done|].
  apply IH.
  - apply Hf; [left|done].
  - intros a' y Hy. apply Hf. by right.
Qed.

Lemma foldl_ext_in {A B} (f g : A -> B -> A) l a :
  (forall a x, x ∈ l -> f a x = g a x) -> foldl f a l = foldl g a l.
Proof.
  revert a; induction l as [|x l IH]; intros a Hfg; simpl; [done|].
  rewrite Hfg by left. apply IH. intros a' y Hy. apply Hfg. by right.
Qed.

(** *** Insertion-ordered dictionaries *)

Lemma elem_of_dict_set {V} (d : list (nat * V)) k v k' v' :
  (k', v') ∈ dict_set d k v -> (k', v') = (k, v) \/ (k', v') ∈ d.
Proof.
  induction d as [|[k0 v0] d IH]; simpl.
  - intros ->%list_elem_of_singleton. by left.
  - destruct (k =? k0)%nat.
    + intros [->|Hin]%elem_of_cons; [by left|]. right. by right.
    + intros [->|Hin]%elem_of_cons; [right; left|].
      destruct (IH Hin) as [?|?]; [by left|]. right. by right.
Qed.

Lemma dict_get_elem_of {V} (d : list (nat * V)) k v :
  dict_get d k = Some v -> (k, v) ∈ d.
Proof.
  induction d as [|[k0 v0] d IH]; simpl; [done|].
  destruct (Nat.eqb_spec k k0) as [->|Hne].
  - intros [= ->]. left.
  - intros Hk. right. by apply IH.
Qed.

Section WithRuntime.
Context `{PyRuntime}.

(** The description of a row, as the scan compares it. *)
Definition description (ws : worksheet) (r : nat) : string :=
  strip (py_str (cell ws r 2)).

(** A row the scan classifies by a task label, or by a phase label. *)
Definition task_labelled (ws : worksheet) (r : nat) : Prop :=
  truthy (cell ws r 2) = true /\ description ws r ∈ task_descriptions.
Definition phase_labelled (ws : worksheet) (r : nat) : Prop :=
  truthy (cell ws r 2) = true /\ description ws r ∈ phase_headers.

(** *** What the scan finds lies in the sheet *)

Lemma classify_rows_inv ws :
  (forall r, r ∈ fst (classify_rows ws) ->
             in_sheet ws r /\ phase_labelled ws r)
  /\ (forall r, r ∈ snd (classify_rows ws) ->
                in_sheet ws r /\ task_labelled ws r).
Proof.
  unfold classify_rows.
  apply (foldl_invariant
           (fun st : list nat * gset nat =>
              (forall r, r ∈ fst st ->
                         in_sheet ws r /\ phase_labelled ws r)
              /\ (forall r, r ∈ snd st ->
                            in_sheet ws r /\ task_labelled ws r))).
  - split; intros r Hr; [by apply elem_of_nil in Hr|].
    by apply elem_of_empty in Hr.
  - intros [phase_rows task_rows_map] row Hrow%elem_of_rows [Hp Ht].
    cbv beta iota zeta.
    destruct (truthy (cell ws row 2)) eqn:Htr; simpl; [|done].
    case_bool_decide as Hph; [|case_bool_decide as Hta]; simpl.
    + split; [|done]. intros r [Hr| ->%list_elem_of_singleton]%elem_of_app;
        [by apply Hp|]. done.
    + split; [done|].
      intros r [ ->%elem_of_singleton |Hr]%elem_of_union; [done|].
      by apply Ht.
    + done.
Qed.

Definition scan_in_sheet (ws : worksheet) (st : totals_scan) : Prop :=
  (forall r, scan_overall_subtotal_row st = Some r -> in_sheet ws r)
  /\ (forall r, scan_reimbursable_subtotal_row st = Some r ->
                in_sheet ws r)
  /\ (forall r, r ∈ scan_reimbursable_cost_rows st -> in_sheet ws r)
  /\ (forall r, scan_total_amount_due_row st = Some r -> in_sheet ws r).

(** The two halves of one pass of the second scan. *)
Definition scan_description (ws : worksheet) (st : totals_scan)
    (row : nat) : totals_scan :=
  let cell_b := cell ws row 2 in
  if truthy cell_b then
    let cell_b_str := strip (py_str cell_b) in
    if String.eqb cell_b_str "Reimbursable" then
      mk_scan (scan_overall_subtotal_row st)
              (scan_reimbursable_subtotal_row st)
              (scan_reimbursable_cost_rows st)
              (scan_total_amount_due_row st) true
    else if String.eqb cell_b_str "Subtotal" then
      if negb (scan_in_reimbursable st) then
        mk_scan (Some row)
                (scan_reimbursable_subtotal_row st)
                (scan_reimbursable_cost_rows st)
                (scan_total_amount_due_row st) (scan_in_reimbursable st)
      else
        mk_scan (scan_overall_subtotal_row st)
                (Some row)
                (scan_reimbursable_cost_rows st)
                (scan_total_amount_due_row st) (scan_in_reimbursable st)
    else if existsb (String.eqb cell_b_str) reimbursable_names then
      mk_scan (scan_overall_subtotal_row st)
              (scan_reimbursable_subtotal_row st)
              (scan_reimbursable_cost_rows st ++ [row])
              (scan_total_amount_due_row st) (scan_in_reimbursable st)
    else st
  else st.

Definition scan_total_due (ws : worksheet) (st : totals_scan)
    (row : nat) : totals_scan :=
  let cell_d := cell ws row 4 in
  if truthy cell_d && contains "Total Amount Due" (py_str cell_d) then
    mk_scan (scan_overall_subtotal_row st)
            (scan_reimbursable_subtotal_row st)
            (scan_reimbursable_cost_rows st)
            (Some row) (scan_in_reimbursable st)
  else st.

Lemma scan_row_halves ws st row :
  scan_row ws st row
  = scan_total_due ws (scan_description ws st row) row.
Proof. reflexivity. Qed.

Lemma scan_description_inv ws st row :
  in_sheet ws row -> scan_in_sheet ws st ->
  scan_in_sheet ws (scan_description ws st row).
Proof.
  intros Hrow (Ho & Hr & Hc & Ht). unfold scan_description. cbv zeta.
  repeat match goal with
  | |- context [if ?b then _ else _] => destruct b
  end; (split; [|split; [|split]]); simpl; try done;
    try (by intros ? [= <-]).
  intros r [Hin| ->%list_elem_of_singleton]%elem_of_app;
    [by apply Hc|done].
Qed.

Lemma scan_total_due_inv ws st row :
  in_sheet ws row -> scan_in_sheet ws st ->
  scan_in_sheet ws (scan_total_due ws st row).
Proof.
  intros Hrow (Ho & Hr & Hc & Ht). unfold scan_total_due. cbv zeta.
  destruct (_ && _); [|done].
  split; [|split; [|split]]; simpl; try done. by intros ? [= <-].
Qed.

Lemma scan_totals_inv ws : scan_in_sheet ws (scan_totals ws).
Proof.
  unfold scan_totals. apply foldl_invariant.
  - split; [|split; [|split]]; simpl; try done.
    intros r Hr. by apply elem_of_nil in Hr.
  - intros st row Hrow%elem_of_rows Hst. rewrite scan_row_halves.
    by apply scan_total_due_inv, scan_description_inv.
Qed.

Lemma phase_span_inv ws (task_rows_map : gset nat) a b :
  (forall r, r ∈ fst (phase_span ws task_rows_map a b) ->
             r ∈ range (a + 1) b /\ r ∈ task_rows_map)
  /\ (forall r, snd (phase_span ws task_rows_map a b) = Some r ->
                r ∈ range (a + 1) b).
Proof.
  unfold phase_span.
  apply (foldl_invariant
           (fun st : list nat * option nat =>
              (forall r, r ∈ fst st ->
                         r ∈ range (a + 1) b /\ r ∈ task_rows_map)
              /\ (forall r, snd st = Some r -> r ∈ range (a + 1) b))).
  - split; [|done]. intros r Hr. by apply elem_of_nil in Hr.
  - intros [phase_tasks subtotal_row] row Hrow [Ht Hs].
    cbv beta iota zeta. case_bool_decide as Hin; simpl.
    + split; [|done].
      intros r [Hr| ->%list_elem_of_singleton]%elem_of_app; auto.
    + destruct (negb (truthy (cell ws row 2))); simpl; [|done].
      destruct phase_tasks as [|t ts]; [done|].
      destruct subtotal_row; simpl; [done|].
      split; [done|]. by intros ? [= <-].
Qed.

(** The structure of the third pass: every task row recorded for a
    phase is a task row of the first pass below the phase header,
    and every subtotal row lies in the sheet. *)
Definition phases_in_sheet (ws : worksheet) (task_rows_map : gset nat)
    (st : list (nat * list nat) * list (nat * nat)) : Prop :=
  (forall k task_rows,
     (k, task_rows) ∈ fst st ->
     task_rows <> [] /\ forall r, r ∈ task_rows -> r ∈ task_rows_map)
  /\ (forall k s, (k, s) ∈ snd st -> in_sheet ws s).

Lemma build_phases_inv ws phase_rows (task_rows_map : gset nat)
    overall_subtotal_row :
  (forall r, r ∈ phase_rows -> in_sheet ws r) ->
  (forall r, overall_subtotal_row = Some r -> in_sheet ws r) ->
  phases_in_sheet ws task_rows_map
    (build_phases ws phase_rows task_rows_map overall_subtotal_row).
Proof.
  intros Hrows Hover. unfold build_phases.
  apply (foldl_invariant (phases_in_sheet ws task_rows_map)).
  - split; intros ? ? Hin; by apply elem_of_nil in Hin.
  - intros [ptr psr] [i phase_row] Hin [Ht Hs].
    cbv beta iota zeta.
    set (next := match phase_rows !! (i + 1)%nat with
                 | Some r => r
                 | None => row_or overall_subtotal_row (max_row ws)
                 end).
    assert (next <= max_row ws)%nat as Hnext.
    { subst next. destruct (phase_rows !! (i + 1)%nat) as [r|] eqn:Hr.
      - apply list_elem_of_lookup_2, Hrows in Hr. unfold in_sheet in Hr.
        lia.
      - unfold row_or. destruct overall_subtotal_row as [ [ | k ] | ]; [lia| |lia].
        destruct (Hover (S k) eq_refl). lia. }
    pose proof (phase_span_inv ws task_rows_map phase_row next)
      as [Hspan_t Hspan_s].
    destruct (phase_span ws task_rows_map phase_row next)
      as [phase_tasks subtotal_row]. simpl in Hspan_t, Hspan_s.
    destruct phase_tasks as [|t ts]; [done|].
    split; simpl.
    + intros k task_rows [[= -> ->]|Hk]%elem_of_dict_set.
      * split; [done|]. intros r Hr. by apply Hspan_t.
      * by eapply Ht.
    + destruct subtotal_row as [ [ | s ] | ]; [done| |done].
      intros k s' [[= -> ->]|Hk]%elem_of_dict_set.
      * pose proof (proj1 (elem_of_range _ _ _) (Hspan_s (S s) eq_refl))
          as [? ?].
        unfold in_sheet. lia.
      * by eapply Hs.
Qed.

Lemma discover_components ws :
  let b := build_phases ws (fst (classify_rows ws))
             (snd (classify_rows ws))
             (scan_overall_subtotal_row (scan_totals ws)) in
  discover ws = mk_structure (fst b) (snd b) (scan_totals ws).
Proof.
  unfold discover. destruct (classify_rows ws) as [pr tm]. simpl.
  by destruct (build_phases _ _ _ _).
Qed.

Lemma discover_task_rows ws r :
  r ∈ all_task_rows (discover ws) ->
  in_sheet ws r /\ task_labelled ws r.
Proof.
  rewrite discover_components. unfold all_task_rows. simpl.
  intros (l & Hr & Hl)%elem_of_concat.
  change (map ?f ?l) with (f <$> l) in Hl.
  apply list_elem_of_fmap in Hl as ([k tasks] & -> & Hk).
  pose proof (classify_rows_inv ws) as [Hp Ht].
  pose proof (scan_totals_inv ws) as (Ho & _).
  destruct (build_phases_inv ws (fst (classify_rows ws))
              (snd (classify_rows ws))
              (scan_overall_subtotal_row (scan_totals ws)))
    as [Htasks _].
  - intros r' Hr'. by apply Hp.
  - exact Ho.
  - apply Ht. by eapply (proj2 (Htasks _ _ Hk)).
Qed.


Lemma discover_subtotal_rows ws k s :
  (k, s) ∈ phase_subtotal_rows (discover ws) -> in_sheet ws s.
Proof.
  rewrite discover_components. simpl.
  pose proof (classify_rows_inv ws) as [Hp Ht].
  pose proof (scan_totals_inv ws) as (Ho & _).
  destruct (build_phases_inv ws (fst (classify_rows ws))
              (snd (classify_rows ws))
              (scan_overall_subtotal_row (scan_totals ws)))
    as [_ Hsub].
  - intros r' Hr'. by apply Hp.
  - exact Ho.
  - apply Hsub.
Qed.

Lemma discover_totals ws : totals (discover ws) = scan_totals ws.
Proof. by rewrite discover_components. Qed.

(** *** The writes stay in the sheet and off the scanned columns *)

Definition write_row (w : write) : nat := fst (fst w).
Definition write_column (w : write) : nat := snd (fst w).
Definition write_text (w : write) : string := snd w.

Lemma elem_of_phase_subtotal_writes s w :
  w ∈ phase_subtotal_writes s ->
  exists phase_row t ts r,
    (phase_row, t :: ts) ∈ phase_task_rows s
    /\ dict_get (phase_subtotal_rows s) phase_row = Some (S r)
    /\ w = (S r, 6%nat,
            span_formula (foldl Nat.min t ts) (foldl Nat.max t ts)).
Proof.
  unfold phase_subtotal_writes. rewrite list_elem_of_omap.
  intros ([phase_row task_rows] & Hin & Hw).
  unfold phase_subtotal_write in Hw.
  destruct (dict_get _ _) as [ [ | r ] | ] eqn:E; try done.
  destruct task_rows as [|t ts]; [done|].
  injection Hw as <-. by exists phase_row, t, ts, r.
Qed.

Lemma formula_writes_inv ws w :
  w ∈ formula_writes (discover ws) ->
  in_sheet ws (write_row w)
  /\ (write_column w = 3%nat \/ write_column w = 6%nat
      \/ write_column w = 5%nat
         /\ write_text w = cost_formula (write_row w)).
Proof.
  pose proof (scan_totals_inv ws) as (Ho & Hr & Hc & Ht).
  unfold formula_writes. rewrite !elem_of_app.
  intros [Hw|[Hw|[Hw|[Hw|Hw]]]].
  - unfold cost_writes in Hw.
    change (map ?f ?l) with (f <$> l) in Hw.
    apply list_elem_of_fmap in Hw as (r & -> & Hin).
    apply discover_task_rows in Hin as [Hin _]. simpl. auto.
  - apply elem_of_phase_subtotal_writes
      in Hw as (k & t & ts & r & _ & Hget & ->).
    apply dict_get_elem_of, discover_subtotal_rows in Hget.
    simpl. auto.
  - unfold overall_writes in Hw. rewrite discover_totals in Hw.
    destruct (scan_overall_subtotal_row _) as [ [ | o ] | ] eqn:E;
      try (by apply elem_of_nil in Hw).
    pose proof (Ho _ eq_refl) as Hin.
    apply elem_of_app in Hw as [Hw|Hw].
    + destruct (all_task_rows _); [by apply elem_of_nil in Hw|].
      apply list_elem_of_singleton in Hw as ->. simpl. auto.
    + destruct (phase_subtotal_list _); [by apply elem_of_nil in Hw|].
      apply list_elem_of_singleton in Hw as ->. simpl. auto.
  - unfold reimbursable_writes in Hw. rewrite discover_totals in Hw.
    destruct (scan_reimbursable_subtotal_row _) as [ [ | r ] | ] eqn:E;
      try (by apply elem_of_nil in Hw).
    destruct (scan_reimbursable_cost_rows _);
      [by apply elem_of_nil in Hw|].
    pose proof (Hr _ eq_refl) as Hin.
    apply list_elem_of_singleton in Hw as ->. simpl. auto.
  - unfold total_due_writes in Hw. rewrite discover_totals in Hw.
    destruct (scan_total_amount_due_row _) as [ [ | t ] | ] eqn:E;
      try (by apply elem_of_nil in Hw).
    destruct (scan_overall_subtotal_row _) as [ [ | o ] | ];
      try (by apply elem_of_nil in Hw).
    pose proof (Ht _ eq_refl) as Hin.
    destruct (scan_reimbursable_subtotal_row _) as [ [ | r ] | ];
      apply list_elem_of_singleton in Hw as ->; simpl; auto.
Qed.

Lemma max_row_apply_writes ws (W : list write) :
  (forall w, w ∈ W -> (write_row w <= max_row ws)%nat) ->
  max_row (foldl apply_write ws W) = max_row ws.
Proof.
  revert ws; induction W as [|[[r c] t] W IH]; intros ws HW; simpl;
    [done|].
  assert (r <= max_row ws)%nat as Hr by (apply (HW (r, c, t)); left).
  rewrite IH.
  - simpl. lia.
  - intros w Hw. simpl. etrans; [apply HW; by right|]. lia.
Qed.

Lemma cell_apply_writes_other ws (W : list write) r c :
  (forall w, w ∈ W -> (write_row w, write_column w) <> (r, c)) ->
  cell (foldl apply_write ws W) r c = cell ws r c.
Proof.
  revert ws; induction W as [|[[r' c'] t] W IH]; intros ws HW; simpl;
    [done|].
  rewrite IH by (intros w Hw; apply HW; by right).
  apply cell_set_cell_ne. apply (HW (r', c', t)). left.
Qed.

(** The last text written to a cell, if any. *)
Fixpoint last_write (W : list write) (r c : nat) : option string :=
  match W with
  | [] => None
  | (r', c', t) :: W' =>
      match last_write W' r c with
      | Some t' => Some t'
      | None =>
          if decide ((r', c') = (r, c)) then Some t else None
      end
  end.

Lemma lookup_apply_writes ws (W : list write) r c :
  cells (foldl apply_write ws W) !! (r, c)
  = match last_write W r c with
    | Some t => Some (PStr t)
    | None => cells ws !! (r, c)
    end.
Proof.
  revert ws; induction W as [|[[r' c'] t] W IH]; intros ws; simpl;
    [done|].
  rewrite IH. destruct (last_write W r c); [done|]. simpl.
  destruct (decide ((r', c') = (r, c))) as [Heq|Hne].
  - rewrite Heq. apply lookup_insert_eq.
  - by apply lookup_insert_ne.
Qed.

Lemma worksheet_eq ws1 ws2 :
  max_row ws1 = max_row ws2 -> cells ws1 = cells ws2 -> ws1 = ws2.
Proof. destruct ws1, ws2. simpl. by intros -> ->. Qed.

(** Writing the same formulas a second time changes nothing. *)
Lemma apply_writes_twice ws (W : list write) :
  (forall w, w ∈ W -> (write_row w <= max_row ws)%nat) ->
  foldl apply_write (foldl apply_write ws W) W = foldl apply_write ws W.
Proof.
  intros HW. apply worksheet_eq.
  - rewrite !max_row_apply_writes; try done.
    intros w Hw. rewrite max_row_apply_writes by done. by apply HW.
  - apply map_eq. intros [r c]. rewrite !lookup_apply_writes.
    by destruct (last_write W r c).
Qed.

(** *** The scan reads the description and label columns only *)

Lemma classify_rows_ext ws1 ws2 :
  max_row ws1 = max_row ws2 ->
  (forall r, cell ws1 r 2 = cell ws2 r 2) ->
  classify_rows ws1 = classify_rows ws2.
Proof.
  intros Hmax Hb. unfold classify_rows. rewrite Hmax.
  apply foldl_ext_in. intros [pr tm] row _. cbv beta iota zeta.
  by rewrite Hb.
Qed.

Lemma scan_totals_ext ws1 ws2 :
  max_row ws1 = max_row ws2 ->
  (forall r, cell ws1 r 2 = cell ws2 r 2) ->
  (forall r, cell ws1 r 4 = cell ws2 r 4) ->
  scan_totals ws1 = scan_totals ws2.
Proof.
  intros Hmax Hb Hd. unfold scan_totals. rewrite Hmax.
  apply foldl_ext_in. intros st row _. unfold scan_row.
  by rewrite Hb, Hd.
Qed.

Lemma phase_span_ext ws1 ws2 tm a b :
  (forall r, cell ws1 r 2 = cell ws2 r 2) ->
  phase_span ws1 tm a b = phase_span ws2 tm a b.
Proof.
  intros Hb. unfold phase_span. apply foldl_ext_in.
  intros [pt sr] row _. cbv beta iota zeta. by rewrite Hb.
Qed.

Lemma build_phases_ext ws1 ws2 pr tm o :
  max_row ws1 = max_row ws2 ->
  (forall r, cell ws1 r 2 = cell ws2 r 2) ->
  build_phases ws1 pr tm o = build_phases ws2 pr tm o.
Proof.
  intros Hmax Hb. unfold build_phases. apply foldl_ext_in.
  intros [ptr psr] [i phase_row] _. cbv beta iota zeta.
  by rewrite Hmax, (phase_span_ext ws1 ws2 _ _ _ Hb).
Qed.

Lemma discover_ext ws1 ws2 :
  max_row ws1 = max_row ws2 ->
  (forall r, cell ws1 r 2 = cell ws2 r 2) ->
  (forall r, cell ws1 r 4 = cell ws2 r 4) ->
  discover ws1 = discover ws2.
Proof.
  intros Hmax Hb Hd. rewrite !discover_components. cbv zeta.
  rewrite (classify_rows_ext ws1 ws2 Hmax Hb).
  rewrite (scan_totals_ext ws1 ws2 Hmax Hb Hd).
  by rewrite (build_phases_ext ws1 ws2 _ _ _ Hmax Hb).
Qed.

Lemma rebuild_formulas_frame ws :
  max_row (rebuild_formulas ws) = max_row ws
  /\ (forall r, cell (rebuild_formulas ws) r 2 = cell ws r 2)
  /\ (forall r, cell (rebuild_formulas ws) r 4 = cell ws r 4).
Proof.
  unfold rebuild_formulas. split; [|split].
  - apply max_row_apply_writes. intros w Hw.
    apply formula_writes_inv in Hw as [[_ Hr] _]. exact Hr.
  - intros r. apply cell_apply_writes_other. intros w Hw.
    apply formula_writes_inv in Hw as [_ Hc]. intros [= _ Hc'].
    destruct Hc as [?|[?|[? _]]]; lia.
  - intros r. apply cell_apply_writes_other. intros w Hw.
    apply formula_writes_inv in Hw as [_ Hc]. intros [= _ Hc'].
    destruct Hc as [?|[?|[? _]]]; lia.
Qed.

(** C4.  The scan of a rebuilt sheet finds the structure it found
    before the rebuild, because the rebuild changes neither the
    number of rows nor the description and label columns the scan
    reads; so a second rebuild writes the same formulas to the same
    cells and leaves the sheet as the first one made it. *)
Theorem rebuild_formulas_idempotent (ws : worksheet) :
  max_row (rebuild_formulas ws) = max_row ws
  /\ (forall r, cell (rebuild_formulas ws) r 2 = cell ws r 2)
  /\ (forall r, cell (rebuild_formulas ws) r 4 = cell ws r 4)
  /\ discover (rebuild_formulas ws) = discover ws
  /\ formula_writes (discover (rebuild_formulas ws))
     = formula_writes (discover ws)
  /\ rebuild_formulas (rebuild_formulas ws) = rebuild_formulas ws.
Proof.
  destruct (rebuild_formulas_frame ws) as (Hmax & Hb & Hd).
  assert (discover (rebuild_formulas ws) = discover ws) as Hdisc
    by by apply discover_ext.
  split; [done|]. split; [done|]. split; [done|]. split; [done|].
  split; [by rewrite Hdisc|].
  unfold rebuild_formulas at 1. rewrite Hdisc.
  unfold rebuild_formulas. apply apply_writes_twice.
  intros w Hw. apply formula_writes_inv in Hw as [[_ Hr] _]. exact Hr.
Qed.
(** *** What is written *)







Lemma cell_apply_writes ws (W : list write) r c :
  cell (foldl apply_write ws W) r c
  = match last_write W r c with
    | Some t => PStr t
    | None => cell ws r c
    end.
Proof.
  unfold cell. rewrite lookup_apply_writes.
  by destruct (last_write W r c).
Qed.

Lemma last_write_some (W : list write) r c t :
  last_write W r c = Some t ->
  exists w, w ∈ W /\ write_row w = r /\ write_column w = c
            /\ write_text w = t.
Proof.
  induction W as [|[[r1 c1] t1] W IH]; simpl; [done|].
  destruct (last_write W r c) as [t'|] eqn:E.
  - intros [= <-]. destruct (IH eq_refl) as (w & ? & ? & ? & ?).
    exists w. split; [by right|done].
  - destruct (decide ((r1, c1) = (r, c))) as [[= -> ->]|]; [|done].
    intros [= <-]. exists (r, c, t1). split; [left|done].
Qed.







End WithRuntime.

End Rebuild.


(** ** The model on concrete inputs *)

Module Examples.
Import Validation Aggregation Pruning Populate Reader Rebuild.

#[local] Existing Instance Reference.runtime.

(** A workbook assembler that always succeeds, for running the
    pipeline. *)
Definition no_workbook (_ : gmap string (gmap (string * string) Q))
    (_ : gmap string (list entry)) (_ : option pydate) : result unit :=
  Ok tt.

Definition coded_entry : entry :=
  mk_entry "A: 1" (DateVal (mk_date 2025 10 30)) "JD" 8 "PM" "SD" "W-1".

(** A billable entry without a task code: validation lets it pass. *)
Definition uncoded_entry : entry :=
  mk_entry "A: 1" DateNone "JD" 2 "" "SD" "".

Definition no_colon_entry (h : Q) : entry :=
  mk_entry "NoColon" DateNone "JD" h "PM" "SD" "".

Definition vacation_entry : entry :=
  mk_entry "Vacation" DateNone "JD" 8 "XX" "NA" "".



(** *** The reader *)

Definition header_row : list pyval :=
  map PStr ["Project ID"; "Date"; "Employee"; "Hours"; "Hours Adjusted";
            "Total Adjusted Hours"; "Task"; "Phase"; "WID"].

(** A row whose total adjusted hours cell holds text that is no
    number. *)
Definition text_hours_row : list pyval :=
  [PStr "A: 1"; PStr "10/30/2025"; PStr "JD"; PNum 8; PNone; PStr "n/a";
   PStr "pm"; PStr "sd"; PNone].

Definition plain_row : list pyval :=
  [PStr " A: 1 "; PStr "10/30/2025"; PStr "JD"; PNum 8; PNum (1 # 2);
   PNum (17 # 2); PStr "pm"; PStr "sd"; PStr "W-1"].

Definition short_row : list pyval := [PStr "A: 1"; PNone; PStr "JD"].

Definition empty_hours_row : list pyval :=
  [PStr "A: 1"; PStr "yesterday"; PStr "JD"; PNum 8; PNone; PNone;
   PStr "PM"; PStr "SD"; PNone].

(** The claim C5 as stated fails: a row of nine cells whose hours cell
    holds the text "n/a" does not become an entry with zero hours; the
    read raises the [ValueError] of [float]. *)
Lemma reader_counterexample :
  let rows := [header_row; text_hours_row] in
  long_row text_hours_row
  /\ at_ text_hours_row 5 = PStr "n/a"
  /\ read_timesheet_data "report.numbers" (SourceTable rows)
     = Raise (ValueError "could not convert string to float: 'n/a'")
  /\ ~ reads_every_long_row "report.numbers" rows.
Proof.
  cbv zeta. split; [unfold long_row; simpl; lia|].
  split; [reflexivity|].
  assert (read_timesheet_data "report.numbers"
            (SourceTable [header_row; text_hours_row])
          = Raise (ValueError "could not convert string to float: 'n/a'"))
    as Hread by (vm_compute; reflexivity).
  split; [exact Hread|].
  intros (es & Hes & _). rewrite Hread in Hes. discriminate Hes.
Qed.

Lemma read_timesheet_data_contract_witness :
  reads_every_long_row "report.numbers"
    [header_row; plain_row; short_row; empty_hours_row].
Proof.
  apply (read_timesheet_data_contract "report.numbers"
           [header_row; plain_row; short_row; empty_hours_row]).
  - simpl. lia.
  - intros row Hrow _. simpl in Hrow.
    rewrite !elem_of_cons, elem_of_nil in Hrow.
    destruct Hrow as [->|[->|[->|[]]]]; eexists; vm_compute; reflexivity.
Defined.

(** What the reader makes of these rows. *)
Example read_rows_example :
  read_timesheet_data "report.numbers"
    (SourceTable [header_row; plain_row; short_row; empty_hours_row])
  = Ok [mk_entry "A: 1" (DateVal (mk_date 2025 10 30)) "JD" (17 # 2)
                 "PM" "SD" "W-1";
        mk_entry "A: 1" DateNone "JD" 0 "PM" "SD" ""].
Proof. vm_compute. reflexivity. Qed.

(** *** The pipeline *)

Lemma validate_project_ids_batched_witness :
  process_entries no_workbook
    [coded_entry; no_colon_entry 3; no_colon_entry 1; no_colon_entry 0]
    None
  = Raise (InvalidProjectId
             ["Project ID missing colon separator: 'NoColon'"]).
Proof.
  destruct (validate_project_ids_batched no_workbook
              [coded_entry; no_colon_entry 3; no_colon_entry 1;
               no_colon_entry 0] None) as (_ & _ & _ & _ & Hscenario).
  destruct Hscenario as [Hraise _].
  - exists (no_colon_entry 3). split; [|reflexivity].
    apply elem_of_billable. split; [right; left|].
    split; [vm_compute; reflexivity|reflexivity].
  - rewrite Hraise. vm_compute. reflexivity.
Defined.

Lemma no_billable_data_witness :
  process_entries no_workbook
    [vacation_entry; mk_entry "OFFICE: 12" DateNone "JD" 4 "" "" "";
     no_colon_entry 0]
    None
  = Raise NoBillableData.
Proof.
  apply (no_billable_data no_workbook
           [vacation_entry; mk_entry "OFFICE: 12" DateNone "JD" 4 "" "" "";
            no_colon_entry 0] None).
  apply List.Forall_cons; [left; vm_compute; reflexivity|].
  apply List.Forall_cons; [left; vm_compute; reflexivity|].
  apply List.Forall_cons; [|apply List.Forall_nil].
  right. intros Hlt. vm_compute in Hlt. discriminate Hlt.
Defined.

Lemma validation_after_filters_witness :
  process_entries no_workbook
    [coded_entry; no_colon_entry 0; vacation_entry] None
  = process_entries no_workbook [coded_entry] None.
Proof.
  destruct (validation_after_filters no_workbook
              [coded_entry; no_colon_entry 0; vacation_entry] None)
    as (Hsame & _).
  rewrite Hsame. f_equal.
Defined.

(** *** Pruning and populating *)

(** The scenario of the specification: with ten hours under (PM, SD)
    only, every other phase goes and SD keeps its PM row 18. *)
Example calculate_rows_to_delete_example :
  calculate_rows_to_delete {[ ("PM", "SD") := 10%Q ]}
  = Ok [42; 41; 40; 39; 38; 37; 36; 35; 34; 33; 32; 31; 30; 29; 28; 27;
        26; 25; 24; 23; 22; 20; 19; 17; 15; 14; 13; 12; 11; 10]%nat.
Proof. vm_compute. reflexivity. Qed.



(** *** Rebuilding *)

(** A pruned sheet: one phase with two task rows and its subtotal row,
    the overall subtotal, a reimbursable block and the total row. *)
Definition small_sheet : worksheet :=
  mk_ws 10
    (list_to_map
       [((1, 2), PStr "Schematic Design");
        ((2, 2), PStr "Project Management"); ((2, 3), PNum 8);
        ((3, 2), PStr "3D Model"); ((3, 3), PNum 2);
        ((5, 2), PStr "Subtotal");
        ((6, 2), PStr "Reimbursable");
        ((7, 2), PStr "Phipps Printing");
        ((8, 2), PStr "Subtotal");
        ((10, 4), PStr "Total Amount Due")]%nat).

Example formula_writes_example :
  formula_writes (discover small_sheet)
  = [(2, 5, "=C2*D2"); (3, 5, "=C3*D3"); (4, 6, "=SUM(E2:E3)");
     (5, 3, "=SUM(C2,C3)"); (5, 6, "=SUM(F4)"); (8, 6, "=SUM(E7:E7)");
     (10, 6, "=F5+F8")]%nat.
Proof. vm_compute. reflexivity. Qed.


Lemma rebuild_formulas_idempotent_witness :
  rebuild_formulas (rebuild_formulas small_sheet)
  = rebuild_formulas small_sheet.
Proof. apply (rebuild_formulas_idempotent small_sheet). Defined.

End Examples.

(** ** Project identifiers *)

Module Identifiers.

Lemma contains_char_cons c d s :
  contains_char c (String d s)
  = if Ascii.eqb c d then true else contains_char c s.
Proof. reflexivity. Qed.

Lemma split_colon_cons c s :
  split_colon (String c s)
  = if Ascii.eqb c ":" then (EmptyString, s)
    else let '(a, b) := split_colon s in (String c a, b).
Proof. reflexivity. Qed.

Lemma contains_char_app c s t :
  contains_char c (s +:+ t) = contains_char c s || contains_char c t.
Proof.
  induction s as [|d s IH]; [by rewrite append_nil|].
  rewrite append_cons, !contains_char_cons. by destruct (Ascii.eqb c d).
Qed.

Lemma split_colon_app a b :
  contains_char ":" a = false ->
  split_colon (a +:+ ":" +:+ b) = (a, b).
Proof.
  induction a as [|c a IH]; intros Ha.
  - by rewrite append_nil.
  - rewrite append_cons, split_colon_cons.
    rewrite contains_char_cons in Ha. rewrite Ascii.eqb_sym.
    destruct (Ascii.eqb ":" c); [done|]. by rewrite IH.
Qed.

Lemma split_colon_join s :
  contains_char ":" s = true ->
  let '(a, b) := split_colon s in
  s = a +:+ ":" +:+ b /\ contains_char ":" a = false.
Proof.
  induction s as [|c s IH]; [done|].
  rewrite contains_char_cons, split_colon_cons, (Ascii.eqb_sym c ":").
  destruct (Ascii.eqb ":" c) eqn:E.
  - intros _. apply Ascii.eqb_eq in E as <-. by rewrite append_nil.
  - intros Hs. specialize (IH Hs). destruct (split_colon s) as [a b].
    destruct IH as [-> Ha]. by rewrite append_cons, contains_char_cons, E.
Qed.

(** [parse_project_id] splits at the first colon and strips both sides:
    an identifier made of a name without a colon, a colon and any
    number (further colons included) parses to the stripped name and
    the stripped number; conversely an identifier that parses is its two
    halves around a colon, the first half free of colons; and it is
    refused exactly when it has no colon. *)
Theorem parse_project_id_first_colon (project_id : string) :
  (forall name number,
     contains_char ":" name = false ->
     parse_project_id (name +:+ ":" +:+ number)
     = Ok (strip name, strip number))
  /\ (forall n m,
        parse_project_id project_id = Ok (n, m) ->
        exists name number,
          project_id = name +:+ ":" +:+ number
          /\ contains_char ":" name = false
          /\ n = strip name /\ m = strip number)
  /\ (contains_char ":" project_id = false <->
      parse_project_id project_id
      = Raise (ValueError ("Project ID missing colon separator: '"
                           +:+ project_id +:+ "'"))).
Proof.
  split; [|split].
  - intros name number Hname. unfold parse_project_id.
    rewrite contains_char_app, (contains_char_app _ ":" number), Hname.
    simpl. by rewrite split_colon_app.
  - intros n m. unfold parse_project_id.
    destruct (contains_char ":" project_id) eqn:E; simpl; [|done].
    pose proof (split_colon_join project_id E) as Hs.
    destruct (split_colon project_id) as [a b]. destruct Hs as [Hs Ha].
    intros [= <- <-]. by exists a, b.
  - unfold parse_project_id.
    destruct (contains_char ":" project_id) eqn:E; simpl.
    + split; [done|]. by destruct (split_colon project_id).
    + done.
Qed.

(** Identifier validation is what makes the per-project step safe:
    the validator returns no message exactly when [parse_project_id]
    succeeds on the identifier of every entry, so that after a passed
    validation the sheet of no project can fail on its identifier. *)
Theorem validated_project_ids_parse (es : list entry) :
  validate_project_ids es = [] <->
  (forall e, e ∈ es ->
             exists name number,
               parse_project_id (project_id e) = Ok (name, number)).
Proof.
  rewrite Validation.validate_project_ids_spec. split.
  - intros Hnil e He. unfold parse_project_id.
    destruct (contains_char ":" (project_id e)) eqn:E; simpl.
    + destruct (split_colon (project_id e)); eauto.
    + assert (project_id_error (project_id e)
              ∈ Validation.project_id_errors es) as Hin.
      { apply Validation.elem_of_project_id_errors. by exists e. }
      rewrite Hnil in Hin. by apply elem_of_nil in Hin.
  - intros Hall.
    destruct (Validation.project_id_errors es) as [|msg l] eqn:E; [done|].
    assert (msg ∈ Validation.project_id_errors es) as Hin
      by (rewrite E; left).
    apply Validation.elem_of_project_id_errors in Hin
      as (e & He & Hmiss & _).
    destruct (Hall e He) as (n & m & Hp). unfold parse_project_id in Hp.
    unfold Validation.missing_colon in Hmiss. rewrite Hmiss in Hp.
    discriminate Hp.
Qed.

End Identifiers.



(** ** The filters and the code validator *)

Module Filters.
Import Validation.

(** [filter_non_projects] only removes: what it returns is its input
    without the non-project entries, in the input's order; the count it
    reports is the number of entries removed; and a second pass removes
    nothing. *)
Theorem filter_non_projects_accounting (es : list entry) :
  let filtered := fst (filter_non_projects es) in
  let excluded_count := snd (filter_non_projects es) in
  filtered `sublist_of` es
  /\ (forall e, e ∈ filtered <-> e ∈ es /\ is_non_project e = false)
  /\ (length filtered + excluded_count = length es)%nat
  /\ filter_non_projects filtered = (filtered, 0%nat).
Proof.
  cbv zeta. rewrite filter_non_projects_spec. cbn [fst snd].
  split; [apply sublist_filter|]. split; [|split].
  - intros e. rewrite list_elem_of_filter, negb_True, Is_true_true.
    rewrite not_true_iff_false. tauto.
  - induction es as [|e es IH]; [done|]. rewrite !filter_cons.
    destruct (is_non_project e); simpl; simpl in IH; lia.
  - rewrite filter_non_projects_spec, list_filter_filter. f_equal.
    + apply list_filter_iff. tauto.
    + rewrite list_filter_filter.
      induction es as [|e es IH]; [done|]. rewrite filter_cons.
      destruct (is_non_project e); simpl; exact IH.
Qed.

(** The zero-hour filter keeps exactly the entries with positive hours,
    in order; it is idempotent; and it commutes with the non-project
    filter, so the entries that reach validation do not depend on the
    order in which the pipeline applies the two. *)
Theorem filter_zero_hours_commutes (es : list entry) :
  Forall (fun e => (0 < hours e)%Q) (filter_zero_hours es)
  /\ (forall e, e ∈ filter_zero_hours es <-> e ∈ es /\ (0 < hours e)%Q)
  /\ filter_zero_hours (filter_zero_hours es) = filter_zero_hours es
  /\ filter_zero_hours (fst (filter_non_projects es))
     = fst (filter_non_projects (filter_zero_hours es)).
Proof.
  assert (forall e, Is_true (Qlt_bool 0 (hours e)) <-> (0 < hours e)%Q)
    as Hpos.
  { intros e. unfold Qlt_bool. rewrite negb_True, Is_true_true.
    rewrite Qle_bool_iff. split.
    - apply Qnot_le_lt.
    - intros ??. by eapply Qlt_not_le. }
  assert (forall e, e ∈ filter_zero_hours es <-> e ∈ es /\ (0 < hours e)%Q)
    as Hin.
  { intros e. unfold filter_zero_hours.
    rewrite list_elem_of_filter, Hpos. tauto. }
  split; [|split; [exact Hin|split]].
  - apply Forall_forall. intros e He. by apply Hin in He as [_ ?].
  - unfold filter_zero_hours. rewrite list_filter_filter.
    apply list_filter_iff. tauto.
  - rewrite !filter_non_projects_spec. cbn [fst]. unfold filter_zero_hours.
    rewrite !list_filter_filter. apply list_filter_iff. tauto.
Qed.

(** *** The code validator *)

Definition task_ok (e : entry) : Prop :=
  task e = "" \/ task e ∈ BILLABLE_TASK_CODES.

Definition phase_ok (e : entry) : Prop :=
  phase e = "" \/ phase e ∈ BILLABLE_PHASE_CODES.

Lemma nonempty_false s : nonempty s = false <-> s = "".
Proof.
  unfold nonempty. rewrite negb_false_iff. apply String.eqb_eq.
Qed.

Lemma code_errors_nil e : code_errors e = [] <-> task_ok e /\ phase_ok e.
Proof.
  unfold code_errors, task_ok, phase_ok.
  destruct (nonempty (task e)) eqn:Et, (nonempty (phase e)) eqn:Ep;
    simpl;
    try (apply nonempty_false in Et); try (apply nonempty_false in Ep);
    repeat case_bool_decide; simpl.
  all: split; [intros Hnil; try discriminate Hnil; split; by auto|].
  all: intros [[Ht|Ht] [Hp|Hp]]; try done.
  all: try (rewrite Ht in Et; discriminate Et).
  all: try (rewrite Hp in Ep; discriminate Ep).
Qed.

(** [validate_codes] reports nothing exactly when every entry's task
    code is empty or billable and its phase code is empty or billable:
    an empty code is accepted.  It keeps no state between entries - the
    messages of a list are those of its parts, one after the other - so
    that, unlike the identifier validator, it repeats a message for
    every entry that repeats a bad code; and an entry contributes at
    most two messages. *)
Theorem validate_codes_per_entry (es1 es2 : list entry) :
  (validate_codes es1 = [] <->
   Forall (fun e => task_ok e /\ phase_ok e) es1)
  /\ validate_codes (es1 ++ es2) = validate_codes es1 ++ validate_codes es2
  /\ (length (validate_codes es1) <= 2 * length es1)%nat.
Proof.
  rewrite !validate_codes_spec. split; [|split].
  - induction es1 as [|e es IH]; simpl.
    + split; [constructor|done].
    + rewrite Forall_cons, <- IH, <- code_errors_nil.
      split.
      * intros Hnil. by apply app_eq_nil in Hnil.
      * intros [-> ->]. done.
  - by rewrite map_app, concat_app.
  - induction es1 as [|e es IH]; simpl; [lia|].
    rewrite List.length_app.
    assert (length (code_errors e) <= 2)%nat; [|lia].
    unfold code_errors.
    destruct (nonempty (task e) && _), (nonempty (phase e) && _);
      simpl; lia.
Qed.

End Filters.



(** ** The two non-project tests

    [src/core/validation.py] classifies an identifier by the name before
    its first colon; the invoice filter matches the lowered identifier
    against [name + ":"]. *)

Module CoreValidation.

(** [get_project_name]: [split(":")[0]] is the text before the first
    colon. *)
Definition get_project_name (project_id : string) : string :=
  if contains_char ":" project_id
  then lower (strip (fst (split_colon project_id)))
  else lower (strip project_id).

Definition is_non_project (project_id : string) : bool :=
  bool_decide (get_project_name project_id ∈ NON_PROJECT_NAMES).

Definition is_office_project (project_id : string) : bool :=
  String.eqb (get_project_name project_id) "office".

Lemma all_ascii (P : ascii -> Prop) :
  (forall b0 b1 b2 b3 b4 b5 b6 b7, P (Ascii b0 b1 b2 b3 b4 b5 b6 b7)) ->
  forall c, P c.
Proof. intros HP []. apply HP. Qed.

Lemma isspace_lower_char c : isspace (lower_char c) = isspace c.
Proof.
  revert c. apply all_ascii.
  intros [] [] [] [] [] [] [] []; reflexivity.
Qed.

Lemma colon_lower_char c : Ascii.eqb ":" (lower_char c) = Ascii.eqb ":" c.
Proof.
  revert c. apply all_ascii.
  intros [] [] [] [] [] [] [] []; reflexivity.
Qed.

Lemma lower_cons c s : lower (String c s) = String (lower_char c) (lower s).
Proof. reflexivity. Qed.

Lemma lstrip_cons c s :
  lstrip (String c s) = if isspace c then lstrip s else String c s.
Proof. reflexivity. Qed.

Lemma rstrip_cons c s :
  rstrip (String c s)
  = match rstrip s with
    | EmptyString => if isspace c then EmptyString else String c EmptyString
    | r => String c r
    end.
Proof. reflexivity. Qed.

Lemma startswith_cons a p b s :
  startswith (String b s) (String a p) = Ascii.eqb a b && startswith s p.
Proof. reflexivity. Qed.

Lemma lower_lstrip s : lower (lstrip s) = lstrip (lower s).
Proof.
  induction s as [|c s IH]; [done|].
  rewrite lower_cons, !lstrip_cons, isspace_lower_char.
  by destruct (isspace c).
Qed.

Lemma lower_rstrip s : lower (rstrip s) = rstrip (lower s).
Proof.
  induction s as [|c s IH]; [done|].
  rewrite lower_cons, !rstrip_cons, <- IH, isspace_lower_char.
  destruct (rstrip s) as [|d r]; [by destruct (isspace c)|done].
Qed.

Lemma lower_strip s : lower (strip s) = strip (lower s).
Proof. unfold strip. by rewrite lower_rstrip, lower_lstrip. Qed.

Lemma contains_colon_lower s :
  contains_char ":" (lower s) = contains_char ":" s.
Proof.
  induction s as [|c s IH]; [done|].
  rewrite lower_cons, !Identifiers.contains_char_cons, colon_lower_char.
  by rewrite IH.
Qed.

(** A lowered identifier that starts with a colon-free name and a
    colon has that name, up to case, before its first colon. *)
Lemma startswith_lower_name name s :
  contains_char ":" name = false ->
  startswith (lower s) (name +:+ ":") = true ->
  contains_char ":" s = true /\ lower (fst (split_colon s)) = name.
Proof.
  revert s; induction name as [|a name IH]; intros s Hname Hs.
  - rewrite append_nil in Hs. destruct s as [|c s]; [done|].
    rewrite lower_cons, startswith_cons, colon_lower_char in Hs.
    apply andb_true_iff in Hs as [Hc _].
    rewrite Identifiers.contains_char_cons, Identifiers.split_colon_cons.
    rewrite (Ascii.eqb_sym c), Hc. done.
  - rewrite append_cons in Hs. destruct s as [|c s]; [done|].
    rewrite lower_cons, startswith_cons in Hs.
    apply andb_true_iff in Hs as [Hc Hs].
    apply Ascii.eqb_eq in Hc.
    rewrite Identifiers.contains_char_cons in Hname.
    destruct (Ascii.eqb ":" a) eqn:Ea; [done|].
    destruct (IH s Hname Hs) as [Hin Hlow].
    rewrite Identifiers.contains_char_cons, Identifiers.split_colon_cons.
    rewrite (Ascii.eqb_sym c), <- colon_lower_char, <- Hc, Ea.
    split; [done|].
    destruct (split_colon s) as [x y]. simpl in *. by rewrite Hlow, Hc.
Qed.

Lemma elem_of_NON_PROJECT_NAMES name :
  name ∈ NON_PROJECT_NAMES ->
  contains_char ":" name = false /\ strip name = name.
Proof.
  unfold NON_PROJECT_NAMES. rewrite elem_of_list_to_set.
  rewrite !elem_of_cons, elem_of_nil.
  intros [->|[->|[->|[->|[->|[]]]]]]; split; reflexivity.
Qed.

End CoreValidation.

Module NonProjects.
(** Whatever the invoice filter excludes as a non-project, the event
    validation of [src/core/validation.py] calls a non-project too.
    The converse fails: the event validation strips the name before
    the colon and the filter does not, so an identifier with a blank
    before its colon is a non-project to the one and is billed by the
    other. *)
Theorem filter_excludes_only_non_projects (e : entry) :
  (is_non_project e = true ->
   CoreValidation.is_non_project (project_id e) = true)
  /\ (forall number,
        project_id e = "Office :" +:+ number ->
        CoreValidation.is_non_project (project_id e) = true
        /\ is_non_project e = false).
Proof.
  split.
  - unfold is_non_project. intros He.
    apply existsb_exists in He as (name & Hname & Hmatch).
    apply list_elem_of_In, elem_of_elements in Hname.
    destruct (CoreValidation.elem_of_NON_PROJECT_NAMES name Hname) as [Hcolon Hstrip].
    unfold CoreValidation.is_non_project. apply bool_decide_eq_true.
    replace (CoreValidation.get_project_name (project_id e)) with name; [done|].
    unfold CoreValidation.get_project_name.
    apply orb_true_iff in Hmatch as [Hstart|Heq].
    + destruct (CoreValidation.startswith_lower_name _ _ Hcolon Hstart) as [-> Hlow].
      by rewrite CoreValidation.lower_strip, Hlow.
    + apply String.eqb_eq in Heq.
      rewrite <- CoreValidation.contains_colon_lower, Heq, Hcolon.
      by rewrite CoreValidation.lower_strip, Heq.
  - intros number Hpid.
    unfold CoreValidation.is_non_project, CoreValidation.get_project_name,
      is_non_project.
    rewrite Hpid. split; vm_compute; reflexivity.
Qed.

End NonProjects.



(** ** The hour matrix, cell by cell *)

Module Matrix.
Import Aggregation.

(** The entries of a project under one task and phase code, both
    non-empty. *)
Definition cell_entries (es : list entry) (pid t p : string) : list entry :=
  filter (fun e => project_id e = pid /\ task e = t /\ phase e = p
                   /\ Is_true (coded e)) es.

(** A cell of the matrix, read as the code's [defaultdict] reads it. *)
Definition matrix_cell (m : gmap string (gmap (string * string) Q))
    (pid t p : string) : Q :=
  default 0%Q (default ∅ (m !! pid) !! (t, p)).

Lemma aggregate_step_cell acc e pid t p :
  matrix_cell (aggregate_step acc e) pid t p
  = if decide (project_id e = pid /\ task e = t /\ phase e = p
               /\ Is_true (coded e))
    then (matrix_cell acc pid t p + hours e)%Q
    else matrix_cell acc pid t p.
Proof.
  unfold matrix_cell, aggregate_step, coded.
  destruct (nonempty (task e) && nonempty (phase e)) eqn:Hc; simpl.
  - destruct (decide (project_id e = pid)) as [<-|Hne].
    + rewrite lookup_insert_eq. simpl.
      destruct (decide ((task e, phase e) = (t, p))) as [[= <- <-]|Hk].
      * rewrite lookup_insert_eq. simpl. by rewrite decide_True.
      * rewrite lookup_insert_ne by done.
        rewrite decide_False; [done|]. intros (_ & <- & <- & _). done.
    + rewrite lookup_insert_ne by done. rewrite decide_False; [done|tauto].
  - rewrite decide_False; [done|tauto].
Qed.

Lemma aggregate_foldl_cell es acc pid t p :
  (matrix_cell (foldl aggregate_step acc es) pid t p
   == matrix_cell acc pid t p
      + Qsum (map hours (cell_entries es pid t p)))%Q.
Proof.
  unfold cell_entries.
  revert acc; induction es as [|e es IH]; intros acc; simpl.
  - unfold Qsum. simpl. ring.
  - rewrite IH, aggregate_step_cell, filter_cons.
    destruct (decide _); simpl; [rewrite Qsum_cons|]; ring.
Qed.

(** The keys of the matrix. *)
Definition has_cell (m : gmap string (gmap (string * string) Q))
    (pid t p : string) : Prop :=
  exists slice, m !! pid = Some slice /\ is_Some (slice !! (t, p)).

Lemma aggregate_step_has_cell acc e pid t p :
  has_cell (aggregate_step acc e) pid t p <->
  has_cell acc pid t p
  \/ (project_id e = pid /\ task e = t /\ phase e = p
      /\ Is_true (coded e)).
Proof.
  unfold has_cell, aggregate_step, coded.
  destruct (nonempty (task e) && nonempty (phase e)) eqn:Hc; simpl;
    [|by intuition].
  destruct (decide (project_id e = pid)) as [<-|Hne].
  - rewrite lookup_insert_eq. split.
    + intros (slice & [= <-] & Hk).
      destruct (decide ((task e, phase e) = (t, p))) as [[= <- <-]|Hne].
      * right. done.
      * left. rewrite lookup_insert_ne in Hk by done.
        destruct (acc !! project_id e) as [slice|]; simpl in Hk.
        -- by exists slice.
        -- rewrite lookup_empty in Hk. by destruct Hk.
    + intros [(slice & Hs & Hk)|(_ & <- & <- & _)].
      * eexists. split; [done|]. rewrite Hs. simpl.
        destruct (decide ((task e, phase e) = (t, p))) as [[= <- <-]|Hne].
        -- by rewrite lookup_insert_eq.
        -- by rewrite lookup_insert_ne.
      * eexists. split; [done|]. by rewrite lookup_insert_eq.
  - rewrite lookup_insert_ne by done. intuition.
Qed.

Lemma aggregate_foldl_has_cell es acc pid t p :
  has_cell (foldl aggregate_step acc es) pid t p <->
  has_cell acc pid t p \/ cell_entries es pid t p <> [].
Proof.
  unfold cell_entries.
  revert acc; induction es as [|e es IH]; intros acc; simpl.
  - intuition.
  - rewrite IH, aggregate_step_has_cell, filter_cons.
    destruct (decide _) as [He|He]; [|tauto].
    split; [intros _; by right|tauto].
Qed.

Lemma aggregate_step_slices acc e pid :
  is_Some (aggregate_step acc e !! pid) <->
  is_Some (acc !! pid) \/ (project_id e = pid /\ Is_true (coded e)).
Proof.
  unfold aggregate_step, coded.
  destruct (nonempty (task e) && nonempty (phase e)) eqn:Hc; simpl;
    [|by intuition].
  destruct (decide (project_id e = pid)) as [<-|Hne].
  - rewrite lookup_insert_eq. split; [by right|by eauto].
  - rewrite lookup_insert_ne by done. intuition.
Qed.

Lemma aggregate_foldl_slices es acc pid :
  is_Some (foldl aggregate_step acc es !! pid) <->
  is_Some (acc !! pid)
  \/ exists e, e ∈ es /\ project_id e = pid /\ Is_true (coded e).
Proof.
  revert acc; induction es as [|e es IH]; intros acc; simpl.
  - split; [by left|]. intros [?|(e & He & _)]; [done|].
    by apply elem_of_nil in He.
  - rewrite IH, aggregate_step_slices. split.
    + intros [[?|[??]]|(e' & ? & ? & ?)].
      * by left.
      * right. exists e. split; [left|done].
      * right. exists e'. split; [by right|done].
    + intros [?|(e' & [->|?]%elem_of_cons & ? & ?)].
      * by left; left.
      * by left; right.
      * right. by exists e'.
Qed.

Lemma has_cell_entries es pid t p :
  has_cell (aggregate_hours es) pid t p <->
  exists e, e ∈ es /\ project_id e = pid /\ task e = t /\ phase e = p
            /\ t <> "" /\ p <> "".
Proof.
  change (aggregate_hours es) with (foldl aggregate_step ∅ es).
  assert (~ has_cell ∅ pid t p) as Hempty.
  { intros (slice & Hs & _). by rewrite lookup_empty in Hs. }
  rewrite aggregate_foldl_has_cell. split.
  - intros [?|Hne]; [done|].
    destruct (cell_entries es pid t p) as [|e l] eqn:E; [done|].
    assert (e ∈ cell_entries es pid t p) as He by (rewrite E; left).
    apply list_elem_of_filter in He as [(? & <- & <- & Hc) He].
    exists e. unfold coded, nonempty in Hc.
    apply andb_True in Hc as [Ht Hp].
    apply negb_True in Ht, Hp. rewrite Is_true_true in Ht, Hp.
    rewrite String.eqb_eq in Ht, Hp. done.
  - intros (e & He & ? & ? & ? & Ht & Hp). right.
    assert (e ∈ cell_entries es pid t p) as Hin.
    { apply list_elem_of_filter. split; [|done].
      split; [done|]. split; [done|]. split; [done|].
      unfold coded, nonempty. subst t p.
      apply andb_True. split; apply negb_True; rewrite Is_true_true.
      all: by rewrite String.eqb_eq. }
    intros Hnil. rewrite Hnil in Hin. by apply elem_of_nil in Hin.
Qed.

Lemma matrix_cell_sum es pid t p :
  (matrix_cell (aggregate_hours es) pid t p
   == Qsum (map hours (cell_entries es pid t p)))%Q.
Proof.
  change (aggregate_hours es) with (foldl aggregate_step ∅ es).
  rewrite aggregate_foldl_cell. unfold matrix_cell at 1.
  rewrite lookup_empty. simpl. rewrite lookup_empty. simpl. ring.
Qed.

Lemma matrix_cell_positive es pid t p :
  Forall (fun e => (0 < hours e)%Q) es ->
  has_cell (aggregate_hours es) pid t p ->
  (0 < matrix_cell (aggregate_hours es) pid t p)%Q.
Proof.
  intros Hpos Hcell. rewrite matrix_cell_sum.
  change (aggregate_hours es) with (foldl aggregate_step ∅ es) in Hcell.
  apply aggregate_foldl_has_cell in Hcell as [Hcell|Hne].
  { destruct Hcell as (slice & Hs & _). by rewrite lookup_empty in Hs. }
  assert (Forall (fun e => (0 < hours e)%Q) (cell_entries es pid t p))
    as Hall.
  { apply Forall_forall. intros e [_ He]%list_elem_of_filter.
    rewrite Forall_forall in Hpos. by apply Hpos. }
  destruct (cell_entries es pid t p) as [|e l]; [done|].
  clear Hne.
  apply Forall_cons in Hall as [He Hl]. cbn [map]. rewrite Qsum_cons.
  assert (0 <= Qsum (map hours l))%Q; [|lra].
  clear He. induction Hl as [|x l Hx _ IH]; [done|].
  simpl. rewrite Qsum_cons. lra.
Qed.

(** [aggregate_hours], cell by cell.  The cell of a project under a
    task and a phase code holds the sum of the hours of the project's
    entries with these codes, both non-empty; the matrix has the cell
    exactly when there is such an entry; and when every entry has
    positive hours, as after the zero-hour filter, every cell is
    positive, so that no cell and no phase total of the pipeline's
    matrix is zero by cancellation. *)
Theorem aggregate_hours_cells (es : list entry) (pid t p : string) :
  (matrix_cell (aggregate_hours es) pid t p
   == Qsum (map hours (cell_entries es pid t p)))%Q
  /\ (has_cell (aggregate_hours es) pid t p <->
      exists e, e ∈ es /\ project_id e = pid /\ task e = t /\ phase e = p
                /\ t <> "" /\ p <> "")
  /\ (Forall (fun e => (0 < hours e)%Q) es ->
      has_cell (aggregate_hours es) pid t p ->
      (0 < matrix_cell (aggregate_hours es) pid t p)%Q).
Proof.
  split; [apply matrix_cell_sum|].
  split; [apply has_cell_entries|apply matrix_cell_positive].
Qed.

(** *** Projects *)

Lemma group_foldl_keys es acc pid :
  is_Some (foldl group_step acc es !! pid) <->
  is_Some (acc !! pid) \/ exists e, e ∈ es /\ project_id e = pid.
Proof.
  revert acc; induction es as [|e es IH]; intros acc; simpl.
  - split; [by left|]. intros [?|(e & He & _)]; [done|].
    by apply elem_of_nil in He.
  - rewrite IH. unfold group_step.
    destruct (decide (project_id e = pid)) as [<-|Hne].
    + rewrite lookup_insert_eq. split; [|by eauto].
      intros _. right. exists e. split; [left|done].
    + rewrite lookup_insert_ne by done. split.
      * intros [?|(e' & ? & ?)]; [by left|].
        right. exists e'. split; [by right|done].
      * intros [?|(e' & [->|?]%elem_of_cons & ?)]; [by left|done|].
        right. by exists e'.
Qed.

(** The projects that get sheets are the keys of the matrix: the
    identifiers with at least one entry that carries both codes.  The
    detail lists are keyed by every identifier with an entry, so each
    project of the matrix has a detail list, and a non-empty one: the
    assembler's lookup of a project's detail entries cannot miss.  A
    project whose entries all lack a code has a detail list but no
    slice, hence no sheet. *)
Theorem invoiced_projects_have_detail (es : list entry)
    (grouped : gmap string (list entry)) (pid : string) :
  group_by_project es = Ok grouped ->
  (is_Some (aggregate_hours es !! pid) <->
   exists e, e ∈ es /\ project_id e = pid /\ Is_true (coded e))
  /\ (is_Some (grouped !! pid) <-> exists e, e ∈ es /\ project_id e = pid)
  /\ (is_Some (aggregate_hours es !! pid) ->
      exists l, grouped !! pid = Some l /\ l <> [])
  /\ (size (aggregate_hours es) <= size grouped)%nat.
Proof.
  intros Hg.
  assert (forall q, is_Some (aggregate_hours es !! q) <->
            exists e, e ∈ es /\ project_id e = q /\ Is_true (coded e))
    as Hagg.
  { intros q. change (aggregate_hours es) with (foldl aggregate_step ∅ es).
    rewrite aggregate_foldl_slices, lookup_empty.
    split; [intros [[? [=]]|?]; done|by right]. }
  assert (forall q, is_Some (grouped !! q) <->
            exists e, e ∈ es /\ project_id e = q) as Hgrp.
  { intros q. pose proof (sort_groups_lookup _ _ q Hg) as Hq.
    assert (is_Some (group_entries es !! q) <->
            exists e, e ∈ es /\ project_id e = q) as <-.
    { change (group_entries es) with (foldl group_step ∅ es).
      rewrite group_foldl_keys, lookup_empty.
      split; [intros [[? [=]]|?]; done|by right]. }
    destruct (group_entries es !! q) as [l|].
    - destruct Hq as (s & _ & ->). split; eauto.
    - rewrite Hq. done. }
  split; [apply Hagg|]. split; [apply Hgrp|]. split.
  - intros (e & He & Hpid & _)%Hagg.
    destruct (proj2 (Hgrp pid)) as [l Hl]; [by eauto|].
    exists l. split; [done|]. intros ->.
    pose proof (group_by_project_perm es grouped pid Hg) as Hperm.
    unfold detail_rows in Hperm. rewrite Hl in Hperm. simpl in Hperm.
    apply Permutation_nil in Hperm.
    assert (e ∈ filter (fun e => project_id e = pid) es) as Hin
      by by apply list_elem_of_filter.
    rewrite Hperm in Hin. by apply elem_of_nil in Hin.
  - rewrite <- !size_dom. apply subseteq_size.
    intros q. rewrite !elem_of_dom, Hagg, Hgrp.
    intros (e & ? & ? & _). eauto.
Qed.

(** *** The totals of a run *)







Lemma Qsum_nonnegative (l : list Q) :
  Forall (fun x => (0 <= x)%Q) l -> (0 <= Qsum l)%Q.
Proof.
  induction 1 as [|x l Hx _ IH]; [done|]. rewrite Qsum_cons. lra.
Qed.


Section Pipeline.
Context `{PyRuntime} {Workbook : Type}.
Variable create_invoice_workbook :
  gmap string (gmap (string * string) Q) ->
  gmap string (list entry) -> option pydate -> result Workbook.

End Pipeline.

End Matrix.



(** ** The order of the detail rows *)

Module DetailOrder.
Import Aggregation.

Global Instance pydate_eq_dec : EqDecision pydate.
Proof. solve_decision. Defined.

(** The sort key [e["date"] or date.min] of an entry whose date is a
    date or missing. *)
Definition entry_date (e : entry) : pydate :=
  match date e with
  | DateVal d => d
  | _ => date_min
  end.

(** [a] is not later than [b]. *)
Definition date_le (a b : pydate) : Prop := date_ltb b a = false.

Lemma date_ltb_spec a b :
  date_ltb a b = true <->
  (year a < year b
   \/ (year a = year b
       /\ (month a < month b \/ (month a = month b /\ day a < day b))))%Z.
Proof.
  unfold date_ltb.
  rewrite !orb_true_iff, !andb_true_iff, !orb_true_iff, !andb_true_iff.
  rewrite !Z.ltb_lt, !Z.eqb_eq. reflexivity.
Qed.

Lemma date_le_spec a b :
  date_le a b <->
  (year a < year b
   \/ (year a = year b
       /\ (month a < month b \/ (month a = month b /\ day a <= day b))))%Z.
Proof.
  unfold date_le. rewrite <- not_true_iff_false, date_ltb_spec. lia.
Qed.

Lemma date_le_trans a b c : date_le a b -> date_le b c -> date_le a c.
Proof. rewrite !date_le_spec. lia. Qed.

Lemma date_ltb_le a b : date_ltb a b = true -> date_le a b.
Proof. rewrite date_ltb_spec, date_le_spec. lia. Qed.

Lemma date_ltb_ne a b : date_ltb a b = true -> a <> b.
Proof. rewrite date_ltb_spec. intros Hlt ->. lia. Qed.

Lemma date_key_well_dated e :
  well_dated e -> date_key e = KeyDate (entry_date e).
Proof. unfold well_dated, date_key, entry_date. by destruct (date e). Qed.

Definition by_date (a b : entry) : Prop :=
  date_le (entry_date a) (entry_date b).

Definition on_date (d : pydate) (e : entry) : Prop := entry_date e = d.

Global Instance on_date_dec d e : Decision (on_date d e).
Proof. unfold on_date. apply _. Defined.

Lemma insert_by_date_sorted x l r :
  well_dated x -> Forall well_dated l ->
  StronglySorted by_date l ->
  insert_by_date x l = Ok r ->
  StronglySorted by_date r
  /\ forall d, filter (on_date d) r = filter (on_date d) (x :: l).
Proof.
  intros Hx Hl Hsorted. revert r.
  induction Hsorted as [|y l Hs IH Hy]; intros r; simpl.
  - intros [= <-]. split; [|done]. repeat constructor.
  - apply Forall_cons in Hl as [Hwy Hl].
    rewrite (date_key_well_dated x Hx), (date_key_well_dated y Hwy).
    simpl. destruct (date_ltb (entry_date y) (entry_date x)) eqn:Hlt.
    + destruct (insert_by_date x l) as [r'|] eqn:Hr; simpl; [|done].
      intros [= <-]. destruct (IH Hl r' eq_refl) as [Hs' Hf].
      split.
      * constructor; [done|].
        apply insert_by_date_perm in Hr. rewrite Hr.
        constructor; [by apply date_ltb_le|done].
      * intros d. rewrite filter_cons, Hf, !filter_cons.
        unfold on_date at 1 3 4.
        apply date_ltb_ne in Hlt.
        repeat case_decide; try done. congruence.
    + intros [= <-]. split; [|done].
      constructor; [by constructor|].
      constructor; [done|].
      eapply Forall_impl; [exact Hy|].
      intros z Hz. unfold by_date in *. by eapply date_le_trans.
Qed.

Lemma sort_by_date_sorted l r :
  Forall well_dated l ->
  sort_by_date l = Ok r ->
  StronglySorted by_date r
  /\ forall d, filter (on_date d) r = filter (on_date d) l.
Proof.
  intros Hl. revert r.
  induction Hl as [|x l Hx Hl IH]; intros r; simpl.
  - intros [= <-]. split; [constructor|done].
  - destruct (sort_by_date l) as [s|] eqn:Hs; simpl; [|done].
    destruct (IH s eq_refl) as [Hsorted Hf]. intros Hr.
    apply insert_by_date_sorted in Hr as [Hsorted' Hf']; [|done| |done].
    + split; [done|]. intros d. by rewrite Hf', !filter_cons, Hf.
    + apply sort_by_date_perm in Hs. by rewrite Hs.
Qed.

(** The detail rows of a project are in date order, rows without a
    date first (they sort as the least date), and the sort is stable:
    the rows of one date keep the order they had in the input.  This
    holds for entries whose date is a date or missing, as the reader
    makes them from date-time, text and empty cells; for such entries
    the grouping cannot fail. *)
Theorem group_by_project_sorted (es : list entry) (pid : string) :
  Forall well_dated es ->
  exists grouped,
    group_by_project es = Ok grouped
    /\ StronglySorted by_date (detail_rows grouped pid)
    /\ forall d,
         filter (on_date d) (detail_rows grouped pid)
         = filter (on_date d) (filter (fun e => project_id e = pid) es).
Proof.
  intros Hes.
  destruct (group_by_project_total es) as [grouped Hg].
  { eapply Forall_impl; [exact Hes|]. apply well_dated_dated. }
  exists grouped. split; [done|].
  pose proof (sort_groups_lookup _ _ pid Hg) as Hpid.
  pose proof (group_entries_lookup es pid) as Hl.
  unfold detail_rows.
  destruct (group_entries es !! pid) as [l|]; simpl in Hl.
  - destruct Hpid as (s & Hs & ->). simpl. rewrite <- Hl.
    apply sort_by_date_sorted; [|done].
    rewrite Hl. apply Forall_forall.
    intros e [_ He]%list_elem_of_filter.
    rewrite Forall_forall in Hes. by apply Hes.
  - rewrite Hpid. simpl. rewrite <- Hl. split; [constructor|done].
Qed.

End DetailOrder.



(** ** Phase totals and the pruning of a project's sheet *)

Module PhaseTotals.
Import Aggregation Pruning Populate Matrix.



Lemma phase_sum_absent m p :
  (forall t, m !! (t, p) = None) -> (phase_sum m p == 0)%Q.
Proof.
  induction m as [|[t q] v m Hk IH] using map_ind; intros Hnone.
  - unfold phase_sum. by rewrite map_fold_empty.
  - rewrite phase_sum_insert by done.
    destruct (String.eqb_spec q p) as [->|Hne].
    + specialize (Hnone t). by rewrite lookup_insert_eq in Hnone.
    + rewrite IH; [ring|]. intros t'. specialize (Hnone t').
      rewrite lookup_insert_ne in Hnone by congruence. done.
Qed.

(** The entries of a project under a phase, or under a task and a
    phase. *)
Definition phase_used (es : list entry) (pid phase_code : string) : Prop :=
  exists e, e ∈ es /\ project_id e = pid /\ phase e = phase_code
            /\ task e <> "".

Definition task_used (es : list entry) (pid task_code phase_code : string)
    : Prop :=
  exists e, e ∈ es /\ project_id e = pid /\ task e = task_code
            /\ phase e = phase_code.

Section Slice.
Variable es : list entry.
Variable pid : string.
Hypothesis Hpos : Forall (fun e => (0 < hours e)%Q) es.

Lemma slice_lookup t p :
  matrix_slice es pid !! (t, p) = None
  \/ exists v, matrix_slice es pid !! (t, p) = Some v /\ (0 < v)%Q
               /\ has_cell (aggregate_hours es) pid t p.
Proof.
  destruct (matrix_slice es pid !! (t, p)) as [v|] eqn:Hv; [|by left].
  right. exists v. split; [done|].
  assert (has_cell (aggregate_hours es) pid t p) as Hcell.
  { unfold matrix_slice in Hv.
    destruct (aggregate_hours es !! pid) as [slice|] eqn:Hs;
      simpl in Hv; [|by rewrite lookup_empty in Hv].
    exists slice. split; [done|]. by rewrite Hv. }
  split; [|done].
  pose proof (matrix_cell_positive es pid t p Hpos Hcell) as Hlt.
  unfold matrix_cell in Hlt. fold (matrix_slice es pid) in Hlt.
  by rewrite Hv in Hlt.
Qed.

Lemma slice_nonnegative : nonnegative (matrix_slice es pid).
Proof.
  intros [t p] v Hv.
  destruct (slice_lookup t p) as [Hn|(v' & Hv' & Hlt & _)]; [congruence|].
  rewrite Hv in Hv'. injection Hv' as <-. lra.
Qed.

Lemma slice_has_cell t p :
  is_Some (matrix_slice es pid !! (t, p)) <->
  has_cell (aggregate_hours es) pid t p.
Proof.
  split.
  - intros [v Hv].
    destruct (slice_lookup t p) as [Hn|(_ & _ & _ & Hc)]; [congruence|done].
  - intros (slice & Hs & Hc). unfold matrix_slice. by rewrite Hs.
Qed.

Lemma get_hours_zero t p :
  t <> "" -> p <> "" ->
  Qeq_bool (get_hours (matrix_slice es pid) (t, p)) 0 = true <->
  ~ task_used es pid t p.
Proof.
  intros Ht Hp. unfold get_hours, task_used.
  destruct (slice_lookup t p) as [Hn|(v & Hv & Hlt & Hc)].
  - rewrite Hn. simpl. split; [|done].
    intros _ (e & He & Hpid & Hte & Hpe).
    assert (is_Some (matrix_slice es pid !! (t, p))) as Hs.
    { apply slice_has_cell, has_cell_entries. by exists e. }
    rewrite Hn in Hs. by destruct Hs.
  - rewrite Hv. simpl. split.
    + intros Hz%Qeq_bool_iff. lra.
    + intros Hno. destruct Hno.
      apply has_cell_entries in Hc as (e & ? & ? & ? & ? & _).
      by exists e.
Qed.

Lemma phase_total_zero p :
  p <> "" ->
  Qeq_bool (phase_total (matrix_slice es pid) p) 0 = true <->
  ~ phase_used es pid p.
Proof.
  intros Hp. rewrite Qeq_bool_iff, phase_total_sum. unfold phase_used.
  split.
  - intros Hz (e & He & Hpid & Hpe & Hte).
    destruct (slice_lookup (task e) p) as [Hn|(v & Hv & Hlt & _)].
    + assert (is_Some (matrix_slice es pid !! (task e, p))) as Hs.
      { apply slice_has_cell, has_cell_entries. by exists e. }
      rewrite Hn in Hs. by destruct Hs.
    + rewrite (phase_sum_delete _ _ _ _ Hv) in Hz.
      pose proof (phase_sum_nonnegative
                    (delete (task e, p) (matrix_slice es pid)) p
                    (nonnegative_delete _ _ slice_nonnegative)).
      lra.
  - intros Hno. apply phase_sum_absent. intros t.
    destruct (slice_lookup t p) as [Hn|(v & Hv & _ & Hc)]; [done|].
    destruct Hno.
    apply has_cell_entries in Hc as (e & ? & ? & <- & ? & ? & _).
    by exists e.
Qed.
End Slice.

Lemma phase_code_nonempty code info :
  (code, info) ∈ phases TEMPLATE_STRUCTURE -> code <> "".
Proof. intros Hin. each_phase Hin; discriminate. Qed.

Lemma standard_task_nonempty i task_code :
  TASK_ORDER_STANDARD !! i = Some task_code -> task_code <> "".
Proof.
  destruct i as [|[|[|[|i]]]]; simpl; intros [= <-]; discriminate.
Qed.

(** Pruning in the pipeline, in terms of the entries.  For the slice of
    a project aggregated from entries with positive hours - as after
    the zero-hour filter - a phase section (header, task rows and
    subtotal) is deleted exactly when the project has no entry with
    that phase code and a task code, and within a kept phase other than
    "M" the row of a standard task is deleted exactly when the project
    has no entry with that task and phase.  No total is zero by
    cancellation, so no entry's phase is ever pruned. *)
Theorem pruning_follows_entries (es : list entry) (pid : string) :
  Forall (fun e => (0 < hours e)%Q) es ->
  exists rows,
    calculate_rows_to_delete (matrix_slice es pid) = Ok rows
    /\ forall code info,
         (code, info) ∈ phases TEMPLATE_STRUCTURE ->
         (header info ∈ rows <-> ~ phase_used es pid code)
         /\ (subtotal info ∈ rows <-> ~ phase_used es pid code)
         /\ (~ phase_used es pid code ->
             forall r, r ∈ tasks info -> r ∈ rows)
         /\ (code <> "M" ->
             forall i task_code r,
               TASK_ORDER_STANDARD !! i = Some task_code ->
               tasks info !! i = Some r ->
               r ∈ rows <-> ~ task_used es pid task_code code)
         /\ (code = "M" ->
             forall r, r ∈ tasks info ->
                       r ∈ rows <-> ~ phase_used es pid code).
Proof.
  intros Hpos. exists (descending (marked_rows (matrix_slice es pid))).
  split; [apply calculate_rows_to_delete_marked|].
  intros code info Hp.
  pose proof (phase_code_nonempty code info Hp) as Hcode.
  pose proof (phase_total_zero es pid Hpos code Hcode) as Hzero.
  assert (forall r, r ∈ section_of info ->
            r ∈ descending (marked_rows (matrix_slice es pid)) <->
            r ∈ section_rows (matrix_slice es pid) code info) as Hiff.
  { intros r Hr. apply elem_of_descending_section; [done|].
    by eapply section_of_in_section. }
  assert (header info ∈ section_of info) as Hh by left.
  assert (subtotal info ∈ section_of info) as Hs.
  { unfold section_of. rewrite elem_of_cons, elem_of_app,
      list_elem_of_singleton. tauto. }
  assert (forall r, r ∈ tasks info -> r ∈ section_of info) as Ht.
  { intros r Hr. unfold section_of. rewrite elem_of_cons, elem_of_app.
    tauto. }
  destruct (Qeq_bool (phase_total (matrix_slice es pid) code) 0) eqn:Hz.
  - pose proof (proj1 Hzero eq_refl) as Hunused.
    pose proof (section_rows_zero _ _ info Hz) as Hrows.
    split; [rewrite Hiff, Hrows by done; tauto|].
    split; [rewrite Hiff, Hrows by done; tauto|].
    split; [intros _ r Hr; rewrite Hiff, Hrows by auto; auto|].
    split.
    + intros _ i task_code r Hi Hr.
      assert (r ∈ tasks info) as Hin by by eapply list_elem_of_lookup_2.
      rewrite Hiff, Hrows by auto. split; [|auto].
      intros _ (e & He & ? & Hte & ?). apply Hunused. exists e.
      pose proof (standard_task_nonempty i task_code Hi). by subst.
    + intros _ r Hr. rewrite Hiff, Hrows by auto. split; auto.
  - assert (~ ~ phase_used es pid code) as Hused.
    { intros Hno. apply Hzero in Hno. congruence. }
    destruct (section_rows_nonzero _ code info Hp Hz)
      as (Hnh & Hns & Htask & Hm).
    split; [rewrite Hiff by done; tauto|].
    split; [rewrite Hiff by done; tauto|].
    split; [tauto|]. split.
    + intros Hne i task_code r Hi Hr.
      assert (r ∈ tasks info) as Hin by by eapply list_elem_of_lookup_2.
      rewrite Hiff by auto. rewrite (Htask Hne i task_code r Hi Hr).
      apply get_hours_zero; [done| |done].
      by eapply standard_task_nonempty.
    + intros HM r Hr. rewrite Hiff by auto. rewrite (Hm HM).
      split; [by intros ?%elem_of_nil|tauto].
Qed.

End PhaseTotals.



(** ** The cells of the two sheets *)

Module Sheets.
Import Aggregation Pruning Populate.

Lemma max_row_set_cell ws r c v :
  max_row (set_cell ws r c v) = Nat.max (max_row ws) r.
Proof. reflexivity. Qed.







(** *** The detail sheet *)

(** The six cells of a data row. *)
Definition detail_cells `{PyRuntime} (e : entry) (date_str : string)
    : list pyval :=
  [PStr date_str; PStr (employee e); PNum (hours e); PStr (phase e);
   PStr (task e); PStr (wid e)].

Definition row_cells (ws : worksheet) (r : nat) : list pyval :=
  map (cell ws r) (seq 1 6).

Lemma detail_row_layout `{PyRuntime} ws r e ws' :
  detail_row ws r e = Ok ws' ->
  (exists date_str,
     detail_date (date e) = Ok date_str
     /\ row_cells ws' r = detail_cells e date_str)
  /\ (forall r' c, r' <> r -> cell ws' r' c = cell ws r' c)
  /\ max_row ws' = Nat.max (max_row ws) r.
Proof.
  unfold detail_row.
  destruct (detail_date (date e)) as [date_str|]; simpl; [|done].
  intros [= <-]. split; [|split].
  - exists date_str. split; [done|]. unfold row_cells, detail_cells.
    cbn [map seq].
    repeat (f_equal;
            [rewrite ?cell_set_cell_ne by (intros [= ?]; lia);
             apply cell_set_cell_eq|]).
    f_equal. apply cell_set_cell_eq.
  - intros r' c Hne. by rewrite !cell_set_cell_ne by congruence.
  - rewrite !max_row_set_cell. lia.
Qed.

Lemma detail_rows_layout `{PyRuntime} l k ws ws' :
  (1 + k <= max_row ws)%nat ->
  foldR (fun ws '(row_offset, e) =>
           detail_row ws (1 + 1 + row_offset) e) ws (rows_from k l)
  = Ok ws' ->
  (forall i e,
     l !! i = Some e ->
     exists date_str,
       detail_date (date e) = Ok date_str
       /\ row_cells ws' (2 + k + i) = detail_cells e date_str)
  /\ (forall r c, (r < 2 + k)%nat -> cell ws' r c = cell ws r c)
  /\ max_row ws' = Nat.max (max_row ws) (1 + k + length l).
Proof.
  revert k ws; induction l as [|e l IH]; intros k ws Hk.
  - simpl. intros [= <-]. split; [done|]. split; [done|]. lia.
  - rewrite rows_from_cons. cbn [foldR].
    destruct (detail_row ws (1 + 1 + k) e) as [ws1|] eqn:Hrow; simpl;
      [|done].
    apply detail_row_layout in Hrow as (Hcells & Hother & Hmax).
    intros Hrest. apply IH in Hrest as (Hrows & Hlow & Hmax'); [|lia].
    split; [|split].
    + intros [|i] e' Hi; simpl in Hi.
      * injection Hi as <-. destruct Hcells as (date_str & Hd & Hc).
        exists date_str. split; [done|]. rewrite <- Hc.
        unfold row_cells. apply map_ext. intros c.
        rewrite Nat.add_0_r. apply Hlow. lia.
      * destruct (Hrows i e' Hi) as (date_str & Hd & Hc).
        exists date_str. split; [done|]. rewrite <- Hc. f_equal. lia.
    + intros r c Hr. rewrite Hlow by lia. apply Hother. lia.
    + rewrite Hmax', Hmax. simpl. lia.
Qed.

(** The layout of a detail sheet: the six column titles in row 1; the
    entries from row 2 on, one per row in the order given, as date
    text, employee, hours, phase, task and work item - the phase
    before the task; then the total row, with the label "Total" and
    the sum formula over the hours of rows 2 to [n + 1], which for no
    entries is the empty range [C2:C1].  The sheet has [n + 2] rows. *)
Theorem create_timesheet_sheet_layout `{PyRuntime} (l : list entry)
    (ws : worksheet) :
  create_timesheet_sheet l = Ok ws ->
  max_row ws = (length l + 2)%nat
  /\ row_cells ws 1 = map PStr ["Date"; "E"; "H"; "P"; "T"; "WID"]
  /\ (forall i e,
        l !! i = Some e ->
        exists date_str,
          detail_date (date e) = Ok date_str
          /\ row_cells ws (i + 2) = detail_cells e date_str)
  /\ cell ws (length l + 2) 1 = PStr "Total"
  /\ cell ws (length l + 2) 3
     = PStr ("=SUM(C2:C" +:+ pretty (length l + 1)%nat +:+ ")").
Proof.
  unfold create_timesheet_sheet. rewrite enumerate_rows_from.
  destruct (foldR _ _ _) as [ws1|] eqn:Hrows; simpl; [|done].
  intros [= <-].
  apply detail_rows_layout in Hrows as (Hcells & Hlow & Hmax);
    [|simpl; lia].
  replace (S (length l + 1)) with (length l + 2)%nat by lia.
  split; [|split; [|split; [|split]]].
  - rewrite !max_row_set_cell, Hmax. simpl. lia.
  - unfold row_cells. cbn [map seq].
    rewrite !cell_set_cell_ne by (intros [= ?]; lia).
    rewrite !Hlow by lia. reflexivity.
  - intros i e Hi. destruct (Hcells i e Hi) as (date_str & Hd & Hc).
    exists date_str. split; [done|]. rewrite <- Hc.
    pose proof (lookup_lt_Some _ _ _ Hi) as Hlt.
    unfold row_cells. apply map_ext. intros c.
    rewrite !cell_set_cell_ne by (intros [= ? _]; lia).
    f_equal. lia.
  - rewrite cell_set_cell_ne by (intros [= ?]; lia).
    apply cell_set_cell_eq.
  - rewrite cell_set_cell_eq.
    replace (S (length l)) with (length l + 1)%nat by lia.
    reflexivity.
Qed.

End Sheets.



(** ** What the second scan finds, and what the rebuild leaves alone *)

Module Labels.
Import Aggregation Rebuild.

Section WithRuntime.
Context `{PyRuntime}.

(** The rows the second scan records carry the labels it looks for. *)
Definition scan_labelled (ws : worksheet) (st : totals_scan) : Prop :=
  (forall r, scan_overall_subtotal_row st = Some r ->
             truthy (cell ws r 2) = true /\ description ws r = "Subtotal")
  /\ (forall r, scan_reimbursable_subtotal_row st = Some r ->
                truthy (cell ws r 2) = true
                /\ description ws r = "Subtotal")
  /\ (forall r, r ∈ scan_reimbursable_cost_rows st ->
                truthy (cell ws r 2) = true
                /\ description ws r ∈ reimbursable_names)
  /\ (forall r, scan_total_amount_due_row st = Some r ->
                contains "Total Amount Due" (py_str (cell ws r 4)) = true)
  /\ (scan_in_reimbursable st = false ->
      scan_reimbursable_subtotal_row st = None).

Lemma existsb_eqb_elem_of s l :
  existsb (String.eqb s) l = true -> s ∈ l.
Proof.
  intros (x & Hx & Heq)%existsb_exists.
  apply String.eqb_eq in Heq as ->. by apply list_elem_of_In.
Qed.

Lemma scan_description_labelled ws st row :
  scan_labelled ws st -> scan_labelled ws (scan_description ws st row).
Proof.
  intros (Ho & Hr & Hc & Ht & Hin). unfold scan_description. cbv zeta.
  destruct (truthy (cell ws row 2)) eqn:Htruthy; [|done].
  destruct (String.eqb _ "Reimbursable") eqn:E1.
  { split; [exact Ho|]. split; [exact Hr|]. split; [exact Hc|].
    split; [exact Ht|]. simpl. done. }
  destruct (String.eqb _ "Subtotal") eqn:E2.
  { apply String.eqb_eq in E2.
    destruct (scan_in_reimbursable st) eqn:E3; simpl.
    - split; [exact Ho|]. split; [simpl; by intros ? [= <-]|].
      split; [exact Hc|]. split; [exact Ht|]. simpl. congruence.
    - split; [simpl; by intros ? [= <-]|]. split; [exact Hr|].
      split; [exact Hc|]. split; [exact Ht|]. simpl. auto. }
  destruct (existsb _ _) eqn:E4; [|done].
  split; [exact Ho|]. split; [exact Hr|]. split; [|by split].
  simpl. intros r [Hr'| ->%list_elem_of_singleton]%elem_of_app;
    [by apply Hc|].
  split; [done|]. by apply existsb_eqb_elem_of.
Qed.

Lemma scan_total_due_labelled ws st row :
  scan_labelled ws st -> scan_labelled ws (scan_total_due ws st row).
Proof.
  intros (Ho & Hr & Hc & Ht & Hin). unfold scan_total_due. cbv zeta.
  destruct (truthy (cell ws row 4) && _) eqn:E; [|done].
  apply andb_true_iff in E as [_ E].
  split; [exact Ho|]. split; [exact Hr|]. split; [exact Hc|].
  split; [|exact Hin].
  simpl. by intros ? [= <-].
Qed.

Lemma scan_totals_labelled ws : scan_labelled ws (scan_totals ws).
Proof.
  unfold scan_totals. apply foldl_invariant.
  - split; [done|]. split; [done|]. split; [|done].
    intros r Hr. by apply elem_of_nil in Hr.
  - intros st row _ Hst. rewrite scan_row_halves.
    by apply scan_total_due_labelled, scan_description_labelled.
Qed.

(** Every formula starts with the equals sign, and only the overall
    subtotal row is written in column C. *)
Lemma formula_writes_text s w :
  w ∈ formula_writes s ->
  startswith (write_text w) "=" = true
  /\ (write_column w = 3%nat ->
      scan_overall_subtotal_row (totals s) = Some (write_row w)).
Proof.
  unfold formula_writes. rewrite !elem_of_app.
  intros [Hw|[Hw|[Hw|[Hw|Hw]]]].
  - unfold cost_writes in Hw.
    change (map ?f ?l) with (f <$> l) in Hw.
    apply list_elem_of_fmap in Hw as (r & -> & _). by split.
  - apply elem_of_phase_subtotal_writes in Hw
      as (? & ? & ? & ? & _ & _ & ->). by split.
  - unfold overall_writes in Hw.
    destruct (scan_overall_subtotal_row (totals s)) as [ [ | o ] | ];
      try by apply elem_of_nil in Hw.
    apply elem_of_app in Hw as [Hw|Hw].
    + destruct (all_task_rows s); [by apply elem_of_nil in Hw|].
      apply list_elem_of_singleton in Hw as ->. by split.
    + destruct (phase_subtotal_list s); [by apply elem_of_nil in Hw|].
      apply list_elem_of_singleton in Hw as ->. by split.
  - unfold reimbursable_writes in Hw.
    destruct (scan_reimbursable_subtotal_row (totals s)) as [ [ | ? ] | ],
      (scan_reimbursable_cost_rows (totals s));
      try by apply elem_of_nil in Hw.
    apply list_elem_of_singleton in Hw as ->. by split.
  - unfold total_due_writes in Hw.
    destruct (scan_total_amount_due_row (totals s)) as [ [ | ? ] | ];
      try by apply elem_of_nil in Hw.
    destruct (scan_overall_subtotal_row (totals s)) as [ [ | ? ] | ];
      try by apply elem_of_nil in Hw.
    destruct (scan_reimbursable_subtotal_row (totals s)) as [ [ | ? ] | ];
      apply list_elem_of_singleton in Hw as ->; by split.
Qed.

Lemma subtotal_not_task : "Subtotal" ∉ task_descriptions.
Proof.
  unfold task_descriptions. rewrite elem_of_list_to_set.
  rewrite !elem_of_cons, elem_of_nil. intros [|[|[|[|[|[]]]]]]; done.
Qed.

(** The rebuild leaves the data of the sheet alone.  A cell it changes
    is one it wrote a formula to: a cell of column C, E or F in a row
    of the sheet, now holding text that starts with the equals sign.
    The units and rate cells of every task row - the hours the
    populating step wrote and the template's rates - are as they were:
    the one formula written to the units column goes to the overall
    subtotal row, whose description is "Subtotal" and no task label. *)
Theorem rebuild_formulas_keeps_units (ws : worksheet) :
  (forall r, r ∈ all_task_rows (discover ws) ->
     cell (rebuild_formulas ws) r 3 = cell ws r 3
     /\ cell (rebuild_formulas ws) r 4 = cell ws r 4)
  /\ (forall r c,
        cell (rebuild_formulas ws) r c = cell ws r c
        \/ exists text,
             (r, c, text) ∈ formula_writes (discover ws)
             /\ cell (rebuild_formulas ws) r c = PStr text
             /\ in_sheet ws r
             /\ (c = 3 \/ c = 5 \/ c = 6)%nat
             /\ startswith text "=" = true)
  /\ (forall o text,
        (o, 3%nat, text) ∈ formula_writes (discover ws) ->
        description ws o = "Subtotal").
Proof.
  assert (forall o text,
            (o, 3%nat, text) ∈ formula_writes (discover ws) ->
            truthy (cell ws o 2) = true /\ description ws o = "Subtotal")
    as Hunits.
  { intros o text Hw. apply formula_writes_text in Hw as [_ Ho].
    specialize (Ho eq_refl). rewrite discover_totals in Ho.
    destruct (scan_totals_labelled ws) as (Lo & _). apply Lo. exact Ho. }
  split; [|split].
  - intros r Hr. split.
    + unfold rebuild_formulas. apply cell_apply_writes_other.
      intros [[r' c'] text] Hw Heq.
      cbv [write_row write_column fst snd] in Heq. injection Heq as -> ->.
      apply discover_task_rows in Hr as [_ [_ Hlabel]].
      apply Hunits in Hw as [_ Hd]. simpl in Hd. rewrite Hd in Hlabel.
      by apply subtotal_not_task.
    + apply (rebuild_formulas_frame ws).
  - intros r c. unfold rebuild_formulas. rewrite cell_apply_writes.
    destruct (last_write _ r c) as [text|] eqn:E; [|by left].
    right. exists text.
    apply last_write_some in E as ([[r' c'] t] & Hw & Hr & Hc & Ht).
    cbv [write_row write_column write_text fst snd] in Hr, Hc, Ht.
    subst r' c' t.
    split; [done|]. split; [done|].
    pose proof (formula_writes_inv ws _ Hw) as [Hin Hcol].
    pose proof (formula_writes_text _ _ Hw) as [Htext _].
    cbv [write_row write_column write_text fst snd] in Hin, Hcol, Htext.
    split; [done|]. split; [tauto|done].
  - intros o text Hw. apply Hunits in Hw as [_ Hd]. exact Hd.
Qed.


End WithRuntime.

End Labels.



(** ** Output file names *)

Module Filenames.

(** [f"{n:02d}"]: at least two characters, padded with a zero. *)
Definition format_02d (n : Z) : string :=
  if ((0 <=? n) && (n <? 10))%Z then "0" +:+ pretty n else pretty n.

(** The loop over the entries that both name generators start with: the
    date of the first entry whose [date] is true, [None] when the loop
    ends without one, and the [AttributeError] of [.year] on a true
    value that is not a date. *)
Fixpoint first_dated (entries : list entry) : result (option pydate) :=
  match entries with
  | [] => Ok None
  | e :: rest =>
      match date e with
      | DateVal d => Ok (Some d)
      | DateNone => first_dated rest
      | DateNum q =>
          if Qeq_bool q 0%Q then first_dated rest else Raise AttributeError
      | DateBool b => if b then Raise AttributeError else first_dated rest
      end
  end.

(** [f"invoices_{year}_{month:02d}"]. *)
Definition base_name (d : pydate) : string :=
  "invoices_" +:+ pretty (year d) +:+ "_" +:+ format_02d (month d).

(** [_generate_filename_from_entries]; [today] is what [date.today()]
    returns. *)
Definition _generate_filename_from_entries (today : pydate)
    (entries : list entry) : result string :=
  found ← first_dated entries;
  match found with
  | Some d => Ok (base_name d +:+ ".xlsx")
  | None => Ok (base_name today +:+ ".xlsx")
  end.

(** What [generate_output_filename] may raise: an exception of the entry
    loop, or its own [RuntimeError]. *)
Inductive naming_error :=
  | EntryError (e : exn)
  | RuntimeError (msg : string).

(** [f"{base_name}_{chr(suffix_char)}.xlsx"] under the output
    directory. *)
Definition candidate (output_dir base : string) (suffix_char : N)
    : string :=
  output_dir +:+ "/" +:+ base +:+ "_"
  +:+ String (ascii_of_N suffix_char) EmptyString +:+ ".xlsx".

(** The [while True] loop: it ends within 26 passes, which [fuel]
    counts. *)
Fixpoint try_suffixes (fuel : nat) (path_exists : string -> bool)
    (output_dir base : string) (suffix_char : N)
    : naming_error + string :=
  match fuel with
  | O => inl (RuntimeError "Too many output files exist")
  | S fuel' =>
      let output_path := candidate output_dir base suffix_char in
      if negb (path_exists output_path) then inr output_path
      else
        let suffix_char := (suffix_char + 1)%N in
        if (122 <? suffix_char)%N
        then inl (RuntimeError "Too many output files exist")
        else try_suffixes fuel' path_exists output_dir base suffix_char
  end.

(** [generate_output_filename]: [path_exists] is the state of the file
    system, [output_dir] the directory [OUTPUT_DIR / "invoices"]. *)
Definition generate_output_filename (today : pydate)
    (path_exists : string -> bool) (output_dir : string)
    (entries : list entry) : naming_error + string :=
  match first_dated entries with
  | Raise e => inl (EntryError e)
  | Ok found =>
      let d := default today found in
      try_suffixes 26 path_exists output_dir (base_name d) 97
  end.

(** An entry with no date, as the loop sees it. *)
Definition undated (e : entry) : Prop :=
  match date e with
  | DateNone => True
  | DateVal _ => False
  | DateNum q => Qeq_bool q 0%Q = true
  | DateBool b => b = false
  end.

Lemma first_dated_app l e rest d :
  Forall undated l -> date e = DateVal d ->
  first_dated (l ++ e :: rest) = Ok (Some d).
Proof.
  intros Hl He. induction Hl as [|x l Hx _ IH]; simpl.
  - by rewrite He.
  - unfold undated in Hx. destruct (date x) as [| |q|b]; try done.
    + by rewrite Hx.
    + by rewrite Hx.
Qed.

Lemma first_dated_none l : Forall undated l -> first_dated l = Ok None.
Proof.
  induction 1 as [|x l Hx _ IH]; simpl; [done|].
  unfold undated in Hx. destruct (date x) as [| |q|b]; try done.
  - by rewrite Hx.
  - by rewrite Hx.
Qed.

Lemma format_02d_month m :
  (1 <= m <= 12)%Z -> String.length (format_02d m) = 2%nat.
Proof.
  intros Hm.
  assert (m = 1 \/ m = 2 \/ m = 3 \/ m = 4 \/ m = 5 \/ m = 6 \/ m = 7
          \/ m = 8 \/ m = 9 \/ m = 10 \/ m = 11 \/ m = 12)%Z
    as Hcases by lia.
  repeat (destruct Hcases as [->|Hcases]; [reflexivity|]).
  by subst.
Qed.

(** The name of the download is that of the first entry, in the order
    of the reported entries, that has a date - not of the earliest
    date - whatever follows it and whatever today's date is; with no
    dated entry it is today's.  A month is always written with two
    digits. *)
Theorem filename_from_first_dated (today : pydate) (l rest : list entry)
    (e : entry) (d : pydate) :
  Forall undated l ->
  date e = DateVal d ->
  _generate_filename_from_entries today (l ++ e :: rest)
  = Ok ("invoices_" +:+ pretty (year d) +:+ "_" +:+ format_02d (month d)
        +:+ ".xlsx")
  /\ _generate_filename_from_entries today l
     = Ok ("invoices_" +:+ pretty (year today) +:+ "_"
           +:+ format_02d (month today) +:+ ".xlsx")
  /\ ((1 <= month d <= 12)%Z ->
      String.length (format_02d (month d)) = 2%nat).
Proof.
  intros Hl He. unfold _generate_filename_from_entries, base_name.
  rewrite (first_dated_app l e rest d Hl He), (first_dated_none l Hl).
  simpl. rewrite !append_assoc.
  split; [done|]. split; [done|]. apply format_02d_month.
Qed.

(** The 26 paths [generate_output_filename] tries, in order. *)
Definition candidates (output_dir base : string) : list string :=
  map (fun k => candidate output_dir base (97 + N.of_nat k))
      (seq 0 26).

Lemma try_suffixes_from fuel path_exists output_dir base c :
  (c + N.of_nat fuel = 123)%N ->
  try_suffixes fuel path_exists output_dir base c
  = match find (fun p => negb (path_exists p))
               (map (fun k => candidate output_dir base (c + N.of_nat k))
                    (seq 0 fuel)) with
    | Some p => inr p
    | None => inl (RuntimeError "Too many output files exist")
    end.
Proof.
  revert c; induction fuel as [|fuel IH]; intros c Hc; [done|].
  cbn [try_suffixes seq map find]. rewrite N.add_0_r.
  destruct (path_exists (candidate output_dir base c)); cbn [negb];
    [|done].
  destruct (N.ltb_spec 122 (c + 1)) as [Hlast|Hmore].
  - assert (fuel = 0%nat) as -> by lia. done.
  - rewrite IH by lia.
    assert (map (fun k => candidate output_dir base (c + 1 + N.of_nat k))
                (seq 0 fuel)
            = map (fun k => candidate output_dir base (c + N.of_nat k))
                  (seq 1 fuel)) as ->; [|done].
    rewrite <- seq_shift, map_map.
    apply map_ext. intros k. f_equal. lia.
Qed.

Lemma try_suffixes_find path_exists output_dir base :
  try_suffixes 26 path_exists output_dir base 97
  = match find (fun p => negb (path_exists p))
               (candidates output_dir base) with
    | Some p => inr p
    | None => inl (RuntimeError "Too many output files exist")
    end.
Proof. by apply try_suffixes_from. Qed.

(** The versioned output path is the first of the 26 candidates
    [..._a.xlsx] to [..._z.xlsx] that does not exist yet, so the file
    written never replaces an existing one and the candidates before it
    all exist; when all 26 exist the function raises its
    [RuntimeError]. *)
Theorem generate_output_filename_fresh (today : pydate)
    (path_exists : string -> bool) (output_dir : string)
    (entries : list entry) (found : option pydate) :
  first_dated entries = Ok found ->
  let paths := candidates output_dir (base_name (default today found)) in
  (forall path,
     generate_output_filename today path_exists output_dir entries
     = inr path ->
     path_exists path = false
     /\ exists i, paths !! i = Some path
                  /\ forall j p, (j < i)%nat -> paths !! j = Some p ->
                                 path_exists p = true)
  /\ (generate_output_filename today path_exists output_dir entries
      = inl (RuntimeError "Too many output files exist") <->
      Forall (fun p => path_exists p = true) paths)
  /\ (Exists (fun p => path_exists p = false) paths ->
      exists path,
        generate_output_filename today path_exists output_dir entries
        = inr path).
Proof.
  intros Hfound paths. unfold generate_output_filename.
  rewrite Hfound, try_suffixes_find. fold paths.
  generalize paths. clear. intros paths.
  induction paths as [|p paths (IH1 & IH2 & IH3)]; simpl.
  - split; [done|]. split; [done|]. by intros ?%Exists_nil.
  - destruct (path_exists p) eqn:Hp; simpl.
    + split; [|split].
      * intros path Hpath. destruct (IH1 path Hpath) as (Hfree & i & Hi & Hbefore).
        split; [done|]. exists (S i). split; [done|].
        intros [|j] q Hj; simpl; [by intros [= <-]|].
        apply Hbefore. lia.
      * rewrite IH2, Forall_cons. tauto.
      * intros [Hfalse|Hrest]%Exists_cons; [congruence|]. by apply IH3.
    + split; [|split].
      * intros path [= <-]. split; [done|]. exists 0%nat.
        split; [done|]. intros j q Hj. lia.
      * rewrite Forall_cons. split; [done|]. intros [Hex _]. congruence.
      * intros _. by exists p.
Qed.

End Filenames.



(** ** The endpoint's view of a run

    [generate_invoices_endpoint] of [src/api/routes/invoices.py], as
    far as the requests it answers and the responses it gives go; the
    request log it keeps is left out. *)

Module Api.

Record response := mk_response {
  status_code : nat;
  error : string;
  code : string;
  details : list string
}.

Definition VALIDATION_ERROR : string := "VALIDATION_ERROR".
Definition INTERNAL_ERROR : string := "INTERNAL_ERROR".

Definition newline_char : ascii := ascii_of_nat 10.

(** [s.split("\n")]. *)
Fixpoint split_lines (s : string) : list string :=
  match s with
  | EmptyString => [EmptyString]
  | String c s' =>
      if Ascii.eqb newline_char c then EmptyString :: split_lines s'
      else
        match split_lines s' with
        | [] => [String c EmptyString]
        | line :: lines => String c line :: lines
        end
  end.

(** The details of a validation failure:
    [error_msg.split("\n") if "\n" in error_msg else [error_msg]], then
    [[d.strip() for d in details if d.strip()]]. *)
Definition validation_details (error_msg : string) : list string :=
  let details :=
    if contains_char newline_char error_msg then split_lines error_msg
    else [error_msg] in
  map strip (filter (fun d => Is_true (nonempty (strip d))) details).

(** The [except] clauses: [str(e)] of an exception is its message. *)
Definition error_response (e : exn) : response :=
  match e with
  | ValueError error_msg =>
      mk_response 422 "Numbers file validation failed" VALIDATION_ERROR
        (validation_details error_msg)
  | FileNotFoundError msg =>
      mk_response 500 "Server configuration error" INTERNAL_ERROR [msg]
  | _ => mk_response 500 "Internal server error" INTERNAL_ERROR []
  end.


Section Endpoint.
Context {A : Type}.
(** [MAX_UPLOAD_SIZE_BYTES], read from the environment. *)
Variable MAX_UPLOAD_SIZE_BYTES : Z.
(** [f"{size / (1024*1024):.1f}"], the printing of a float. *)
Variable format_megabytes : Z -> string.
(** [datetime.strptime(s, "%Y-%m-%d").date()], [None] when it raises
    [ValueError]. *)
Variable strptime_Ymd : string -> option pydate.
(** The service call [generate_invoices_to_bytes] on the uploaded
    content. *)
Variable service : option pydate -> result A.


End Endpoint.

(** *** Lines *)

Lemma split_lines_cons c s :
  split_lines (String c s)
  = if Ascii.eqb newline_char c then EmptyString :: split_lines s
    else match split_lines s with
         | [] => [String c EmptyString]
         | line :: lines => String c line :: lines
         end.
Proof. reflexivity. Qed.

Lemma split_lines_one s :
  contains_char newline_char s = false -> split_lines s = [s].
Proof.
  induction s as [|c s IH]; [done|].
  rewrite Identifiers.contains_char_cons, split_lines_cons.
  destruct (Ascii.eqb newline_char c); [done|].
  intros Hs. by rewrite IH.
Qed.

Lemma split_lines_app s t :
  contains_char newline_char s = false ->
  split_lines (s +:+ newline +:+ t) = s :: split_lines t.
Proof.
  induction s as [|c s IH].
  - intros _. rewrite append_nil. unfold newline.
    rewrite append_cons, append_nil, split_lines_cons.
    by rewrite Ascii.eqb_refl.
  - rewrite Identifiers.contains_char_cons, append_cons, split_lines_cons.
    destruct (Ascii.eqb newline_char c); [done|].
    intros Hs. by rewrite IH.
Qed.

Lemma join_cons sep x y l :
  join sep (x :: y :: l) = x +:+ sep +:+ join sep (y :: l).
Proof. reflexivity. Qed.

Lemma split_lines_join msgs :
  msgs <> [] ->
  Forall (fun m => contains_char newline_char m = false) msgs ->
  split_lines (join newline msgs) = msgs.
Proof.
  intros Hne Hall. induction Hall as [|m [|m' l] Hm Hl IH]; [done| |].
  - by apply split_lines_one.
  - rewrite join_cons, split_lines_app by done. f_equal. by apply IH.
Qed.

Lemma contains_newline_join msgs :
  Forall (fun m => contains_char newline_char m = false) msgs ->
  contains_char newline_char (join newline msgs)
  = bool_decide (2 <= length msgs)%nat.
Proof.
  intros Hall. destruct Hall as [|m [|m' l] Hm Hl]; [done| |].
  - simpl. rewrite Hm. done.
  - rewrite join_cons, !Identifiers.contains_char_app, Hm. reflexivity.
Qed.

(** The lines of a joined batch are its messages. *)
Lemma validation_details_join msgs :
  msgs <> [] ->
  Forall (fun m => contains_char newline_char m = false) msgs ->
  validation_details (join newline msgs)
  = map strip (filter (fun d => Is_true (nonempty (strip d))) msgs).
Proof.
  intros Hne Hall. unfold validation_details.
  rewrite contains_newline_join by done.
  case_bool_decide as Hlen.
  - by rewrite split_lines_join.
  - destruct msgs as [|m [|m' l]]; [done|done|simpl in Hlen; lia].
Qed.

(** *** Messages that are their own stripped form *)

Lemma rstrip_app_char s c :
  isspace c = false ->
  rstrip (s +:+ String c EmptyString) = s +:+ String c EmptyString.
Proof.
  intros Hc. induction s as [|d s IH].
  - rewrite append_nil. simpl. by rewrite Hc.
  - rewrite append_cons, CoreValidation.rstrip_cons, IH.
    destruct s; [by rewrite append_nil|by rewrite append_cons].
Qed.

Lemma strip_project_id_error p :
  strip (project_id_error p) = project_id_error p
  /\ project_id_error p <> ""
  /\ contains_char newline_char (project_id_error p)
     = contains_char newline_char p.
Proof.
  unfold project_id_error. split; [|split].
  - unfold strip.
    assert (lstrip ("Project ID missing colon separator: '" +:+ p +:+ "'")
            = "Project ID missing colon separator: '" +:+ p +:+ "'") as ->.
    { rewrite append_cons. reflexivity. }
    rewrite <- append_assoc. by apply rstrip_app_char.
  - rewrite append_cons. discriminate.
  - rewrite !Identifiers.contains_char_app. simpl.
    by rewrite orb_false_r.
Qed.

(** A failed identifier validation reaches the client whole: when no
    project identifier contains a line break, the response to the
    batch error of [validate_project_ids] is a 422 whose details are
    the validator's messages, one per detail, in order.  For any batch
    of messages without line breaks, the details are the non-blank
    messages, stripped. *)
Theorem invalid_project_ids_details (es : list entry) :
  (forall msgs,
     msgs <> [] ->
     Forall (fun m => contains_char newline_char m = false) msgs ->
     validation_details (join newline msgs)
     = map strip (filter (fun d => Is_true (nonempty (strip d))) msgs))
  /\ (validate_project_ids es <> [] ->
      Forall (fun e => contains_char newline_char (project_id e) = false)
             es ->
      error_response (InvalidProjectId (validate_project_ids es))
      = mk_response 422 "Numbers file validation failed" VALIDATION_ERROR
          (validate_project_ids es)).
Proof.
  split; [apply validation_details_join|].
  intros Hne Hes. unfold InvalidProjectId, error_response. f_equal.
  assert (Forall (fun m => exists e, e ∈ es /\ m = project_id_error
                                                    (project_id e))
                 (validate_project_ids es)) as Hall.
  { apply Forall_forall. intros m Hm.
    rewrite Validation.validate_project_ids_spec in Hm.
    apply Validation.elem_of_project_id_errors in Hm as (e & ? & _ & ?).
    by exists e. }
  rewrite Forall_forall in Hes.
  rewrite validation_details_join; [|done|].
  - induction Hall as [|m l (e & He & ->) _ IH]; [done|].
    destruct (strip_project_id_error (project_id e)) as (Hs & Hn & _).
    rewrite filter_cons, Hs.
    assert (nonempty (project_id_error (project_id e)) = true) as ->.
    { unfold nonempty. apply negb_true_iff.
      by apply String.eqb_neq. }
    simpl. rewrite Hs. f_equal.
    destruct l as [|m' l']; [done|]. by apply IH.
  - eapply Forall_impl; [exact Hall|]. intros m (e & He & ->).
    destruct (strip_project_id_error (project_id e)) as (_ & _ & ->).
    by apply Hes.
Qed.


End Api.



(** ** Entries whose date is no date *)

Module MixedDates.
Import Aggregation.

(** An entry whose sort key is a number: its [date] is a number other
    than zero or [True], as a numeric or boolean date cell leaves it. *)
Definition numbered (e : entry) : Prop :=
  match date_key e with
  | KeyDate _ => False
  | KeyNum _ => True
  end.

Global Instance dated_dec e : Decision (dated e).
Proof. unfold dated. destruct (date_key e); apply _. Defined.

Global Instance numbered_dec e : Decision (numbered e).
Proof. unfold numbered. destruct (date_key e); apply _. Defined.












End MixedDates.



(** ** What the reader hands to the pipeline *)

Module Normalised.
Import Aggregation Reader.

Lemma lstrip_idem s : lstrip (lstrip s) = lstrip s.
Proof.
  induction s as [|c s IH]; [done|].
  rewrite CoreValidation.lstrip_cons.
  destruct (isspace c) eqn:E; [done|].
  by rewrite CoreValidation.lstrip_cons, E.
Qed.







Section WithRuntime.
Context `{PyRuntime}.





End WithRuntime.

End Normalised.



(** ** Sheet names across projects *)

Module SheetNames.
Import SheetName.

Lemma sanitize_char_legal_id c :
  legal c = true -> sanitize_char c = String c EmptyString.
Proof.
  destruct c as [[] [] [] [] [] [] [] []]; vm_compute; intros Hc;
    first [reflexivity | discriminate Hc].
Qed.

Lemma sanitize_legal_id s : all_chars legal s = true -> sanitize s = s.
Proof.
  induction s as [|c s IH]; [done|]. simpl.
  intros [Hc Hs]%andb_true_iff.
  rewrite sanitize_char_legal_id, IH by done.
  by rewrite append_cons, append_nil.
Qed.

Lemma sanitize_app s t : sanitize (s +:+ t) = sanitize s +:+ sanitize t.
Proof. by rewrite <- !replace_chain_sanitize, replace_chain_app. Qed.

Lemma append_inj_l s t u : s +:+ t = s +:+ u -> t = u.
Proof.
  induction s as [|c s IH]; [by rewrite !append_nil|].
  rewrite !append_cons. intros [= Heq]. by apply IH.
Qed.

(** What the names of the assembler tell apart and what they do not.
    The invoice sheet and the detail sheet of one project always differ
    and share the part before the suffix.  A name that is legal
    throughout and short enough is kept as it is.  But the naming is
    not injective across projects: the sheet name depends on the
    sanitised identifier only, so that a colon and the text " -" give
    the same name, and two identifiers that agree on the first 29
    characters after sanitising, and are longer, get the same pair of
    sheet names. *)
Theorem sheet_names_across_projects (name other : string) :
  make_sheet_name name " A" <> make_sheet_name name " B"
  /\ base_name name " A" = base_name name " B"
  /\ (forall suffix,
        all_chars legal name = true ->
        (String.length name + String.length suffix <= 31)%nat ->
        make_sheet_name name suffix = name +:+ suffix)
  /\ (forall suffix,
        sanitize name = sanitize other ->
        make_sheet_name name suffix = make_sheet_name other suffix)
  /\ (forall a b suffix,
        make_sheet_name (a +:+ ":" +:+ b) suffix
        = make_sheet_name (a +:+ " -" +:+ b) suffix)
  /\ ((29 < String.length (sanitize name))%nat ->
      (29 < String.length (sanitize other))%nat ->
      take_str 29 (sanitize name) = take_str 29 (sanitize other) ->
      make_sheet_name name " A" = make_sheet_name other " A"
      /\ make_sheet_name name " B" = make_sheet_name other " B").
Proof.
  assert (forall a b suffix,
            sanitize a = sanitize b ->
            make_sheet_name a suffix = make_sheet_name b suffix) as Hsame.
  { intros a b suffix Heq. rewrite !make_sheet_name_base.
    unfold base_name. by rewrite Heq. }
  split; [|split; [|split; [|split; [|split]]]].
  - rewrite !make_sheet_name_base.
    assert (base_name name " A" = base_name name " B") as ->
      by reflexivity.
    intros Heq%append_inj_l. discriminate Heq.
  - reflexivity.
  - intros suffix Hlegal Hlen. rewrite make_sheet_name_base.
    unfold base_name. rewrite (sanitize_legal_id name Hlegal).
    unfold MAX_SHEET_NAME_LENGTH.
    destruct (Z.ltb_spec (31 - Z.of_nat (String.length suffix))
                (Z.of_nat (String.length name))); [lia|done].
  - intros suffix. apply Hsame.
  - intros a b suffix. apply Hsame.
    rewrite !sanitize_app. reflexivity.
  - intros Hlong Hlong' Htake.
    rewrite !make_sheet_name_base. unfold base_name.
    unfold MAX_SHEET_NAME_LENGTH. cbn [String.length].
    destruct (Z.ltb_spec (31 - Z.of_nat 2)
                (Z.of_nat (String.length (sanitize name)))); [|lia].
    destruct (Z.ltb_spec (31 - Z.of_nat 2)
                (Z.of_nat (String.length (sanitize other)))); [|lia].
    unfold slice_to.
    change (0 <=? 31 - Z.of_nat 2)%Z with true. cbv iota.
    change (Z.to_nat (31 - Z.of_nat 2)) with 29%nat.
    by rewrite Htake.
Qed.

End SheetNames.



(** ** Pruning against populating *)

Module Consistency.
Import Aggregation Pruning Populate.





End Consistency.



(** ** Deleting the marked rows

    [delete_rows_from_sheet] calls openpyxl's [ws.delete_rows(idx, 1)]
    once per index.  The worksheet and that call are taken as given,
    with the rows of a sheet, top to bottom, as what is observed: the
    call removes row [idx] and moves the rows below it up by one. *)

Module Deletion.
Import Pruning.

Section Sheet.
Context {W A : Type}.
Variable rows_of : W -> list A.
Variable delete_rows : W -> nat -> W.

Definition removes_one_row : Prop :=
  forall ws idx, (1 <= idx)%nat ->
    rows_of (delete_rows ws idx) = delete (idx - 1)%nat (rows_of ws).

(** The worksheet after the loop, and the count returned. *)
Definition delete_rows_from_sheet (ws : W) (rows_to_delete : list nat)
    : W * nat :=
  (foldl delete_rows ws rows_to_delete, length rows_to_delete).

(** The rows that are not marked, numbered from [k]. *)
Fixpoint survivors_from (k : nat) (marked : list nat) (l : list A)
    : list A :=
  match l with
  | [] => []
  | x :: l' =>
      if decide (k ∈ marked) then survivors_from (S k) marked l'
      else x :: survivors_from (S k) marked l'
  end.

Definition survivors (marked : list nat) (l : list A) : list A :=
  survivors_from 1 marked l.

Lemma survivors_from_below k marked l :
  Forall (fun r => (r < k)%nat) marked -> survivors_from k marked l = l.
Proof.
  revert k; induction l as [|x l IH]; intros k Hall; simpl; [done|].
  rewrite decide_False.
  - f_equal. apply IH. eapply Forall_impl; [exact Hall|]. simpl. lia.
  - intros Hin. rewrite Forall_forall in Hall. apply Hall in Hin. lia.
Qed.

Lemma survivors_from_delete k r rest l :
  (k <= r)%nat -> Forall (fun i => (i < r)%nat) rest ->
  survivors_from k rest (delete (r - k)%nat l)
  = survivors_from k (r :: rest) l.
Proof.
  revert k; induction l as [|x l IH]; intros k Hk Hrest; [done|].
  destruct (decide (k = r)) as [->|Hne].
  - rewrite Nat.sub_diag. simpl. rewrite decide_True by left.
    rewrite survivors_from_below by done.
    rewrite survivors_from_below; [done|].
    constructor; [lia|]. eapply Forall_impl; [exact Hrest|]. simpl. lia.
  - replace (r - k)%nat with (S (r - S k)) by lia. simpl.
    rewrite IH by (done || lia).
    destruct (decide (k ∈ rest)) as [Hin|Hout].
    + rewrite decide_True by by right. done.
    + rewrite decide_False; [done|].
      intros [?|?]%elem_of_cons; [lia|done].
Qed.

Hypothesis delete_rows_spec : removes_one_row.

Lemma delete_rows_descending ws rows :
  StronglySorted gt rows -> Forall (fun r => (1 <= r)%nat) rows ->
  rows_of (foldl delete_rows ws rows) = survivors rows (rows_of ws)
  /\ (Forall (fun r => (r <= length (rows_of ws))%nat) rows ->
      (length (rows_of (foldl delete_rows ws rows)) + length rows
       = length (rows_of ws))%nat).
Proof.
  intros Hsorted. revert ws.
  induction Hsorted as [|r rest Hrest IH Hlt]; intros ws Hpos.
  - split; [|simpl; lia]. simpl. unfold survivors.
    by rewrite survivors_from_below.
  - apply Forall_cons in Hpos as [Hr Hpos]. simpl.
    destruct (IH (delete_rows ws r) Hpos) as [Hrows Hlen].
    rewrite delete_rows_spec in Hrows, Hlen by done. split.
    + rewrite Hrows. unfold survivors.
      apply survivors_from_delete; [done|].
      eapply Forall_impl; [exact Hlt|]. simpl. lia.
    + intros [Hle Hall]%Forall_cons.
      assert (length (delete (r - 1) (rows_of ws))
              = (length (rows_of ws) - 1)%nat) as Hdel.
      { apply length_delete, lookup_lt_is_Some. lia. }
      rewrite Hdel in Hlen.
      assert (Forall (fun r0 => (r0 <= length (rows_of ws) - 1)%nat) rest)
        as Hfit.
      { rewrite Forall_forall in Hlt. apply Forall_forall.
        intros x Hx. specialize (Hlt x Hx). lia. }
      specialize (Hlen Hfit). simpl. lia.
Qed.
End Sheet.

Lemma strictly_descending l :
  StronglySorted ge l -> NoDup l -> StronglySorted gt l.
Proof.
  induction 1 as [|x l Hl IH Hx]; intros Hnd; [constructor|].
  apply NoDup_cons in Hnd as [Hout Hnd].
  constructor; [by apply IH|].
  apply Forall_forall. intros y Hy.
  rewrite Forall_forall in Hx. specialize (Hx y Hy).
  assert (x <> y) by (intros ->; done). lia.
Qed.

Lemma marked_rows_positive hours_dict r :
  r ∈ marked_rows hours_dict -> (10 <= r <= 42)%nat.
Proof.
  intros (code & info & Hp & Hr)%elem_of_marked_rows.
  pose proof (section_rows_bounds _ _ _ _ Hp Hr) as Hb.
  unfold in_section in Hb. each_phase Hp; simpl in Hb; lia.
Qed.

(** Deleting the rows the pruner marks, in the order it returns them,
    removes exactly these rows: provided each [ws.delete_rows(idx, 1)]
    removes row [idx] and moves the rows below it up, the sheet is
    left with the rows whose template number is not marked, in their
    order, and - on a sheet that has the template's 42 rows - it is
    shorter by the number of marked rows, which is the count the
    function returns.  This holds for every list of row numbers in
    strictly descending order: an index is never shifted by the
    deletions made before it. *)
Theorem delete_rows_from_sheet_removes_marked {W A : Type}
    (rows_of : W -> list A) (delete_rows : W -> nat -> W) (ws : W)
    (hours_dict : gmap (string * string) Q) :
  removes_one_row rows_of delete_rows ->
  (forall rows,
     StronglySorted gt rows -> Forall (fun r => (1 <= r)%nat) rows ->
     rows_of (fst (delete_rows_from_sheet delete_rows ws rows))
     = survivors rows (rows_of ws))
  /\ exists marked,
       calculate_rows_to_delete hours_dict = Ok marked
       /\ rows_of (fst (delete_rows_from_sheet delete_rows ws marked))
          = survivors marked (rows_of ws)
       /\ snd (delete_rows_from_sheet delete_rows ws marked)
          = length marked
       /\ ((42 <= length (rows_of ws))%nat ->
           (length (rows_of (fst (delete_rows_from_sheet delete_rows ws
                                    marked)))
            + length marked = length (rows_of ws))%nat).
Proof.
  intros Hspec. split.
  - intros rows Hsorted Hpos.
    by apply (delete_rows_descending rows_of delete_rows Hspec).
  - exists (descending (marked_rows hours_dict)).
    split; [apply calculate_rows_to_delete_marked|].
    assert (forall r, r ∈ descending (marked_rows hours_dict) ->
                      (10 <= r <= 42)%nat) as Hbounds.
    { intros r Hr. unfold descending in Hr. rewrite sorted_perm in Hr.
      by apply marked_rows_positive in Hr. }
    destruct (delete_rows_descending rows_of delete_rows Hspec ws
                (descending (marked_rows hours_dict))) as [Hrows Hlen].
    + apply strictly_descending; [apply descending_sorted|].
      unfold descending. rewrite sorted_perm. apply marked_rows_NoDup.
    + apply Forall_forall. intros r Hr%Hbounds. lia.
    + split; [exact Hrows|]. split; [done|].
      intros Hlong. apply Hlen. apply Forall_forall.
      intros r Hr%Hbounds. lia.
Qed.

End Deletion.



(** ** Instances of the further properties *)

Module Instances.
Import Validation Aggregation Pruning Populate Reader.
#[local] Existing Instance Reference.runtime.

Definition two_entries : list entry :=
  [Examples.coded_entry; Examples.uncoded_entry].

(** An earlier day of the same project. *)
Definition earlier_entry : entry :=
  mk_entry "A: 1" (DateVal (mk_date 2025 10 29)) "JD" 3 "DP" "SD" "".

Lemma invoiced_projects_have_detail_witness :
  exists grouped,
    group_by_project two_entries = Ok grouped
    /\ (size (aggregate_hours two_entries) <= size grouped)%nat.
Proof.
  destruct (group_by_project two_entries) as [grouped|err] eqn:Hg;
    [|vm_compute in Hg; discriminate Hg].
  exists grouped. split; [reflexivity|].
  apply (Matrix.invoiced_projects_have_detail two_entries grouped "A: 1"
           Hg).
Defined.


Lemma group_by_project_sorted_witness :
  exists grouped,
    group_by_project (two_entries ++ [earlier_entry]) = Ok grouped
    /\ StronglySorted DetailOrder.by_date (detail_rows grouped "A: 1").
Proof.
  destruct (DetailOrder.group_by_project_sorted
              (two_entries ++ [earlier_entry]) "A: 1")
    as (grouped & Hg & Hsorted & _).
  - repeat (apply List.Forall_cons; [exact I|]). apply List.Forall_nil.
  - exists grouped. split; [exact Hg|exact Hsorted].
Defined.

(** The order the three entries end in: the undated one, then by day. *)
Example detail_rows_example :
  (grouped ← group_by_project (two_entries ++ [earlier_entry]);
   Ok (detail_rows grouped "A: 1"))
  = Ok [Examples.uncoded_entry; earlier_entry; Examples.coded_entry].
Proof. vm_compute. reflexivity. Qed.

Lemma pruning_follows_entries_witness :
  exists rows,
    calculate_rows_to_delete (matrix_slice [Examples.coded_entry] "A: 1")
    = Ok rows
    /\ (16%nat ∈ rows <->
        ~ PhaseTotals.phase_used [Examples.coded_entry] "A: 1" "SD").
Proof.
  destruct (PhaseTotals.pruning_follows_entries [Examples.coded_entry]
              "A: 1") as (rows & Hrows & Hall).
  - apply List.Forall_cons; [reflexivity|apply List.Forall_nil].
  - exists rows. split; [exact Hrows|].
    destruct (Hall "SD" (mk_phase 16 [17; 18; 19; 20] 21))
      as (Hheader & _); [|exact Hheader].
    apply list_elem_of_further, list_elem_of_here.
Defined.

Lemma create_timesheet_sheet_layout_witness :
  exists ws,
    create_timesheet_sheet two_entries = Ok ws /\ max_row ws = 4%nat.
Proof.
  destruct (create_timesheet_sheet two_entries) as [ws|err] eqn:Hws;
    [|vm_compute in Hws; discriminate Hws].
  exists ws. split; [reflexivity|].
  apply (Sheets.create_timesheet_sheet_layout two_entries ws Hws).
Defined.

(** The detail sheet of the two entries, row by row. *)
Example create_timesheet_sheet_example :
  (ws ← create_timesheet_sheet two_entries;
   Ok (map (Sheets.row_cells ws) [2; 3; 4]%nat))
  = Ok [[PStr "Thursday, October 30th 2025"; PStr "JD"; PNum 8; PStr "SD";
         PStr "PM"; PStr "W-1"];
        [PStr ""; PStr "JD"; PNum 2; PStr "SD"; PStr ""; PStr ""];
        [PStr "Total"; PNone; PStr "=SUM(C2:C3)"; PNone; PNone; PNone]].
Proof. vm_compute. reflexivity. Qed.

Lemma filename_from_first_dated_witness :
  Filenames._generate_filename_from_entries (mk_date 2026 1 5)
    ([Examples.uncoded_entry] ++ Examples.coded_entry :: [earlier_entry])
  = Ok "invoices_2025_10.xlsx".
Proof.
  destruct (Filenames.filename_from_first_dated (mk_date 2026 1 5)
              [Examples.uncoded_entry] [earlier_entry]
              Examples.coded_entry (mk_date 2025 10 30))
    as (Hname & _).
  - apply List.Forall_cons; [exact I|apply List.Forall_nil].
  - reflexivity.
  - rewrite Hname. vm_compute. reflexivity.
Defined.

(** A directory in which the first version of the month exists. *)
Definition first_taken (path : string) : bool :=
  String.eqb path "out/invoices_2025_10_a.xlsx".

Lemma generate_output_filename_fresh_witness :
  Filenames.generate_output_filename (mk_date 2026 1 5) first_taken "out"
    [Examples.coded_entry]
  = inr "out/invoices_2025_10_b.xlsx"
  /\ first_taken "out/invoices_2025_10_b.xlsx" = false.
Proof.
  assert (Filenames.generate_output_filename (mk_date 2026 1 5)
            first_taken "out" [Examples.coded_entry]
          = inr "out/invoices_2025_10_b.xlsx") as Hpath
    by (vm_compute; reflexivity).
  split; [exact Hpath|].
  destruct (Filenames.generate_output_filename_fresh (mk_date 2026 1 5)
              first_taken "out" [Examples.coded_entry]
              (Some (mk_date 2025 10 30)) eq_refl) as (Hfresh & _).
  apply (Hfresh _ Hpath).
Defined.



(** A sheet as a list of its rows, here the template's row numbers. *)
Definition delete_row (sheet : list nat) (idx : nat) : list nat :=
  delete (idx - 1)%nat sheet.

Lemma delete_rows_from_sheet_removes_marked_witness :
  exists marked,
    calculate_rows_to_delete {[ ("PM", "SD") := 10%Q ]} = Ok marked
    /\ fst (Deletion.delete_rows_from_sheet delete_row (seq 1 52) marked)
       = Deletion.survivors marked (seq 1 52).
Proof.
  destruct (Deletion.delete_rows_from_sheet_removes_marked
              (fun sheet : list nat => sheet) delete_row (seq 1 52)
              {[ ("PM", "SD") := 10%Q ]})
    as (_ & marked & Hmarked & Hrows & _).
  - intros sheet idx _. reflexivity.
  - exists marked. split; [exact Hmarked|exact Hrows].
Defined.

(** With ten hours under (PM, SD) only, the rows left are the nine
    header rows, the header, the task row and the subtotal of the phase,
    and everything from the overall subtotal on. *)
Example delete_rows_from_sheet_example :
  (marked ← calculate_rows_to_delete {[ ("PM", "SD") := 10%Q ]};
   Ok (Deletion.delete_rows_from_sheet delete_row (seq 1 52) marked))
  = Ok ([1; 2; 3; 4; 5; 6; 7; 8; 9; 16; 18; 21; 43; 44; 45; 46; 47; 48; 49;
         50; 51; 52]%nat, 30%nat).
Proof. vm_compute. reflexivity. Qed.

(** The two non-project tests on an identifier with a blank before its
    colon. *)
Example blank_before_colon_example :
  CoreValidation.is_non_project "Office : 12" = true
  /\ is_non_project (mk_entry "Office : 12" DateNone "JD" 4 "" "" "")
     = false.
Proof. split; vm_compute; reflexivity. Qed.

(** The paths tried for a month, first and last. *)
Example candidates_example :
  Filenames.candidates "out" "invoices_2025_10" !! 0%nat
  = Some "out/invoices_2025_10_a.xlsx"
  /\ Filenames.candidates "out" "invoices_2025_10" !! 25%nat
     = Some "out/invoices_2025_10_z.xlsx"
  /\ length (Filenames.candidates "out" "invoices_2025_10") = 26%nat.
Proof. repeat split; vm_compute; reflexivity. Qed.

(** The details of a batch of two messages. *)
Example validation_details_example :
  Api.validation_details
    (join newline ["Project ID missing colon separator: 'X'";
                   "Project ID missing colon separator: 'Y'"])
  = ["Project ID missing colon separator: 'X'";
     "Project ID missing colon separator: 'Y'"].
Proof. vm_compute. reflexivity. Qed.

End Instances.
